(** * A shallow embedding of the StarWars REST API

    The embedding follows [src/models.py] (the five tables and their
    [serialize] methods) and [src/app.py] (the request handlers).

    - JSON request bodies and responses are Python values ([pyval]);
      a dict is a finite map from strings.
    - A table is a finite map from the integer primary key to a row record.
    - A handler is a function from the store before the request to the
      store after it and the response; the [try/except] around every
      handler body is the function [handle].
    - What the source leaves to the deployment (which values the database
      driver adapts, which texts a column accepts, which integers the
      driver binds as a key, whether foreign keys are enforced, the text
      of an exception) is a record [Runtime]. *)

From Stdlib Require Import ZArith String Ascii List Lia.
From Stdlib Require Import Floats.SpecFloat.
From Stdlib Require Import Numbers.DecimalString.
From stdpp Require Import gmap strings list fin_maps.

Local Open Scope string_scope.
Local Open Scope Z_scope.

(** ** Python values *)

(** What [request.get_json()] can return, and what [jsonify] takes.
    [PNone] is both the JSON literal [null] and the absent body. *)
#[warnings="-register-all"]
Inductive pyval :=
| PNone
| PBool (b : bool)
| PInt (z : Z)
| PFloat (f : spec_float)
| PStr (s : string)
| PList (l : list pyval)
| PDict (d : gmap string pyval).

(** Python exceptions the handlers can meet. [HTTPException] is what
    [request.get_json()] raises on a body it cannot parse; [DBAPIError]
    stands for every error raised by the database layer while running a
    statement on the named table. *)
Inductive exn :=
| HTTPException (code : Z)
| AttributeError (v : pyval)
| TypeError (v : pyval)
| KeyError (k : string)
| DBAPIError (table : string).

Inductive result (A : Type) :=
| Ok (a : A)
| Raise (e : exn).
Arguments Ok {A} a.
Arguments Raise {A} e.

Definition bind {A B} (r : result A) (k : A -> result B) : result B :=
  match r with
  | Ok a => k a
  | Raise e => Raise e
  end.

Notation "x <- e ;; k" := (bind e (fun x => k))
  (at level 100, e at next level, right associativity).

(** Truth value of a Python value, as tested by [if not body]. *)
Definition truthy (v : pyval) : bool :=
  match v with
  | PNone => false
  | PBool b => b
  | PInt z => negb (Z.eqb z 0)
  | PFloat (S754_zero _) => false
  | PFloat _ => true
  | PStr s => negb (String.eqb s "")
  | PList l => match l with [] => false | _ => true end
  | PDict d => negb (bool_decide (d = ∅))
  end.

(** [body.get(key)]: only a dict has the method. *)
Definition py_get (body : pyval) (key : string) : result pyval :=
  match body with
  | PDict d => Ok (default PNone (d !! key))
  | _ => Raise (AttributeError body)
  end.

(** [x == key] for a string [key]. *)
Definition is_str (key : string) (x : pyval) : bool :=
  match x with
  | PStr s => String.eqb s key
  | _ => false
  end.

(** [key in s] for two strings: [key] occurs in [s]. *)
Fixpoint is_substring (key s : string) : bool :=
  if String.prefix key s then true
  else match s with
       | EmptyString => false
       | String _ s' => is_substring key s'
       end.

(** [key in body]. *)
Definition py_contains (key : string) (body : pyval) : result bool :=
  match body with
  | PDict d => Ok (bool_decide (is_Some (d !! key)))
  | PList l => Ok (existsb (is_str key) l)
  | PStr s => Ok (is_substring key s)
  | _ => Raise (TypeError body)
  end.

(** [body[key]] for a string [key]. *)
Definition py_getitem (body : pyval) (key : string) : result pyval :=
  match body with
  | PDict d => match d !! key with
               | Some v => Ok v
               | None => Raise (KeyError key)
               end
  | _ => Raise (TypeError body)
  end.

(** ** The data model ([src/models.py]) *)

(** A naive [datetime], as [datetime.utcnow()] returns it. *)
Record datetime := {
  year : N; month : N; day : N;
  hour : N; minute : N; second : N; microsecond : N
}.

Definition decimal (n : N) : string := NilEmpty.string_of_uint (N.to_uint n).

Fixpoint zeros (n : nat) : string :=
  match n with
  | O => ""
  | S n' => "0" ++ zeros n'
  end.

(** [%0<width>d] *)
Definition pad (width : nat) (n : N) : string :=
  let s := match n with N0 => "0" | _ => decimal n end in
  zeros (width - String.length s) ++ s.

(** [datetime.isoformat()] *)
Definition isoformat (t : datetime) : string :=
  pad 4 (year t) ++ "-" ++ pad 2 (month t) ++ "-" ++ pad 2 (day t) ++ "T" ++
  pad 2 (hour t) ++ ":" ++ pad 2 (minute t) ++ ":" ++ pad 2 (second t) ++
  (if N.eqb (microsecond t) 0 then "" else "." ++ pad 6 (microsecond t)).

Module User.
Record t := mk {
  username : string;
  email : string;
  password_hash : string;
  first_name : string;
  last_name : string;
  created_at : option datetime;
  is_active : option bool
}.
End User.

Module Character.
Record t := mk {
  name : string;
  height : option string;
  mass : option string;
  hair_color : option string;
  skin_color : option string;
  eye_color : option string;
  birth_year : option string;
  gender : option string;
  homeworld_id : option Z;
  description : option string;
  image_url : option string;
  created_at : option datetime
}.
End Character.

Module Planet.
Record t := mk {
  name : string;
  rotation_period : option string;
  orbital_period : option string;
  diameter : option string;
  climate : option string;
  gravity : option string;
  terrain : option string;
  surface_water : option string;
  population : option string;
  description : option string;
  image_url : option string;
  created_at : option datetime
}.
End Planet.

Module FavoriteCharacter.
Record t := mk {
  user_id : Z;
  character_id : Z;
  created_at : option datetime
}.
End FavoriteCharacter.

Module FavoritePlanet.
Record t := mk {
  user_id : Z;
  planet_id : Z;
  created_at : option datetime
}.
End FavoritePlanet.

(** The database: one table per model, keyed by the primary key [id]. *)
Record Store := {
  users : gmap Z User.t;
  characters : gmap Z Character.t;
  planets : gmap Z Planet.t;
  favorite_characters : gmap Z FavoriteCharacter.t;
  favorite_planets : gmap Z FavoritePlanet.t
}.

(** ** Serialization *)

Definition of_text (o : option string) : pyval :=
  match o with
  | Some s => PStr s
  | None => PNone
  end.

(** [self.created_at.isoformat() if self.created_at else None] *)
Definition of_created_at (o : option datetime) : pyval :=
  match o with
  | Some t => PStr (isoformat t)
  | None => PNone
  end.

(** [Planet.serialize] *)
Definition serialize_planet (id : Z) (p : Planet.t) : pyval :=
  PDict (list_to_map [
    ("id", PInt id);
    ("name", PStr (Planet.name p));
    ("rotation_period", of_text (Planet.rotation_period p));
    ("orbital_period", of_text (Planet.orbital_period p));
    ("diameter", of_text (Planet.diameter p));
    ("climate", of_text (Planet.climate p));
    ("gravity", of_text (Planet.gravity p));
    ("terrain", of_text (Planet.terrain p));
    ("surface_water", of_text (Planet.surface_water p));
    ("population", of_text (Planet.population p));
    ("description", of_text (Planet.description p));
    ("image_url", of_text (Planet.image_url p));
    ("created_at", of_created_at (Planet.created_at p))
  ]).

(** The relationship [Character.homeworld]: the planet the foreign key
    points to, if there is one. *)
Definition homeworld (st : Store) (c : Character.t) : option (Z * Planet.t) :=
  match Character.homeworld_id c with
  | Some pid => match planets st !! pid with
                | Some p => Some (pid, p)
                | None => None
                end
  | None => None
  end.

(** [Character.serialize] *)
Definition serialize_character (st : Store) (id : Z) (c : Character.t) : pyval :=
  PDict (list_to_map [
    ("id", PInt id);
    ("name", PStr (Character.name c));
    ("height", of_text (Character.height c));
    ("mass", of_text (Character.mass c));
    ("hair_color", of_text (Character.hair_color c));
    ("skin_color", of_text (Character.skin_color c));
    ("eye_color", of_text (Character.eye_color c));
    ("birth_year", of_text (Character.birth_year c));
    ("gender", of_text (Character.gender c));
    ("homeworld", match homeworld st c with
                  | Some (pid, p) => serialize_planet pid p
                  | None => PNone
                  end);
    ("description", of_text (Character.description c));
    ("image_url", of_text (Character.image_url c));
    ("created_at", of_created_at (Character.created_at c))
  ]).

(** [FavoriteCharacter.serialize] *)
Definition serialize_favorite_character (st : Store) (id : Z)
    (f : FavoriteCharacter.t) : pyval :=
  PDict (list_to_map [
    ("id", PInt id);
    ("user_id", PInt (FavoriteCharacter.user_id f));
    ("character_id", PInt (FavoriteCharacter.character_id f));
    ("character",
       match characters st !! FavoriteCharacter.character_id f with
       | Some c => serialize_character st (FavoriteCharacter.character_id f) c
       | None => PNone
       end);
    ("created_at", of_created_at (FavoriteCharacter.created_at f))
  ]).

(** [FavoritePlanet.serialize] *)
Definition serialize_favorite_planet (st : Store) (id : Z)
    (f : FavoritePlanet.t) : pyval :=
  PDict (list_to_map [
    ("id", PInt id);
    ("user_id", PInt (FavoritePlanet.user_id f));
    ("planet_id", PInt (FavoritePlanet.planet_id f));
    ("planet",
       match planets st !! FavoritePlanet.planet_id f with
       | Some p => serialize_planet (FavoritePlanet.planet_id f) p
       | None => PNone
       end);
    ("created_at", of_created_at (FavoritePlanet.created_at f))
  ]).

(** ** The deployment *)

(** The parts of the database layer that [src/] does not determine.
    A [str] and [None] are bound as they are; everything else is up to the
    driver and the database selected by [DATABASE_URL]. *)
Record Runtime := {
  (** the database accepts this text in a column declared [String(n)]
      ([Some n]) or [Text] ([None]) *)
  text_ok : option nat -> string -> bool;
  (** what is stored when a value that is neither [str] nor [None] is
      written to a text column: [Some (Some s)] for the text [s],
      [Some None] for NULL (the sqlite3 driver stores the float NaN so),
      [None] when the statement fails *)
  adapt_text : option nat -> pyval -> option (option string);
  (** what a value that is neither [str] nor [None] is compared as in
      [WHERE name = ?]: a text, NULL (which no name equals), or [None]
      when the statement fails *)
  adapt_param : pyval -> option (option string);
  (** the database accepts this integer in an [Integer] column *)
  int_ok : Z -> bool;
  (** what is stored when a value that is neither [int] nor [None] is
      written to an [Integer] column: an integer, NULL, or [None] when the
      statement fails *)
  adapt_int : pyval -> option (option Z);
  (** the driver binds this integer, beyond those of 32 bits, as the
      parameter a query compares a key with (the sqlite3 driver raises
      [OverflowError] from 2^63 on) *)
  key_ok : Z -> bool;
  (** foreign keys are enforced *)
  foreign_keys : bool;
  (** [str(e)] *)
  str_exn : exn -> string
}.

(** ** Store updates *)

Definition set_characters (st : Store) (m : gmap Z Character.t) : Store :=
  {| users := users st; characters := m; planets := planets st;
     favorite_characters := favorite_characters st;
     favorite_planets := favorite_planets st |}.

Definition set_planets (st : Store) (m : gmap Z Planet.t) : Store :=
  {| users := users st; characters := characters st; planets := m;
     favorite_characters := favorite_characters st;
     favorite_planets := favorite_planets st |}.

Definition set_favorite_characters (st : Store)
    (m : gmap Z FavoriteCharacter.t) : Store :=
  {| users := users st; characters := characters st; planets := planets st;
     favorite_characters := m;
     favorite_planets := favorite_planets st |}.

Definition set_favorite_planets (st : Store)
    (m : gmap Z FavoritePlanet.t) : Store :=
  {| users := users st; characters := characters st; planets := planets st;
     favorite_characters := favorite_characters st;
     favorite_planets := m |}.

(** The autoincremented primary key of the next row of a table: one more
    than the largest key in use (1 for an empty table), as the default
    SQLite store assigns it. *)
Definition next_id {A} (t : gmap Z A) : Z :=
  1 + foldr Z.max 0 (map_to_list t).*1.

(** [query.first()]: some row of the result, [None] when there is none. *)
Definition first {A} (q : gmap Z A) : option (Z * A) :=
  head (map_to_list q).

(** The JSON bodies [{"error": msg}] and [{"message": msg}]. *)
Definition error (msg : string) : pyval := PDict {[ "error" := PStr msg ]}.
Definition message (msg : string) : pyval := PDict {[ "message" := PStr msg ]}.

(** A Flask response: the pair of the body given to [jsonify] and the status. *)
Definition Response : Type := pyval * Z.

(** [x == z] for a Python float [x] and an integer [z] (exact). *)
Definition float_eq_int (f : spec_float) (z : Z) : bool :=
  match f with
  | S754_zero _ => Z.eqb z 0
  | S754_finite s m e =>
      let v := if s then Z.neg m else Z.pos m in
      if Z.leb 0 e then Z.eqb (v * 2 ^ e) z else Z.eqb v (z * 2 ^ (- e))
  | _ => false
  end.

(** The ORM emits no UPDATE for an attribute set to a value equal ([==])
    to the loaded one. *)
Definition same_text (old : option string) (v : pyval) : bool :=
  match old, v with
  | None, PNone => true
  | Some s, PStr s' => String.eqb s s'
  | _, _ => false
  end.

Definition same_int (old : option Z) (v : pyval) : bool :=
  match old, v with
  | None, PNone => true
  | Some z, PInt z' => Z.eqb z z'
  | Some z, PBool b => Z.eqb z (if b then 1 else 0)
  | Some z, PFloat f => float_eq_int f z
  | _, _ => false
  end.

(** ** The session and the request handlers ([src/app.py]) *)

Section App.
Variable rt : Runtime.

(** *** Binding Python values to columns *)

Definition bind_text (table : string) (maxlen : option nat) (v : pyval)
    : result (option string) :=
  match v with
  | PNone => Ok None
  | PStr s => if text_ok rt maxlen s then Ok (Some s)
              else Raise (DBAPIError table)
  | _ => match adapt_text rt maxlen v with
         | Some o => Ok o
         | None => Raise (DBAPIError table)
         end
  end.

Definition bind_int (table : string) (v : pyval) : result (option Z) :=
  match v with
  | PNone => Ok None
  | PInt z => if int_ok rt z then Ok (Some z) else Raise (DBAPIError table)
  | _ => match adapt_int rt v with
         | Some o => Ok o
         | None => Raise (DBAPIError table)
         end
  end.

(** [nullable=False] *)
Definition not_null {A} (table : string) (o : option A) : result A :=
  match o with
  | Some a => Ok a
  | None => Raise (DBAPIError table)
  end.

(** [db.ForeignKey('planets.id')] on a nullable column. *)
Definition references_planet (table : string) (st : Store) (o : option Z)
    : result (option Z) :=
  match o with
  | None => Ok None
  | Some pid =>
      if foreign_keys rt && negb (bool_decide (is_Some (planets st !! pid)))
      then Raise (DBAPIError table)
      else Ok (Some pid)
  end.

(** An attribute of a loaded row at commit: [new] is the value the
    handler assigned, if it assigned one. *)
Definition flush_text (table : string) (maxlen : option nat)
    (old : option string) (new : option pyval) : result (option string) :=
  match new with
  | None => Ok old
  | Some v => if same_text old v then Ok old else bind_text table maxlen v
  end.

Definition flush_homeworld_id (st : Store) (old : option Z)
    (new : option pyval) : result (option Z) :=
  match new with
  | None => Ok old
  | Some v =>
      if same_int old v then Ok old
      else o <- bind_int "characters" v ;;
           references_planet "characters" st o
  end.

(** [Model.query.filter_by(name=v)] *)
Definition filter_by_name {A} (table : string) (name_of : A -> string)
    (t : gmap Z A) (v : pyval) : result (gmap Z A) :=
  match v with
  | PNone => Ok ∅
  | PStr s => Ok (filter (λ kv, name_of kv.2 = s) t)
  | _ => match adapt_param rt v with
         | Some (Some s) => Ok (filter (λ kv, name_of kv.2 = s) t)
         | Some None => Ok ∅
         | None => Raise (DBAPIError table)
         end
  end.

(** *** Keys given in the path *)

(** The driver binds the integer [id] as the parameter a query compares a
    key with: every driver does so for an integer of 32 bits, and the
    deployment says for which others. *)
Definition binds (id : Z) : bool :=
  (Z.leb (-2147483648) id && Z.ltb id 2147483648) || key_ok rt id.

(** [Model.query.get(id)]. A key in use is a key the driver binds; for a
    key that is not in use the query answers [None] when the driver binds
    it and fails otherwise. *)
Definition query_get {A} (table : string) (t : gmap Z A) (id : Z)
    : result (option A) :=
  match t !! id with
  | Some row => Ok (Some row)
  | None => if binds id then Ok None else Raise (DBAPIError table)
  end.

(** [.first()] of a query [q] that compares a column with the key [id] of
    the path: some row of the result; without one, [None] when the driver
    binds [id], and a failure otherwise. *)
Definition first_by {A} (table : string) (q : gmap Z A) (id : Z)
    : result (option (Z * A)) :=
  match first q with
  | Some row => Ok (Some row)
  | None => if binds id then Ok None else Raise (DBAPIError table)
  end.

(** [try: ... except Exception as e: db.session.rollback();
    return jsonify({"error": str(e)}), 500] *)
Definition handle (st : Store) (r : result (Store * Response))
    : Store * Response :=
  match r with
  | Ok x => x
  | Raise e => (st, (error (str_exn rt e), 500))
  end.

(** *** Characters *)

(** [db.session.add(Character(...)); db.session.commit()]: the INSERT. *)
Definition insert_character (now : datetime) (st : Store)
    (name height mass hair_color skin_color eye_color birth_year gender
     homeworld_id description image_url : pyval)
    : result (Z * Character.t) :=
  name' <- bind_text "characters" (Some 100%nat) name ;;
  name' <- not_null "characters" name' ;;
  height' <- bind_text "characters" (Some 10%nat) height ;;
  mass' <- bind_text "characters" (Some 10%nat) mass ;;
  hair_color' <- bind_text "characters" (Some 50%nat) hair_color ;;
  skin_color' <- bind_text "characters" (Some 50%nat) skin_color ;;
  eye_color' <- bind_text "characters" (Some 50%nat) eye_color ;;
  birth_year' <- bind_text "characters" (Some 20%nat) birth_year ;;
  gender' <- bind_text "characters" (Some 20%nat) gender ;;
  homeworld_id' <- bind_int "characters" homeworld_id ;;
  homeworld_id' <- references_planet "characters" st homeworld_id' ;;
  description' <- bind_text "characters" None description ;;
  image_url' <- bind_text "characters" (Some 255%nat) image_url ;;
  Ok (next_id (characters st),
      Character.mk name' height' mass' hair_color' skin_color' eye_color'
        birth_year' gender' homeworld_id' description' image_url'
        (Some now)).

(** [POST /people]. The argument [get_json] is the outcome of
    [request.get_json()]: the parsed body, [PNone] when it returns [None],
    or the exception it raises; [now] is what [datetime.utcnow()] returns
    when the row is written. *)
Definition create_person (now : datetime) (st : Store)
    (get_json : result pyval) : Store * Response :=
  handle st (
    body <- get_json ;;
    if negb (truthy body) then
      Ok (st, (error "Request body is required", 400))
    else
      name <- py_get body "name" ;;
      if negb (truthy name) then
        Ok (st, (error "Name is required", 400))
      else
        existing <- filter_by_name "characters" Character.name
                      (characters st) name ;;
        match first existing with
        | Some _ =>
            Ok (st, (error "Character with this name already exists", 400))
        | None =>
            name <- py_get body "name" ;;
            height <- py_get body "height" ;;
            mass <- py_get body "mass" ;;
            hair_color <- py_get body "hair_color" ;;
            skin_color <- py_get body "skin_color" ;;
            eye_color <- py_get body "eye_color" ;;
            birth_year <- py_get body "birth_year" ;;
            gender <- py_get body "gender" ;;
            homeworld_id <- py_get body "homeworld_id" ;;
            description <- py_get body "description" ;;
            image_url <- py_get body "image_url" ;;
            new <- insert_character now st name height mass hair_color
                     skin_color eye_color birth_year gender homeworld_id
                     description image_url ;;
            let st' := set_characters st (<[new.1 := new.2]> (characters st)) in
            Ok (st', (serialize_character st' new.1 new.2, 201))
        end).

(** [body[key]] under the guard [if key in body]. *)
Definition provided (body : pyval) (key : string) : result (option pyval) :=
  present <- py_contains key body ;;
  if present : bool then v <- py_getitem body key ;; Ok (Some v)
  else Ok None.

(** [db.session.commit()] after the attribute assignments: the UPDATE. *)
Definition update_character (st : Store) (character : Character.t)
    (name height mass hair_color skin_color eye_color birth_year gender
     homeworld_id description image_url : option pyval)
    : result Character.t :=
  name' <- flush_text "characters" (Some 100%nat)
             (Some (Character.name character)) name ;;
  name' <- not_null "characters" name' ;;
  height' <- flush_text "characters" (Some 10%nat)
               (Character.height character) height ;;
  mass' <- flush_text "characters" (Some 10%nat)
             (Character.mass character) mass ;;
  hair_color' <- flush_text "characters" (Some 50%nat)
                   (Character.hair_color character) hair_color ;;
  skin_color' <- flush_text "characters" (Some 50%nat)
                   (Character.skin_color character) skin_color ;;
  eye_color' <- flush_text "characters" (Some 50%nat)
                  (Character.eye_color character) eye_color ;;
  birth_year' <- flush_text "characters" (Some 20%nat)
                   (Character.birth_year character) birth_year ;;
  gender' <- flush_text "characters" (Some 20%nat)
               (Character.gender character) gender ;;
  homeworld_id' <- flush_homeworld_id st
                     (Character.homeworld_id character) homeworld_id ;;
  description' <- flush_text "characters" None
                    (Character.description character) description ;;
  image_url' <- flush_text "characters" (Some 255%nat)
                  (Character.image_url character) image_url ;;
  Ok (Character.mk name' height' mass' hair_color' skin_color' eye_color'
        birth_year' gender' homeworld_id' description' image_url'
        (Character.created_at character)).

(** [PUT /people/<int:people_id>] *)
Definition update_person (st : Store) (people_id : Z)
    (get_json : result pyval) : Store * Response :=
  handle st (
    character <- query_get "characters" (characters st) people_id ;;
    match character with
    | None => Ok (st, (error "Character not found", 404))
    | Some character =>
        body <- get_json ;;
        if negb (truthy body) then
          Ok (st, (error "Request body is required", 400))
        else
          name <- provided body "name" ;;
          height <- provided body "height" ;;
          mass <- provided body "mass" ;;
          hair_color <- provided body "hair_color" ;;
          skin_color <- provided body "skin_color" ;;
          eye_color <- provided body "eye_color" ;;
          birth_year <- provided body "birth_year" ;;
          gender <- provided body "gender" ;;
          homeworld_id <- provided body "homeworld_id" ;;
          description <- provided body "description" ;;
          image_url <- provided body "image_url" ;;
          character' <- update_character st character name height mass
                          hair_color skin_color eye_color birth_year gender
                          homeworld_id description image_url ;;
          let st' := set_characters st
                       (<[people_id := character']> (characters st)) in
          Ok (st', (serialize_character st' people_id character', 200))
    end).

(** [db.session.delete(character); db.session.commit()].
    [Character.favorite_by_users] has no delete cascade, so the session
    first sets [character_id] of the favorites of this character to NULL;
    the column is [nullable=False] and that UPDATE fails. Without such
    favorites the row is deleted by its key, which the driver has to
    bind. *)
Definition delete_character (st : Store) (people_id : Z) : result Store :=
  if bool_decide (filter (λ kv, FavoriteCharacter.character_id kv.2 = people_id)
                    (favorite_characters st) = ∅)
  then if binds people_id
       then Ok (set_characters st (delete people_id (characters st)))
       else Raise (DBAPIError "characters")
  else Raise (DBAPIError "favorite_characters").

(** [DELETE /people/<int:people_id>] *)
Definition delete_person (st : Store) (people_id : Z) : Store * Response :=
  handle st (
    character <- query_get "characters" (characters st) people_id ;;
    match character with
    | None => Ok (st, (error "Character not found", 404))
    | Some character =>
        st' <- delete_character st people_id ;;
        Ok (st', (message ("Character " ++ Character.name character
                             ++ " deleted successfully"), 200))
    end).

(** *** Planets *)

Definition insert_planet (now : datetime) (st : Store)
    (name rotation_period orbital_period diameter climate gravity terrain
     surface_water population description image_url : pyval)
    : result (Z * Planet.t) :=
  name' <- bind_text "planets" (Some 100%nat) name ;;
  name' <- not_null "planets" name' ;;
  rotation_period' <- bind_text "planets" (Some 20%nat) rotation_period ;;
  orbital_period' <- bind_text "planets" (Some 20%nat) orbital_period ;;
  diameter' <- bind_text "planets" (Some 20%nat) diameter ;;
  climate' <- bind_text "planets" (Some 100%nat) climate ;;
  gravity' <- bind_text "planets" (Some 50%nat) gravity ;;
  terrain' <- bind_text "planets" (Some 200%nat) terrain ;;
  surface_water' <- bind_text "planets" (Some 10%nat) surface_water ;;
  population' <- bind_text "planets" (Some 20%nat) population ;;
  description' <- bind_text "planets" None description ;;
  image_url' <- bind_text "planets" (Some 255%nat) image_url ;;
  Ok (next_id (planets st),
      Planet.mk name' rotation_period' orbital_period' diameter' climate'
        gravity' terrain' surface_water' population' description'
        image_url' (Some now)).

(** [POST /planets] *)
Definition create_planet (now : datetime) (st : Store)
    (get_json : result pyval) : Store * Response :=
  handle st (
    body <- get_json ;;
    if negb (truthy body) then
      Ok (st, (error "Request body is required", 400))
    else
      name <- py_get body "name" ;;
      if negb (truthy name) then
        Ok (st, (error "Name is required", 400))
      else
        existing <- filter_by_name "planets" Planet.name
                      (planets st) name ;;
        match first existing with
        | Some _ =>
            Ok (st, (error "Planet with this name already exists", 400))
        | None =>
            name <- py_get body "name" ;;
            rotation_period <- py_get body "rotation_period" ;;
            orbital_period <- py_get body "orbital_period" ;;
            diameter <- py_get body "diameter" ;;
            climate <- py_get body "climate" ;;
            gravity <- py_get body "gravity" ;;
            terrain <- py_get body "terrain" ;;
            surface_water <- py_get body "surface_water" ;;
            population <- py_get body "population" ;;
            description <- py_get body "description" ;;
            image_url <- py_get body "image_url" ;;
            new <- insert_planet now st name rotation_period orbital_period
                     diameter climate gravity terrain surface_water
                     population description image_url ;;
            let st' := set_planets st (<[new.1 := new.2]> (planets st)) in
            Ok (st', (serialize_planet new.1 new.2, 201))
        end).

Definition update_planet_row (planet : Planet.t)
    (name rotation_period orbital_period diameter climate gravity terrain
     surface_water population description image_url : option pyval)
    : result Planet.t :=
  name' <- flush_text "planets" (Some 100%nat)
             (Some (Planet.name planet)) name ;;
  name' <- not_null "planets" name' ;;
  rotation_period' <- flush_text "planets" (Some 20%nat)
                        (Planet.rotation_period planet) rotation_period ;;
  orbital_period' <- flush_text "planets" (Some 20%nat)
                       (Planet.orbital_period planet) orbital_period ;;
  diameter' <- flush_text "planets" (Some 20%nat)
                 (Planet.diameter planet) diameter ;;
  climate' <- flush_text "planets" (Some 100%nat)
                (Planet.climate planet) climate ;;
  gravity' <- flush_text "planets" (Some 50%nat)
                (Planet.gravity planet) gravity ;;
  terrain' <- flush_text "planets" (Some 200%nat)
                (Planet.terrain planet) terrain ;;
  surface_water' <- flush_text "planets" (Some 10%nat)
                      (Planet.surface_water planet) surface_water ;;
  population' <- flush_text "planets" (Some 20%nat)
                   (Planet.population planet) population ;;
  description' <- flush_text "planets" None
                    (Planet.description planet) description ;;
  image_url' <- flush_text "planets" (Some 255%nat)
                  (Planet.image_url planet) image_url ;;
  Ok (Planet.mk name' rotation_period' orbital_period' diameter' climate'
        gravity' terrain' surface_water' population' description'
        image_url' (Planet.created_at planet)).

(** [PUT /planets/<int:planet_id>] *)
Definition update_planet (st : Store) (planet_id : Z)
    (get_json : result pyval) : Store * Response :=
  handle st (
    planet <- query_get "planets" (planets st) planet_id ;;
    match planet with
    | None => Ok (st, (error "Planet not found", 404))
    | Some planet =>
        body <- get_json ;;
        if negb (truthy body) then
          Ok (st, (error "Request body is required", 400))
        else
          name <- provided body "name" ;;
          rotation_period <- provided body "rotation_period" ;;
          orbital_period <- provided body "orbital_period" ;;
          diameter <- provided body "diameter" ;;
          climate <- provided body "climate" ;;
          gravity <- provided body "gravity" ;;
          terrain <- provided body "terrain" ;;
          surface_water <- provided body "surface_water" ;;
          population <- provided body "population" ;;
          description <- provided body "description" ;;
          image_url <- provided body "image_url" ;;
          planet' <- update_planet_row planet name rotation_period
                       orbital_period diameter climate gravity terrain
                       surface_water population description image_url ;;
          let st' := set_planets st (<[planet_id := planet']> (planets st)) in
          Ok (st', (serialize_planet planet_id planet', 200))
    end).

(** The row of a character once its home planet [planet_id] is deleted:
    the backref [Planet.native_characters] has no delete cascade, so the
    session sets the nullable [homeworld_id] to NULL. *)
Definition forget_homeworld (planet_id : Z) (c : Character.t) : Character.t :=
  if bool_decide (Character.homeworld_id c = Some planet_id) then
    Character.mk (Character.name c) (Character.height c) (Character.mass c)
      (Character.hair_color c) (Character.skin_color c)
      (Character.eye_color c) (Character.birth_year c) (Character.gender c)
      None (Character.description c) (Character.image_url c)
      (Character.created_at c)
  else c.

(** [db.session.delete(planet); db.session.commit()].
    [Planet.favorite_by_users] has no delete cascade either, and
    [FavoritePlanet.planet_id] is [nullable=False]. Without favorites of
    the planet the row is deleted by its key, which the driver has to
    bind. *)
Definition delete_planet_row (st : Store) (planet_id : Z) : result Store :=
  if bool_decide (filter (λ kv, FavoritePlanet.planet_id kv.2 = planet_id)
                    (favorite_planets st) = ∅)
  then if binds planet_id
       then Ok {| users := users st;
                  characters := forget_homeworld planet_id <$> characters st;
                  planets := delete planet_id (planets st);
                  favorite_characters := favorite_characters st;
                  favorite_planets := favorite_planets st |}
       else Raise (DBAPIError "planets")
  else Raise (DBAPIError "favorite_planets").

(** [DELETE /planets/<int:planet_id>] *)
Definition delete_planet (st : Store) (planet_id : Z) : Store * Response :=
  handle st (
    planet <- query_get "planets" (planets st) planet_id ;;
    match planet with
    | None => Ok (st, (error "Planet not found", 404))
    | Some planet =>
        st' <- delete_planet_row st planet_id ;;
        Ok (st', (message ("Planet " ++ Planet.name planet
                             ++ " deleted successfully"), 200))
    end).

(** *** Favorites *)

Definition current_user_id : Z := 1.

(** [POST /favorite/planet/<int:planet_id>]. The query for an existing
    favorite binds the key of the planet just found. The INSERT of the
    favorite cannot fail: the handler has just found the two referenced
    rows and no row with the same pair. *)
Definition add_favorite_planet (now : datetime) (st : Store) (planet_id : Z)
    : Store * Response :=
  handle st (
    user <- query_get "users" (users st) current_user_id ;;
    match user with
    | None => Ok (st, (error "User not found", 404))
    | Some user =>
        planet <- query_get "planets" (planets st) planet_id ;;
        match planet with
        | None => Ok (st, (error "Planet not found", 404))
        | Some planet =>
            let existing_favorite :=
              first (filter (λ kv,
                       FavoritePlanet.user_id kv.2 = current_user_id
                       ∧ FavoritePlanet.planet_id kv.2 = planet_id)
                     (favorite_planets st)) in
            match existing_favorite with
            | Some _ =>
                Ok (st, (error "Planet is already in favorites", 400))
            | None =>
                let favorite :=
                  FavoritePlanet.mk current_user_id planet_id (Some now) in
                let id := next_id (favorite_planets st) in
                let st' := set_favorite_planets st
                             (<[id := favorite]> (favorite_planets st)) in
                Ok (st', (serialize_favorite_planet st' id favorite, 201))
            end
        end
    end).

(** [POST /favorite/people/<int:people_id>] *)
Definition add_favorite_people (now : datetime) (st : Store) (people_id : Z)
    : Store * Response :=
  handle st (
    user <- query_get "users" (users st) current_user_id ;;
    match user with
    | None => Ok (st, (error "User not found", 404))
    | Some user =>
        character <- query_get "characters" (characters st) people_id ;;
        match character with
        | None => Ok (st, (error "Character not found", 404))
        | Some character =>
            let existing_favorite :=
              first (filter (λ kv,
                       FavoriteCharacter.user_id kv.2 = current_user_id
                       ∧ FavoriteCharacter.character_id kv.2 = people_id)
                     (favorite_characters st)) in
            match existing_favorite with
            | Some _ =>
                Ok (st, (error "Character is already in favorites", 400))
            | None =>
                let favorite :=
                  FavoriteCharacter.mk current_user_id people_id (Some now) in
                let id := next_id (favorite_characters st) in
                let st' := set_favorite_characters st
                             (<[id := favorite]> (favorite_characters st)) in
                Ok (st', (serialize_favorite_character st' id favorite, 201))
            end
        end
    end).
End App.

(** *** Deleting a user *)

(** Modelled from the spec: the operation that deletes a User. No handler
    of [src/app.py] deletes a user (the admin views of [admin.py] are not
    part of the sources at hand). The spec says that deleting a User
    removes the row and cascades to all of that user's favorite rows, which
    is what [cascade='all, delete-orphan'] on [User.favorite_characters]
    and [User.favorite_planets] in [src/models.py] declares. *)
Definition delete_user (st : Store) (user_id : Z) : Store :=
  {| users := delete user_id (users st);
     characters := characters st;
     planets := planets st;
     favorite_characters :=
       filter (λ kv, FavoriteCharacter.user_id kv.2 ≠ user_id)
         (favorite_characters st);
     favorite_planets :=
       filter (λ kv, FavoritePlanet.user_id kv.2 ≠ user_id)
         (favorite_planets st) |}.

(** ** The statements a request leads to *)

(** The value [d.get(key)] of a key of a JSON object. *)
Definition get (d : gmap string pyval) (key : string) : pyval :=
  default PNone (d !! key).

(** The INSERT that a POST /people with the JSON object [d] leads to. *)
Definition post_character (rt : Runtime) (now : datetime) (st : Store)
    (d : gmap string pyval) : result (Z * Character.t) :=
  insert_character rt now st (get d "name") (get d "height") (get d "mass")
    (get d "hair_color") (get d "skin_color") (get d "eye_color")
    (get d "birth_year") (get d "gender") (get d "homeworld_id")
    (get d "description") (get d "image_url").

(** The INSERT that a POST /planets with the JSON object [d] leads to. *)
Definition post_planet (rt : Runtime) (now : datetime) (st : Store)
    (d : gmap string pyval) : result (Z * Planet.t) :=
  insert_planet rt now st (get d "name") (get d "rotation_period")
    (get d "orbital_period") (get d "diameter") (get d "climate")
    (get d "gravity") (get d "terrain") (get d "surface_water")
    (get d "population") (get d "description") (get d "image_url").

(** The UPDATE that a PUT /people/<id> with the JSON object [d] leads to. *)
Definition put_character (rt : Runtime) (st : Store) (c : Character.t)
    (d : gmap string pyval) : result Character.t :=
  update_character rt st c (d !! "name") (d !! "height") (d !! "mass")
    (d !! "hair_color") (d !! "skin_color") (d !! "eye_color")
    (d !! "birth_year") (d !! "gender") (d !! "homeworld_id")
    (d !! "description") (d !! "image_url").

(** The UPDATE that a PUT /planets/<id> with the JSON object [d] leads to. *)
Definition put_planet (rt : Runtime) (p : Planet.t)
    (d : gmap string pyval) : result Planet.t :=
  update_planet_row rt p (d !! "name") (d !! "rotation_period")
    (d !! "orbital_period") (d !! "diameter") (d !! "climate")
    (d !! "gravity") (d !! "terrain") (d !! "surface_water")
    (d !! "population") (d !! "description") (d !! "image_url").

(** A text column after an update: [old] is its value before, [new] the
    value supplied in the body (if the key is present) and [now] its value
    after. A value that is neither a string nor null is stored as the
    driver adapts it, which may be as NULL. *)
Definition text_updated (rt : Runtime) (maxlen : option nat)
    (new : option pyval) (old now : option string) : Prop :=
  match new with
  | None => now = old
  | Some PNone => now = None
  | Some (PStr s) => now = Some s
  | Some v => adapt_text rt maxlen v = Some now
  end.

(** The same for the integer column [homeworld_id]. A boolean or a float
    that equals ([==]) the stored integer is no change; any other value
    that is neither an integer nor null is stored as the driver adapts
    it. *)
Definition int_updated (rt : Runtime)
    (new : option pyval) (old now : option Z) : Prop :=
  match new with
  | None => now = old
  | Some PNone => now = None
  | Some (PInt z) => now = Some z
  | Some v => if same_int old v then now = old
              else adapt_int rt v = Some now
  end.

(** What the name [v] of a body is compared as in [WHERE name = ?]: a
    string as it is, any other value as the driver adapts it;
    [Some None] stands for NULL, which no name equals, and [None] for a
    statement that fails. *)
Definition compared_as (rt : Runtime) (v : pyval) : option (option string) :=
  match v with
  | PNone => Some None
  | PStr s => Some (Some s)
  | _ => adapt_param rt v
  end.

(** The row [c'] of a character after a PUT with the JSON object [d] on
    the row [c]: every updatable column is related to the body as
    [text_updated] and [int_updated] say, and [created_at] is kept. *)
Definition character_updated (rt : Runtime) (d : gmap string pyval)
    (c c' : Character.t) : Prop :=
  text_updated rt (Some 100%nat) (d !! "name")
    (Some (Character.name c)) (Some (Character.name c'))
  ∧ text_updated rt (Some 10%nat) (d !! "height")
      (Character.height c) (Character.height c')
  ∧ text_updated rt (Some 10%nat) (d !! "mass")
      (Character.mass c) (Character.mass c')
  ∧ text_updated rt (Some 50%nat) (d !! "hair_color")
      (Character.hair_color c) (Character.hair_color c')
  ∧ text_updated rt (Some 50%nat) (d !! "skin_color")
      (Character.skin_color c) (Character.skin_color c')
  ∧ text_updated rt (Some 50%nat) (d !! "eye_color")
      (Character.eye_color c) (Character.eye_color c')
  ∧ text_updated rt (Some 20%nat) (d !! "birth_year")
      (Character.birth_year c) (Character.birth_year c')
  ∧ text_updated rt (Some 20%nat) (d !! "gender")
      (Character.gender c) (Character.gender c')
  ∧ int_updated rt (d !! "homeworld_id")
      (Character.homeworld_id c) (Character.homeworld_id c')
  ∧ text_updated rt None (d !! "description")
      (Character.description c) (Character.description c')
  ∧ text_updated rt (Some 255%nat) (d !! "image_url")
      (Character.image_url c) (Character.image_url c')
  ∧ Character.created_at c' = Character.created_at c.


(** ** Two deployments and a few stores, for the examples *)

Definition describe (e : exn) : string :=
  match e with
  | HTTPException _ => "HTTPException"
  | AttributeError _ => "AttributeError"
  | TypeError _ => "TypeError"
  | KeyError k => k
  | DBAPIError table => "DBAPIError " ++ table
  end.

(** Declared lengths and foreign keys are enforced, only [str], [int]
    and [None] are bound, and every integer is bound as a key. *)
Definition strict : Runtime :=
  {| text_ok := λ maxlen s,
       match maxlen with
       | Some n => Nat.leb (String.length s) n
       | None => true
       end;
     adapt_text := λ _ _, None;
     adapt_param := λ _, None;
     int_ok := λ z, Z.leb (- 2 ^ 31) z && Z.ltb z (2 ^ 31);
     adapt_int := λ _, None;
     key_ok := λ _, true;
     foreign_keys := true;
     str_exn := describe |}.

(** Nothing is enforced beyond [nullable=False]; a key is an integer of
    64 bits, as for the sqlite3 driver of the default database. *)
Definition lenient : Runtime :=
  {| text_ok := λ _ _, true;
     adapt_text := λ _ _, None;
     adapt_param := λ _, None;
     int_ok := λ _, true;
     adapt_int := λ _, None;
     key_ok := λ z, Z.leb (- 2 ^ 63) z && Z.ltb z (2 ^ 63);
     foreign_keys := false;
     str_exn := describe |}.

(** As [lenient], with the float NaN bound as NULL, which is what the
    sqlite3 driver does with it. *)
Definition nan_as_null : Runtime :=
  {| text_ok := λ _ _, true;
     adapt_text := λ _ v,
       match v with PFloat S754_nan => Some None | _ => None end;
     adapt_param := λ v,
       match v with PFloat S754_nan => Some None | _ => None end;
     int_ok := λ _, true;
     adapt_int := λ v,
       match v with PFloat S754_nan => Some None | _ => None end;
     key_ok := λ z, Z.leb (- 2 ^ 63) z && Z.ltb z (2 ^ 63);
     foreign_keys := false;
     str_exn := describe |}.

Definition empty_store : Store :=
  {| users := ∅; characters := ∅; planets := ∅;
     favorite_characters := ∅; favorite_planets := ∅ |}.

Definition noon : datetime :=
  {| year := 2024; month := 5; day := 4;
     hour := 12; minute := 0; second := 0; microsecond := 0 |}.

Definition luke : Character.t :=
  Character.mk "Luke Skywalker" (Some "172") None None None None None None
    None None None (Some noon).

Definition tatooine : Planet.t :=
  Planet.mk "Tatooine" None None None (Some "arid") None None None None None
    None (Some noon).

Definition han : User.t :=
  User.mk "han" "han@example.org" "x" "Han" "Solo" (Some noon) (Some true).


(** The value of a key of a serialized row. *)
Definition field (v : pyval) (key : string) : option pyval :=
  match v with
  | PDict d => d !! key
  | _ => None
  end.

Definition leia : Character.t :=
  Character.mk "Leia Organa" None None None None None None None
    (Some 3) None None None.

Definition naboo_store : Store :=
  {| users := {[ 1 := han ]};
     characters :=
       {[ 1 := luke;
          2 := leia ]};
     planets := {[ 3 := tatooine ]};
     favorite_characters := ∅;
     favorite_planets := ∅ |}.

(** User 1 has favorited character 1 and planet 3, user 2 character 1. *)
Definition fan_store : Store :=
  {| users := {[ 1 := han; 2 := han ]};
     characters := {[ 1 := luke; 2 := leia ]};
     planets := {[ 3 := tatooine ]};
     favorite_characters :=
       {[ 1 := FavoriteCharacter.mk 1 1 (Some noon);
          2 := FavoriteCharacter.mk 2 1 (Some noon) ]};
     favorite_planets := {[ 1 := FavoritePlanet.mk 1 3 (Some noon) ]} |}.

(** ** The database configuration of [src/app.py] *)

(** [s.replace(old, new)] for a non-empty [old]: the occurrences of [old]
    are replaced from left to right, without overlap. [skip] counts the
    characters of an occurrence that are still to be dropped. *)
Fixpoint replace_from (old new : string) (skip : nat) (s : string) : string :=
  match s with
  | EmptyString => EmptyString
  | String c s' =>
      match skip with
      | S n => replace_from old new n s'
      | O =>
          if String.prefix old s
          then (new ++ replace_from old new (String.length old - 1) s')%string
          else String c (replace_from old new 0 s')
      end
  end.

Definition replace (old new s : string) : string := replace_from old new 0 s.

(** [app.config['SQLALCHEMY_DATABASE_URI']], from [os.getenv("DATABASE_URL")]. *)
Definition database_uri (db_url : option string) : string :=
  match db_url with
  | Some db_url => replace "postgres://" "postgresql://" db_url
  | None => "sqlite:////tmp/test.db"
  end.

(** ** The remaining handlers of [src/app.py] *)

(** [User.serialize]: the password hash is not part of it. *)
Definition serialize_user (id : Z) (u : User.t) : pyval :=
  PDict (list_to_map [
    ("id", PInt id);
    ("username", PStr (User.username u));
    ("email", PStr (User.email u));
    ("first_name", PStr (User.first_name u));
    ("last_name", PStr (User.last_name u));
    ("created_at", of_created_at (User.created_at u));
    ("is_active", match User.is_active u with
                  | Some b => PBool b
                  | None => PNone
                  end)
  ]).

(** [Model.query.all()]: the rows of a table. The source asks for no
    order; the rows come in the order of [map_to_list]. *)
Definition all {A} (t : gmap Z A) : list (Z * A) := map_to_list t.

Section Reads.
Variable rt : Runtime.

(** [GET /users] *)
Definition get_all_users (st : Store) : Store * Response :=
  handle rt st (
    let users := all (users st) in
    Ok (st, (PList ((λ user, serialize_user user.1 user.2) <$> users), 200))).

(** [GET /users/<int:user_id>] *)
Definition get_single_user (st : Store) (user_id : Z) : Store * Response :=
  handle rt st (
    user <- query_get rt "users" (users st) user_id ;;
    match user with
    | None => Ok (st, (error "User not found", 404))
    | Some user => Ok (st, (serialize_user user_id user, 200))
    end).

(** The relationships [User.favorite_characters] and
    [User.favorite_planets]: the favorite rows of a user. *)
Definition user_favorite_characters (st : Store) (user_id : Z)
    : gmap Z FavoriteCharacter.t :=
  filter (λ kv, FavoriteCharacter.user_id kv.2 = user_id)
    (favorite_characters st).

Definition user_favorite_planets (st : Store) (user_id : Z)
    : gmap Z FavoritePlanet.t :=
  filter (λ kv, FavoritePlanet.user_id kv.2 = user_id) (favorite_planets st).

(** [GET /users/favorites] *)
Definition get_user_favorites (st : Store) : Store * Response :=
  handle rt st (
    user <- query_get rt "users" (users st) current_user_id ;;
    match user with
    | None => Ok (st, (error "User not found", 404))
    | Some user =>
        let favorite_characters :=
          (λ fav, serialize_favorite_character st fav.1 fav.2)
            <$> all (user_favorite_characters st current_user_id) in
        let favorite_planets :=
          (λ fav, serialize_favorite_planet st fav.1 fav.2)
            <$> all (user_favorite_planets st current_user_id) in
        Ok (st, (PDict (list_to_map [
                   ("user_id", PInt current_user_id);
                   ("username", PStr (User.username user));
                   ("favorite_characters", PList favorite_characters);
                   ("favorite_planets", PList favorite_planets)
                 ]), 200))
    end).

(** [GET /people] *)
Definition get_all_people (st : Store) : Store * Response :=
  handle rt st (
    let characters := all (characters st) in
    Ok (st, (PList ((λ character,
                       serialize_character st character.1 character.2)
                    <$> characters), 200))).

(** [GET /people/<int:people_id>] *)
Definition get_single_person (st : Store) (people_id : Z)
    : Store * Response :=
  handle rt st (
    character <- query_get rt "characters" (characters st) people_id ;;
    match character with
    | None => Ok (st, (error "Character not found", 404))
    | Some character =>
        Ok (st, (serialize_character st people_id character, 200))
    end).

(** [GET /planets] *)
Definition get_all_planets (st : Store) : Store * Response :=
  handle rt st (
    let planets := all (planets st) in
    Ok (st, (PList ((λ planet, serialize_planet planet.1 planet.2)
                    <$> planets), 200))).

(** [GET /planets/<int:planet_id>] *)
Definition get_single_planet (st : Store) (planet_id : Z)
    : Store * Response :=
  handle rt st (
    planet <- query_get rt "planets" (planets st) planet_id ;;
    match planet with
    | None => Ok (st, (error "Planet not found", 404))
    | Some planet => Ok (st, (serialize_planet planet_id planet, 200))
    end).

(** [DELETE /favorite/planet/<int:planet_id>]: the row deleted is the one
    [first()] returns. *)
Definition delete_favorite_planet (st : Store) (planet_id : Z)
    : Store * Response :=
  handle rt st (
    favorite <- first_by rt "favorite_planets"
                  (filter (λ kv,
                     FavoritePlanet.user_id kv.2 = current_user_id
                     ∧ FavoritePlanet.planet_id kv.2 = planet_id)
                   (favorite_planets st)) planet_id ;;
    match favorite with
    | None => Ok (st, (error "Favorite planet not found", 404))
    | Some favorite =>
        Ok (set_favorite_planets st (delete favorite.1 (favorite_planets st)),
            (message "Favorite planet deleted successfully", 200))
    end).

(** [DELETE /favorite/people/<int:people_id>] *)
Definition delete_favorite_people (st : Store) (people_id : Z)
    : Store * Response :=
  handle rt st (
    favorite <- first_by rt "favorite_characters"
                  (filter (λ kv,
                     FavoriteCharacter.user_id kv.2 = current_user_id
                     ∧ FavoriteCharacter.character_id kv.2 = people_id)
                   (favorite_characters st)) people_id ;;
    match favorite with
    | None => Ok (st, (error "Favorite character not found", 404))
    | Some favorite =>
        Ok (set_favorite_characters st
              (delete favorite.1 (favorite_characters st)),
            (message "Favorite character deleted successfully", 200))
    end).

(** *** Routing *)

(** A request that one of the [@app.route] rules matches, with the
    arguments the rule extracts and, for POST and PUT on a resource, the
    outcome of [request.get_json()]. The rule [/], whose handler lives in
    [utils.py], is left out. *)
Inductive Request :=
| GET_users
| GET_users_id (user_id : Z)
| GET_users_favorites
| GET_people
| GET_people_id (people_id : Z)
| POST_people (get_json : result pyval)
| PUT_people_id (people_id : Z) (get_json : result pyval)
| DELETE_people_id (people_id : Z)
| GET_planets
| GET_planets_id (planet_id : Z)
| POST_planets (get_json : result pyval)
| PUT_planets_id (planet_id : Z) (get_json : result pyval)
| DELETE_planets_id (planet_id : Z)
| POST_favorite_planet_id (planet_id : Z)
| POST_favorite_people_id (people_id : Z)
| DELETE_favorite_planet_id (planet_id : Z)
| DELETE_favorite_people_id (people_id : Z).

Inductive Method := GET | POST | PUT | DELETE.

Definition method (req : Request) : Method :=
  match req with
  | GET_users | GET_users_id _ | GET_users_favorites
  | GET_people | GET_people_id _ | GET_planets | GET_planets_id _ => GET
  | POST_people _ | POST_planets _
  | POST_favorite_planet_id _ | POST_favorite_people_id _ => POST
  | PUT_people_id _ _ | PUT_planets_id _ _ => PUT
  | DELETE_people_id _ | DELETE_planets_id _
  | DELETE_favorite_planet_id _ | DELETE_favorite_people_id _ => DELETE
  end.

(** The handler each rule is bound to; [now] is the clock of the server
    while it handles the request. *)
Definition dispatch (now : datetime) (st : Store) (req : Request)
    : Store * Response :=
  match req with
  | GET_users => get_all_users st
  | GET_users_id user_id => get_single_user st user_id
  | GET_users_favorites => get_user_favorites st
  | GET_people => get_all_people st
  | GET_people_id people_id => get_single_person st people_id
  | POST_people get_json => create_person rt now st get_json
  | PUT_people_id people_id get_json => update_person rt st people_id get_json
  | DELETE_people_id people_id => delete_person rt st people_id
  | GET_planets => get_all_planets st
  | GET_planets_id planet_id => get_single_planet st planet_id
  | POST_planets get_json => create_planet rt now st get_json
  | PUT_planets_id planet_id get_json => update_planet rt st planet_id get_json
  | DELETE_planets_id planet_id => delete_planet rt st planet_id
  | POST_favorite_planet_id planet_id => add_favorite_planet rt now st planet_id
  | POST_favorite_people_id people_id => add_favorite_people rt now st people_id
  | DELETE_favorite_planet_id planet_id => delete_favorite_planet st planet_id
  | DELETE_favorite_people_id people_id => delete_favorite_people st people_id
  end.

(** The store after a sequence of requests, handled one after the other. *)
Fixpoint run (st : Store) (reqs : list (datetime * Request)) : Store :=
  match reqs with
  | [] => st
  | (now, req) :: reqs' => run (dispatch now st req).1 reqs'
  end.
End Reads.

(** ** Integrity of a store *)

(** [UniqueConstraint('user_id', 'character_id')] and
    [UniqueConstraint('user_id', 'planet_id')]: no two favorite rows hold
    the same pair. *)
Definition favorites_unique (st : Store) : Prop :=
  (∀ k1 k2 f1 f2,
     favorite_characters st !! k1 = Some f1 →
     favorite_characters st !! k2 = Some f2 →
     FavoriteCharacter.user_id f1 = FavoriteCharacter.user_id f2 →
     FavoriteCharacter.character_id f1 = FavoriteCharacter.character_id f2 →
     k1 = k2)
  ∧ (∀ k1 k2 f1 f2,
       favorite_planets st !! k1 = Some f1 →
       favorite_planets st !! k2 = Some f2 →
       FavoritePlanet.user_id f1 = FavoritePlanet.user_id f2 →
       FavoritePlanet.planet_id f1 = FavoritePlanet.planet_id f2 →
       k1 = k2).

(** The foreign keys of the favorite rows: each refers to a stored user
    and to a stored character or planet. *)
Definition favorites_refer (st : Store) : Prop :=
  (∀ k f, favorite_characters st !! k = Some f →
          is_Some (users st !! FavoriteCharacter.user_id f)
          ∧ is_Some (characters st !! FavoriteCharacter.character_id f))
  ∧ (∀ k f, favorite_planets st !! k = Some f →
            is_Some (users st !! FavoritePlanet.user_id f)
            ∧ is_Some (planets st !! FavoritePlanet.planet_id f)).

(** The foreign key [Character.homeworld_id]: when set it refers to a
    stored planet. *)
Definition homeworlds_refer (st : Store) : Prop :=
  ∀ k c pid, characters st !! k = Some c →
             Character.homeworld_id c = Some pid →
             is_Some (planets st !! pid).


(** The names of the updatable columns of the two resources. *)
Definition character_columns : list string :=
  ["name"; "height"; "mass"; "hair_color"; "skin_color"; "eye_color";
   "birth_year"; "gender"; "homeworld_id"; "description"; "image_url"].

Definition planet_columns : list string :=
  ["name"; "rotation_period"; "orbital_period"; "diameter"; "climate";
   "gravity"; "terrain"; "surface_water"; "population"; "description";
   "image_url"].

(** ** The changes a request can make *)

(** [change rt st st']: [st'] differs from [st] by what one handler can
    commit. Every request makes one of these changes (lemma
    [dispatch_change]). *)
Inductive change (rt : Runtime) (st : Store) : Store → Prop :=
| change_nothing :
    change rt st st
| change_character_added c :
    (foreign_keys rt = true → ∀ pid,
       Character.homeworld_id c = Some pid → is_Some (planets st !! pid)) →
    change rt st
      (set_characters st (<[next_id (characters st) := c]> (characters st)))
| change_character_updated id c c' :
    characters st !! id = Some c →
    Character.created_at c' = Character.created_at c →
    (Character.homeworld_id c' = Character.homeworld_id c
     ∨ (foreign_keys rt = true → ∀ pid,
          Character.homeworld_id c' = Some pid →
          is_Some (planets st !! pid))) →
    change rt st (set_characters st (<[id := c']> (characters st)))
| change_character_deleted id :
    (∀ k f, favorite_characters st !! k = Some f →
            FavoriteCharacter.character_id f ≠ id) →
    change rt st (set_characters st (delete id (characters st)))
| change_planet_added p :
    change rt st (set_planets st (<[next_id (planets st) := p]> (planets st)))
| change_planet_updated id p p' :
    planets st !! id = Some p →
    Planet.created_at p' = Planet.created_at p →
    change rt st (set_planets st (<[id := p']> (planets st)))
| change_planet_deleted id :
    (∀ k f, favorite_planets st !! k = Some f →
            FavoritePlanet.planet_id f ≠ id) →
    change rt st
      {| users := users st;
         characters := forget_homeworld id <$> characters st;
         planets := delete id (planets st);
         favorite_characters := favorite_characters st;
         favorite_planets := favorite_planets st |}
| change_favorite_character_added id now :
    is_Some (users st !! 1) →
    is_Some (characters st !! id) →
    (∀ k f, favorite_characters st !! k = Some f →
            ¬ (FavoriteCharacter.user_id f = 1
               ∧ FavoriteCharacter.character_id f = id)) →
    change rt st
      (set_favorite_characters st
         (<[next_id (favorite_characters st) :=
              FavoriteCharacter.mk 1 id (Some now)]>
            (favorite_characters st)))
| change_favorite_planet_added id now :
    is_Some (users st !! 1) →
    is_Some (planets st !! id) →
    (∀ k f, favorite_planets st !! k = Some f →
            ¬ (FavoritePlanet.user_id f = 1
               ∧ FavoritePlanet.planet_id f = id)) →
    change rt st
      (set_favorite_planets st
         (<[next_id (favorite_planets st) :=
              FavoritePlanet.mk 1 id (Some now)]>
            (favorite_planets st)))
| change_favorite_character_deleted k :
    change rt st
      (set_favorite_characters st (delete k (favorite_characters st)))
| change_favorite_planet_deleted k :
    change rt st (set_favorite_planets st (delete k (favorite_planets st))).

(** * Properties *)

(** ** Tables *)

Lemma first_None {A} (q : gmap Z A) : first q = None ↔ q = ∅.
Proof.
  unfold first. rewrite <- map_to_list_empty_iff.
  destruct (map_to_list q); simpl; split; congruence.
Qed.

Lemma first_Some {A} (q : gmap Z A) i x :
  q !! i = Some x → ∃ row, first q = Some row.
Proof.
  intros Hi. destruct (first q) as [row|] eqn:E; [eauto|].
  apply first_None in E. subst q. by rewrite lookup_empty in Hi.
Qed.

Lemma foldr_max_ge (l : list Z) k : k ∈ l → k ≤ foldr Z.max 0 l.
Proof.
  induction l as [|x l IH]; [by intros ?%elem_of_nil|].
  intros [->|Hk]%elem_of_cons; simpl; [lia|].
  specialize (IH Hk). lia.
Qed.

(** The generated key is not in use. *)
Lemma next_id_fresh {A} (t : gmap Z A) : t !! next_id t = None.
Proof.
  destruct (t !! next_id t) as [x|] eqn:E; [|done].
  apply elem_of_map_to_list in E.
  assert (next_id t ∈ (map_to_list t).*1) as Hin.
  { apply list_elem_of_fmap. by exists (next_id t, x). }
  apply foldr_max_ge in Hin. unfold next_id in Hin at 1. lia.
Qed.

(** ** Serialization *)

(** C8. The serialization of a character holds, under the key [homeworld],
    the full serialization of the planet its [homeworld_id] refers to when
    that planet exists, and null when the character has no homeworld. *)
Theorem serialize_character_homeworld (st : Store) (id : Z) (c : Character.t) :
  (∀ pid p,
     Character.homeworld_id c = Some pid →
     planets st !! pid = Some p →
     field (serialize_character st id c) "homeworld"
     = Some (serialize_planet pid p))
  ∧ (Character.homeworld_id c = None →
     field (serialize_character st id c) "homeworld" = Some PNone).
Proof.
  split.
  - intros pid p Hid Hp.
    assert (homeworld st c = Some (pid, p)) as Hw.
    { unfold homeworld. by rewrite Hid, Hp. }
    unfold serialize_character. rewrite Hw. reflexivity.
  - intros Hid.
    assert (homeworld st c = None) as Hw.
    { unfold homeworld. by rewrite Hid. }
    unfold serialize_character. rewrite Hw. reflexivity.
Qed.

Lemma serialize_character_homeworld_witness :
  field (serialize_character naboo_store 2 leia) "homeworld"
  = Some (serialize_planet 3 tatooine)
  ∧ field (serialize_character naboo_store 1 luke) "homeworld" = Some PNone.
Proof.
  split.
  - apply (proj1 (serialize_character_homeworld naboo_store 2 _) 3 tatooine);
      reflexivity.
  - apply (proj2 (serialize_character_homeworld naboo_store 1 luke)).
    reflexivity.
Defined.

(** ** Updates with an empty body *)

(** C10. A PUT on an existing character or planet whose body is the empty
    JSON object returns 400 with [{"error": "Request body is required"}]
    and changes nothing, exactly as a PUT without a body does. *)
Theorem update_empty_object (rt : Runtime) (st : Store) (id : Z) :
  (is_Some (characters st !! id) →
   update_person rt st id (Ok (PDict ∅))
   = (st, (PDict {[ "error" := PStr "Request body is required" ]}, 400))
   ∧ update_person rt st id (Ok (PDict ∅))
     = update_person rt st id (Ok PNone))
  ∧ (is_Some (planets st !! id) →
     update_planet rt st id (Ok (PDict ∅))
     = (st, (PDict {[ "error" := PStr "Request body is required" ]}, 400))
     ∧ update_planet rt st id (Ok (PDict ∅))
       = update_planet rt st id (Ok PNone)).
Proof.
  split; intros [x Hx].
  - unfold update_person, query_get. by rewrite Hx.
  - unfold update_planet, query_get. by rewrite Hx.
Qed.

Lemma update_empty_object_witness :
  update_person strict naboo_store 1 (Ok (PDict ∅))
  = (naboo_store, (error "Request body is required", 400))
  ∧ update_planet strict naboo_store 3 (Ok (PDict ∅))
    = (naboo_store, (error "Request body is required", 400)).
Proof.
  split.
  - apply (proj1 (update_empty_object strict naboo_store 1)).
    exists luke. reflexivity.
  - apply (proj2 (update_empty_object strict naboo_store 3)).
    exists tatooine. reflexivity.
Defined.

(** ** Favorites *)

(** C5, as the code has it. Adding a favorite first requires user 1 to
    exist (404 otherwise), then the planet or character to exist: when no
    row has the id of the path the answer is 404 if the driver binds that
    id and 500 if it does not; in particular [POST /favorite/planet/5]
    with user 1 but no planet 5 returns 404 with
    [{"error": "Planet not found"}]. The store is left as it was. *)
Theorem add_favorite_not_found (rt : Runtime) (now : datetime) (st : Store) :
  (users st !! 1 = None →
   ∀ id,
     add_favorite_planet rt now st id = (st, (error "User not found", 404))
     ∧ add_favorite_people rt now st id = (st, (error "User not found", 404)))
  ∧ (is_Some (users st !! 1) →
     (∀ id, planets st !! id = None → binds rt id = true →
        add_favorite_planet rt now st id
        = (st, (error "Planet not found", 404)))
     ∧ (∀ id, characters st !! id = None → binds rt id = true →
          add_favorite_people rt now st id
          = (st, (error "Character not found", 404)))
     ∧ (∀ id, planets st !! id = None → binds rt id = false →
          add_favorite_planet rt now st id
          = (st, (error (str_exn rt (DBAPIError "planets")), 500)))
     ∧ (∀ id, characters st !! id = None → binds rt id = false →
          add_favorite_people rt now st id
          = (st, (error (str_exn rt (DBAPIError "characters")), 500)))
     ∧ (planets st !! 5 = None →
        add_favorite_planet rt now st 5
        = (st, (PDict {[ "error" := PStr "Planet not found" ]}, 404)))).
Proof.
  unfold add_favorite_planet, add_favorite_people, current_user_id, query_get.
  split.
  - intros Hu id. by rewrite Hu.
  - intros [u Hu]. rewrite Hu. simpl.
    repeat split.
    + intros id -> ->. reflexivity.
    + intros id -> ->. reflexivity.
    + intros id -> ->. reflexivity.
    + intros id -> ->. reflexivity.
    + intros ->. reflexivity.
Qed.

Lemma add_favorite_not_found_witness :
  add_favorite_planet strict noon empty_store 5
  = (empty_store, (error "User not found", 404))
  ∧ add_favorite_people lenient noon naboo_store 7
    = (naboo_store, (error "Character not found", 404))
  ∧ add_favorite_planet strict noon naboo_store 5
    = (naboo_store, (PDict {[ "error" := PStr "Planet not found" ]}, 404)).
Proof.
  split; [|split].
  - apply (proj1 (add_favorite_not_found strict noon empty_store)).
    reflexivity.
  - destruct (proj2 (add_favorite_not_found lenient noon naboo_store))
      as (_ & Hc & _); [exists han; reflexivity|].
    apply Hc; reflexivity.
  - destruct (proj2 (add_favorite_not_found strict noon naboo_store))
      as (_ & _ & _ & _ & Hp); [exists han; reflexivity|].
    apply Hp. reflexivity.
Defined.

(** C5 as stated fails: user 1 of [naboo_store] exists and no planet has
    the id 2^63, yet [POST /favorite/planet/9223372036854775808] on a
    deployment whose driver binds integers of 64 bits returns 500, not
    404. The same holds for a character. *)
Lemma add_favorite_unbound_id :
  users naboo_store !! 1 = Some han
  ∧ planets naboo_store !! 9223372036854775808 = None
  ∧ add_favorite_planet lenient noon naboo_store 9223372036854775808
    = (naboo_store, (error "DBAPIError planets", 500))
  ∧ characters naboo_store !! 9223372036854775808 = None
  ∧ add_favorite_people lenient noon naboo_store 9223372036854775808
    = (naboo_store, (error "DBAPIError characters", 500)).
Proof. repeat split. Qed.

Lemma filter_none_empty {A} (P : Z * A → Prop) `{!∀ kv, Decision (P kv)}
    (m : gmap Z A) :
  (∀ k x, m !! k = Some x → ¬ P (k, x)) → filter P m = ∅.
Proof.
  intros Hno. apply map_empty. intros k.
  destruct (filter P m !! k) as [x|] eqn:E; [|done].
  apply map_lookup_filter_Some in E as [Hk HP]. by destruct (Hno k x).
Qed.

Lemma add_favorite_people_twice (rt : Runtime) (now1 now2 : datetime)
    (st : Store) (id : Z) :
  is_Some (users st !! 1) →
  is_Some (characters st !! id) →
  (∀ k f, favorite_characters st !! k = Some f →
          ¬ (FavoriteCharacter.user_id f = 1
             ∧ FavoriteCharacter.character_id f = id)) →
  let r1 := add_favorite_people rt now1 st id in
  let r2 := add_favorite_people rt now2 r1.1 id in
  r1.2.2 = 201 ∧ r2.2.2 = 400 ∧ r2.1 = r1.1
  ∧ size (filter (λ kv, FavoriteCharacter.user_id kv.2 = 1
                        ∧ FavoriteCharacter.character_id kv.2 = id)
            (favorite_characters r2.1)) = 1%nat.
Proof.
  intros [u Hu] [c Hc] Hno.
  pose proof (filter_none_empty
    (λ kv : Z * FavoriteCharacter.t,
       FavoriteCharacter.user_id kv.2 = 1
       ∧ FavoriteCharacter.character_id kv.2 = id)
    (favorite_characters st) Hno) as Hempty.
  assert (add_favorite_people rt now1 st id
          = (set_favorite_characters st
               (<[next_id (favorite_characters st) :=
                    FavoriteCharacter.mk 1 id (Some now1)]>
                  (favorite_characters st)),
             (serialize_favorite_character
                (set_favorite_characters st
                   (<[next_id (favorite_characters st) :=
                        FavoriteCharacter.mk 1 id (Some now1)]>
                      (favorite_characters st)))
                (next_id (favorite_characters st))
                (FavoriteCharacter.mk 1 id (Some now1)), 201))) as E1.
  { unfold add_favorite_people, current_user_id, query_get. rewrite Hu, Hc, Hempty.
    reflexivity. }
  simpl. rewrite E1. simpl.
  assert (filter (λ kv : Z * FavoriteCharacter.t,
                    FavoriteCharacter.user_id kv.2 = 1
                    ∧ FavoriteCharacter.character_id kv.2 = id)
            (<[next_id (favorite_characters st) :=
                 FavoriteCharacter.mk 1 id (Some now1)]>
               (favorite_characters st))
          = {[ next_id (favorite_characters st) :=
                 FavoriteCharacter.mk 1 id (Some now1) ]}) as Hone.
  { rewrite map_filter_insert_True by done. by rewrite Hempty. }
  unfold add_favorite_people, current_user_id, query_get. simpl.
  rewrite Hu, Hc, Hone.
  destruct (first_Some ({[ next_id (favorite_characters st) :=
                             FavoriteCharacter.mk 1 id (Some now1) ]}
                          : gmap Z FavoriteCharacter.t)
              (next_id (favorite_characters st))
              (FavoriteCharacter.mk 1 id (Some now1))) as [row ->].
  { apply lookup_singleton_eq. }
  simpl. rewrite Hone. repeat split. apply map_size_singleton.
Qed.

Lemma add_favorite_planet_twice (rt : Runtime) (now1 now2 : datetime)
    (st : Store) (id : Z) :
  is_Some (users st !! 1) →
  is_Some (planets st !! id) →
  (∀ k f, favorite_planets st !! k = Some f →
          ¬ (FavoritePlanet.user_id f = 1
             ∧ FavoritePlanet.planet_id f = id)) →
  let r1 := add_favorite_planet rt now1 st id in
  let r2 := add_favorite_planet rt now2 r1.1 id in
  r1.2.2 = 201 ∧ r2.2.2 = 400 ∧ r2.1 = r1.1
  ∧ size (filter (λ kv, FavoritePlanet.user_id kv.2 = 1
                        ∧ FavoritePlanet.planet_id kv.2 = id)
            (favorite_planets r2.1)) = 1%nat.
Proof.
  intros [u Hu] [p Hp] Hno.
  pose proof (filter_none_empty
    (λ kv : Z * FavoritePlanet.t,
       FavoritePlanet.user_id kv.2 = 1
       ∧ FavoritePlanet.planet_id kv.2 = id)
    (favorite_planets st) Hno) as Hempty.
  assert (add_favorite_planet rt now1 st id
          = (set_favorite_planets st
               (<[next_id (favorite_planets st) :=
                    FavoritePlanet.mk 1 id (Some now1)]>
                  (favorite_planets st)),
             (serialize_favorite_planet
                (set_favorite_planets st
                   (<[next_id (favorite_planets st) :=
                        FavoritePlanet.mk 1 id (Some now1)]>
                      (favorite_planets st)))
                (next_id (favorite_planets st))
                (FavoritePlanet.mk 1 id (Some now1)), 201))) as E1.
  { unfold add_favorite_planet, current_user_id, query_get. rewrite Hu, Hp, Hempty.
    reflexivity. }
  simpl. rewrite E1. simpl.
  assert (filter (λ kv : Z * FavoritePlanet.t,
                    FavoritePlanet.user_id kv.2 = 1
                    ∧ FavoritePlanet.planet_id kv.2 = id)
            (<[next_id (favorite_planets st) :=
                 FavoritePlanet.mk 1 id (Some now1)]>
               (favorite_planets st))
          = {[ next_id (favorite_planets st) :=
                 FavoritePlanet.mk 1 id (Some now1) ]}) as Hone.
  { rewrite map_filter_insert_True by done. by rewrite Hempty. }
  unfold add_favorite_planet, current_user_id, query_get. simpl.
  rewrite Hu, Hp, Hone.
  destruct (first_Some ({[ next_id (favorite_planets st) :=
                             FavoritePlanet.mk 1 id (Some now1) ]}
                          : gmap Z FavoritePlanet.t)
              (next_id (favorite_planets st))
              (FavoritePlanet.mk 1 id (Some now1))) as [row ->].
  { apply lookup_singleton_eq. }
  simpl. rewrite Hone. repeat split. apply map_size_singleton.
Qed.

(** C4. When user 1 and the target exist and no favorite row links them,
    two successive identical add-favorite calls return 201 and then 400,
    the second call stores nothing, and afterwards exactly one favorite
    row holds that (user, target) pair. *)
Theorem add_favorite_twice (rt : Runtime) (now1 now2 : datetime)
    (st : Store) (id : Z) :
  is_Some (users st !! 1) →
  (is_Some (characters st !! id) →
   (∀ k f, favorite_characters st !! k = Some f →
           ¬ (FavoriteCharacter.user_id f = 1
              ∧ FavoriteCharacter.character_id f = id)) →
   let r1 := add_favorite_people rt now1 st id in
   let r2 := add_favorite_people rt now2 r1.1 id in
   r1.2.2 = 201 ∧ r2.2.2 = 400 ∧ r2.1 = r1.1
   ∧ size (filter (λ kv, FavoriteCharacter.user_id kv.2 = 1
                         ∧ FavoriteCharacter.character_id kv.2 = id)
             (favorite_characters r2.1)) = 1%nat)
  ∧ (is_Some (planets st !! id) →
     (∀ k f, favorite_planets st !! k = Some f →
             ¬ (FavoritePlanet.user_id f = 1
                ∧ FavoritePlanet.planet_id f = id)) →
     let r1 := add_favorite_planet rt now1 st id in
     let r2 := add_favorite_planet rt now2 r1.1 id in
     r1.2.2 = 201 ∧ r2.2.2 = 400 ∧ r2.1 = r1.1
     ∧ size (filter (λ kv, FavoritePlanet.user_id kv.2 = 1
                           ∧ FavoritePlanet.planet_id kv.2 = id)
               (favorite_planets r2.1)) = 1%nat).
Proof.
  intros Hu. split; intros Ht Hno.
  - by apply add_favorite_people_twice.
  - by apply add_favorite_planet_twice.
Qed.

Lemma add_favorite_twice_witness :
  (let r1 := add_favorite_planet strict noon naboo_store 3 in
   let r2 := add_favorite_planet strict noon r1.1 3 in
   r1.2.2 = 201 ∧ r2.2.2 = 400 ∧ r2.1 = r1.1
   ∧ size (filter (λ kv, FavoritePlanet.user_id kv.2 = 1
                         ∧ FavoritePlanet.planet_id kv.2 = 3)
             (favorite_planets r2.1)) = 1%nat).
Proof.
  apply (proj2 (add_favorite_twice strict noon noon naboo_store 3
                  (ex_intro _ han eq_refl))).
  - exists tatooine. reflexivity.
  - intros k f Hk. simpl in Hk. by rewrite lookup_empty in Hk.
Defined.

(** ** Deleting a user *)

(** C6. After a user is deleted no favorite row of that user remains, in
    either favorites table, and the favorite rows of the other users are
    as before. *)
Theorem delete_user_cascade (st : Store) (uid : Z) :
  users (delete_user st uid) !! uid = None
  ∧ (∀ k f, favorite_characters (delete_user st uid) !! k = Some f →
            FavoriteCharacter.user_id f ≠ uid)
  ∧ (∀ k f, favorite_planets (delete_user st uid) !! k = Some f →
            FavoritePlanet.user_id f ≠ uid)
  ∧ (∀ k f, FavoriteCharacter.user_id f ≠ uid →
            (favorite_characters (delete_user st uid) !! k = Some f
             ↔ favorite_characters st !! k = Some f))
  ∧ (∀ k f, FavoritePlanet.user_id f ≠ uid →
            (favorite_planets (delete_user st uid) !! k = Some f
             ↔ favorite_planets st !! k = Some f)).
Proof.
  unfold delete_user. simpl. split; [apply lookup_delete_eq|].
  repeat split.
  - by intros k f [_ ?]%map_lookup_filter_Some.
  - by intros k f [_ ?]%map_lookup_filter_Some.
  - by intros [? _]%map_lookup_filter_Some.
  - intros Hk. by apply map_lookup_filter_Some.
  - by intros [? _]%map_lookup_filter_Some.
  - intros Hk. by apply map_lookup_filter_Some.
Qed.

Lemma delete_user_cascade_witness :
  favorite_characters (delete_user fan_store 1) !! 2
  = Some (FavoriteCharacter.mk 2 1 (Some noon))
  ∧ users (delete_user fan_store 1) !! 1 = None.
Proof.
  split.
  - apply (proj1 (proj2 (proj2 (proj2 (delete_user_cascade fan_store 1))))).
    + simpl. lia.
    + reflexivity.
  - apply (proj1 (delete_user_cascade fan_store 1)).
Defined.

(** ** Deleting a character or a planet *)

Lemma delete_person_unreferenced (rt : Runtime) (st : Store) (id : Z)
    (c : Character.t) :
  binds rt id = true →
  characters st !! id = Some c →
  (∀ k f, favorite_characters st !! k = Some f →
          FavoriteCharacter.character_id f ≠ id) →
  delete_person rt st id
  = (set_characters st (delete id (characters st)),
     (message ("Character " ++ Character.name c ++ " deleted successfully"),
      200)).
Proof.
  intros Hid Hc Hno. unfold delete_person, delete_character, query_get.
  rewrite Hc, Hid.
  rewrite (filter_none_empty
             (λ kv : Z * FavoriteCharacter.t,
                FavoriteCharacter.character_id kv.2 = id)
             (favorite_characters st)).
  - reflexivity.
  - intros k f Hk. simpl. by apply Hno with k.
Qed.

Lemma delete_planet_unreferenced (rt : Runtime) (st : Store) (id : Z)
    (p : Planet.t) :
  binds rt id = true →
  planets st !! id = Some p →
  (∀ k f, favorite_planets st !! k = Some f →
          FavoritePlanet.planet_id f ≠ id) →
  delete_planet rt st id
  = ({| users := users st;
        characters := forget_homeworld id <$> characters st;
        planets := delete id (planets st);
        favorite_characters := favorite_characters st;
        favorite_planets := favorite_planets st |},
     (message ("Planet " ++ Planet.name p ++ " deleted successfully"), 200)).
Proof.
  intros Hid Hp Hno. unfold delete_planet, delete_planet_row, query_get.
  rewrite Hp, Hid.
  rewrite (filter_none_empty
             (λ kv : Z * FavoritePlanet.t,
                FavoritePlanet.planet_id kv.2 = id)
             (favorite_planets st)).
  - reflexivity.
  - intros k f Hk. simpl. by apply Hno with k.
Qed.

(** C7, as the code has it. For an id the driver binds: an existing
    character or planet that no favorite row refers to is removed by
    DELETE, which returns 200 and a message with the name of the deleted
    row; when no row has that id the handler returns 404 and the store is
    unchanged. For an id the driver does not bind and that no row has,
    the handler returns 500 and the store is unchanged. *)
Theorem delete_unreferenced (rt : Runtime) (st : Store) (id : Z) :
  (binds rt id = true →
   (∀ c, characters st !! id = Some c →
         (∀ k f, favorite_characters st !! k = Some f →
                 FavoriteCharacter.character_id f ≠ id) →
         let r := delete_person rt st id in
         r.1 = set_characters st (delete id (characters st))
         ∧ characters r.1 !! id = None
         ∧ r.2 = (message ("Character " ++ Character.name c
                             ++ " deleted successfully"), 200))
   ∧ (characters st !! id = None →
      delete_person rt st id = (st, (error "Character not found", 404)))
   ∧ (∀ p, planets st !! id = Some p →
           (∀ k f, favorite_planets st !! k = Some f →
                   FavoritePlanet.planet_id f ≠ id) →
           let r := delete_planet rt st id in
           r.1 = {| users := users st;
                    characters := forget_homeworld id <$> characters st;
                    planets := delete id (planets st);
                    favorite_characters := favorite_characters st;
                    favorite_planets := favorite_planets st |}
           ∧ planets r.1 !! id = None
           ∧ r.2 = (message ("Planet " ++ Planet.name p
                               ++ " deleted successfully"), 200))
   ∧ (planets st !! id = None →
      delete_planet rt st id = (st, (error "Planet not found", 404))))
  ∧ (binds rt id = false →
     (characters st !! id = None →
      delete_person rt st id
      = (st, (error (str_exn rt (DBAPIError "characters")), 500)))
     ∧ (planets st !! id = None →
        delete_planet rt st id
        = (st, (error (str_exn rt (DBAPIError "planets")), 500)))).
Proof.
  split; intros Hid.
  - repeat split.
    + by rewrite (delete_person_unreferenced rt st id c).
    + rewrite (delete_person_unreferenced rt st id c) by done.
      apply lookup_delete_eq.
    + by rewrite (delete_person_unreferenced rt st id c).
    + intros Hc. unfold delete_person, query_get. by rewrite Hc, Hid.
    + by rewrite (delete_planet_unreferenced rt st id p).
    + rewrite (delete_planet_unreferenced rt st id p) by done.
      apply lookup_delete_eq.
    + by rewrite (delete_planet_unreferenced rt st id p).
    + intros Hp. unfold delete_planet, query_get. by rewrite Hp, Hid.
  - split.
    + intros Hc. unfold delete_person, query_get. by rewrite Hc, Hid.
    + intros Hp. unfold delete_planet, query_get. by rewrite Hp, Hid.
Qed.

Lemma delete_unreferenced_witness :
  (let r := delete_person strict naboo_store 1 in
   r.1 = set_characters naboo_store (delete 1 (characters naboo_store))
   ∧ characters r.1 !! 1 = None
   ∧ r.2 = (message "Character Luke Skywalker deleted successfully", 200))
  ∧ delete_planet strict naboo_store 4
    = (naboo_store, (error "Planet not found", 404))
  ∧ delete_planet lenient naboo_store 9223372036854775808
    = (naboo_store, (error "DBAPIError planets", 500)).
Proof.
  split; [|split].
  - destruct (proj1 (delete_unreferenced strict naboo_store 1))
      as (Hc & _); [reflexivity|].
    apply (Hc luke).
    + reflexivity.
    + intros k f Hk. simpl in Hk. by rewrite lookup_empty in Hk.
  - destruct (proj1 (delete_unreferenced strict naboo_store 4))
      as (_ & _ & _ & Hp); [reflexivity|].
    apply Hp. reflexivity.
  - destruct (proj2 (delete_unreferenced lenient naboo_store
                       9223372036854775808)) as (_ & Hp); [reflexivity|].
    apply Hp. reflexivity.
Defined.

(** C7 as stated fails: character 1 of [fan_store] is a favorite of two
    users; DELETE /people/1 returns 500 and the row is still there. The
    same holds for planet 3. *)
Lemma delete_referenced_fails :
  characters fan_store !! 1 = Some luke
  ∧ delete_person strict fan_store 1
    = (fan_store, (error "DBAPIError favorite_characters", 500))
  ∧ planets fan_store !! 3 = Some tatooine
  ∧ delete_planet strict fan_store 3
    = (fan_store, (error "DBAPIError favorite_planets", 500)).
Proof. repeat split. Qed.

(** ** Creating a character or a planet *)

#[local] Arguments truthy : simpl never.

Lemma truthy_dict (d : gmap string pyval) : d ≠ ∅ → truthy (PDict d) = true.
Proof. intros Hd. unfold truthy. by rewrite bool_decide_eq_false_2. Qed.

Lemma truthy_str (s : string) : s ≠ "" → truthy (PStr s) = true.
Proof.
  intros Hs. unfold truthy. destruct (String.eqb s "") eqn:E; [|done].
  by apply String.eqb_eq in E.
Qed.

Lemma lookup_nonempty (d : gmap string pyval) key v :
  d !! key = Some v → d ≠ ∅.
Proof. intros Hk ->. by rewrite lookup_empty in Hk. Qed.

Lemma get_lookup (d : gmap string pyval) key v :
  d !! key = Some v → get d key = v.
Proof. unfold get. by intros ->. Qed.

Lemma create_person_no_name (rt : Runtime) (now : datetime) (st : Store)
    (d : gmap string pyval) :
  d ≠ ∅ → truthy (get d "name") = false →
  create_person rt now st (Ok (PDict d)) = (st, (error "Name is required", 400)).
Proof.
  intros Hd Hname. unfold create_person. simpl. rewrite truthy_dict by done. simpl.
  fold (get d "name"). by rewrite Hname.
Qed.

Lemma create_person_duplicate (rt : Runtime) (now : datetime) (st : Store)
    (d : gmap string pyval) (s : string) (k : Z) (c : Character.t) :
  d !! "name" = Some (PStr s) → s ≠ "" →
  characters st !! k = Some c → Character.name c = s →
  create_person rt now st (Ok (PDict d))
  = (st, (error "Character with this name already exists", 400)).
Proof.
  intros Hd Hs Hk Hc. unfold create_person. simpl.
  rewrite truthy_dict by (by eapply lookup_nonempty). simpl.
  rewrite Hd. simpl. rewrite truthy_str by done. simpl.
  destruct (first_Some (filter (λ kv, Character.name kv.2 = s) (characters st))
              k c) as [row ->]; [|done].
  by apply map_lookup_filter_Some.
Qed.

Lemma bind_Ok {A B} (r : result A) (k : A → result B) (b : B) :
  bind r k = Ok b → ∃ a, r = Ok a ∧ k a = Ok b.
Proof. destruct r as [a|e]; simpl; [eauto|discriminate]. Qed.

Ltac binds H :=
  repeat (let a := fresh "a" in
          let E := fresh "E" in
          apply bind_Ok in H as (a & E & H)).

Lemma bind_text_str (rt : Runtime) table maxlen s o :
  bind_text rt table maxlen (PStr s) = Ok o → o = Some s.
Proof. simpl. destruct (text_ok rt maxlen s); congruence. Qed.

Lemma post_character_row (rt : Runtime) (now : datetime) (st : Store)
    (d : gmap string pyval) (s : string) (id : Z) (c : Character.t) :
  d !! "name" = Some (PStr s) →
  post_character rt now st d = Ok (id, c) →
  id = next_id (characters st) ∧ Character.name c = s
  ∧ Character.created_at c = Some now.
Proof.
  intros Hd H. unfold post_character, insert_character in H.
  rewrite (get_lookup d "name" (PStr s) Hd) in H. binds H.
  apply bind_text_str in E. subst a. simpl in E0.
  by simplify_eq/=.
Qed.

Lemma create_planet_no_name (rt : Runtime) (now : datetime) (st : Store)
    (d : gmap string pyval) :
  d ≠ ∅ → truthy (get d "name") = false →
  create_planet rt now st (Ok (PDict d)) = (st, (error "Name is required", 400)).
Proof.
  intros Hd Hname. unfold create_planet. simpl. rewrite truthy_dict by done. simpl.
  fold (get d "name"). by rewrite Hname.
Qed.

Lemma create_planet_duplicate (rt : Runtime) (now : datetime) (st : Store)
    (d : gmap string pyval) (s : string) (k : Z) (c : Planet.t) :
  d !! "name" = Some (PStr s) → s ≠ "" →
  planets st !! k = Some c → Planet.name c = s →
  create_planet rt now st (Ok (PDict d))
  = (st, (error "Planet with this name already exists", 400)).
Proof.
  intros Hd Hs Hk Hc. unfold create_planet. simpl.
  rewrite truthy_dict by (by eapply lookup_nonempty). simpl.
  rewrite Hd. simpl. rewrite truthy_str by done. simpl.
  destruct (first_Some (filter (λ kv, Planet.name kv.2 = s) (planets st))
              k c) as [row ->]; [|done].
  by apply map_lookup_filter_Some.
Qed.

Lemma post_planet_row (rt : Runtime) (now : datetime) (st : Store)
    (d : gmap string pyval) (s : string) (id : Z) (c : Planet.t) :
  d !! "name" = Some (PStr s) →
  post_planet rt now st d = Ok (id, c) →
  id = next_id (planets st) ∧ Planet.name c = s
  ∧ Planet.created_at c = Some now.
Proof.
  intros Hd H. unfold post_planet, insert_planet in H.
  rewrite (get_lookup d "name" (PStr s) Hd) in H. binds H.
  apply bind_text_str in E. subst a. simpl in E0.
  by simplify_eq/=.
Qed.

Lemma filter_by_name_compared (rt : Runtime) {A} table (name_of : A → string)
    (t : gmap Z A) (v : pyval) :
  filter_by_name rt table name_of t v
  = match compared_as rt v with
    | Some (Some s) => Ok (filter (λ kv, name_of kv.2 = s) t)
    | Some None => Ok ∅
    | None => Raise (DBAPIError table)
    end.
Proof. by destruct v. Qed.

Lemma create_person_named (rt : Runtime) (now : datetime) (st : Store)
    (d : gmap string pyval) :
  d ≠ ∅ → truthy (get d "name") = true →
  create_person rt now st (Ok (PDict d))
  = handle rt st (
      existing <- filter_by_name rt "characters" Character.name
                    (characters st) (get d "name") ;;
      match first existing with
      | Some _ =>
          Ok (st, (error "Character with this name already exists", 400))
      | None =>
          new <- post_character rt now st d ;;
          let st' := set_characters st (<[new.1 := new.2]> (characters st)) in
          Ok (st', (serialize_character st' new.1 new.2, 201))
      end).
Proof.
  intros Hd Hname. unfold create_person. simpl.
  rewrite truthy_dict by done. simpl.
  fold (get d "name"). rewrite Hname. reflexivity.
Qed.

Lemma create_planet_named (rt : Runtime) (now : datetime) (st : Store)
    (d : gmap string pyval) :
  d ≠ ∅ → truthy (get d "name") = true →
  create_planet rt now st (Ok (PDict d))
  = handle rt st (
      existing <- filter_by_name rt "planets" Planet.name
                    (planets st) (get d "name") ;;
      match first existing with
      | Some _ =>
          Ok (st, (error "Planet with this name already exists", 400))
      | None =>
          new <- post_planet rt now st d ;;
          let st' := set_planets st (<[new.1 := new.2]> (planets st)) in
          Ok (st', (serialize_planet new.1 new.2, 201))
      end).
Proof.
  intros Hd Hname. unfold create_planet. simpl.
  rewrite truthy_dict by done. simpl.
  fold (get d "name"). rewrite Hname. reflexivity.
Qed.

Lemma get_str (d : gmap string pyval) key s :
  get d key = PStr s → d !! key = Some (PStr s).
Proof. unfold get. destruct (d !! key); simpl; congruence. Qed.

Lemma post_character_fresh (rt : Runtime) (now : datetime) (st : Store)
    (d : gmap string pyval) (id : Z) (c : Character.t) :
  post_character rt now st d = Ok (id, c) →
  id = next_id (characters st) ∧ Character.created_at c = Some now.
Proof.
  intros H. unfold post_character, insert_character in H. binds H.
  by simplify_eq/=.
Qed.

Lemma post_planet_fresh (rt : Runtime) (now : datetime) (st : Store)
    (d : gmap string pyval) (id : Z) (p : Planet.t) :
  post_planet rt now st d = Ok (id, p) →
  id = next_id (planets st) ∧ Planet.created_at p = Some now.
Proof.
  intros H. unfold post_planet, insert_planet in H. binds H.
  by simplify_eq/=.
Qed.

(** The rows a name is compared with are no match: the name is compared
    as NULL, or as a text that no row of the table has. *)
Lemma first_no_match {A} (name_of : A → string) (t : gmap Z A)
    (o : option string) :
  (o = None ∨ ∃ s, o = Some s ∧ ∀ k x, t !! k = Some x → name_of x ≠ s) →
  first (match o with
         | Some s => filter (λ kv, name_of kv.2 = s) t
         | None => ∅
         end) = None.
Proof.
  intros [->|(s & -> & Hno)]; apply first_None; [done|].
  apply filter_none_empty. intros k x Hk. simpl. by eapply Hno.
Qed.

(** C1, as the code has it. For a create request whose body is absent or a
    JSON object: without a body, or when [name] is missing or falsy (null,
    empty, zero, false), the handler returns 400 and stores nothing.
    Otherwise the name is compared with the stored names, a string as it
    is and any other value as the driver adapts it: when the driver
    refuses the comparison the handler returns 500; when a row of the same
    type has the name it returns the duplicate error; when none has, and
    the database accepts the supplied values, it adds exactly one row,
    with a generated id that was not in use and with [created_at] set by
    the server, and returns the serialization of that row with 201; when
    the database rejects them it returns 500 and stores nothing. *)
Theorem create_contract (rt : Runtime) (now : datetime) (st : Store)
    (d : gmap string pyval) :
  (create_person rt now st (Ok PNone)
   = (st, (error "Request body is required", 400))
   ∧ create_person rt now st (Ok (PDict ∅))
     = (st, (error "Request body is required", 400))
   ∧ (d ≠ ∅ → truthy (get d "name") = false →
      create_person rt now st (Ok (PDict d)) = (st, (error "Name is required", 400)))
   ∧ (d ≠ ∅ → truthy (get d "name") = true →
      (compared_as rt (get d "name") = None →
       create_person rt now st (Ok (PDict d))
       = (st, (error (str_exn rt (DBAPIError "characters")), 500)))
      ∧ (∀ s k c, compared_as rt (get d "name") = Some (Some s) →
           characters st !! k = Some c → Character.name c = s →
           create_person rt now st (Ok (PDict d))
           = (st, (error "Character with this name already exists", 400)))
      ∧ ((compared_as rt (get d "name") = Some None
          ∨ ∃ s, compared_as rt (get d "name") = Some (Some s)
                 ∧ ∀ k c, characters st !! k = Some c →
                          Character.name c ≠ s) →
         (∀ id c, post_character rt now st d = Ok (id, c) →
            let st' := set_characters st (<[id := c]> (characters st)) in
            create_person rt now st (Ok (PDict d))
            = (st', (serialize_character st' id c, 201))
            ∧ characters st !! id = None
            ∧ size (characters st') = S (size (characters st))
            ∧ (∀ s, get d "name" = PStr s → Character.name c = s)
            ∧ Character.created_at c = Some now)
         ∧ (∀ e, post_character rt now st d = Raise e →
              create_person rt now st (Ok (PDict d))
              = (st, (error (str_exn rt e), 500))))))
  ∧ (create_planet rt now st (Ok PNone)
     = (st, (error "Request body is required", 400))
     ∧ create_planet rt now st (Ok (PDict ∅))
       = (st, (error "Request body is required", 400))
     ∧ (d ≠ ∅ → truthy (get d "name") = false →
        create_planet rt now st (Ok (PDict d))
        = (st, (error "Name is required", 400)))
     ∧ (d ≠ ∅ → truthy (get d "name") = true →
        (compared_as rt (get d "name") = None →
         create_planet rt now st (Ok (PDict d))
         = (st, (error (str_exn rt (DBAPIError "planets")), 500)))
        ∧ (∀ s k p, compared_as rt (get d "name") = Some (Some s) →
             planets st !! k = Some p → Planet.name p = s →
             create_planet rt now st (Ok (PDict d))
             = (st, (error "Planet with this name already exists", 400)))
        ∧ ((compared_as rt (get d "name") = Some None
            ∨ ∃ s, compared_as rt (get d "name") = Some (Some s)
                   ∧ ∀ k p, planets st !! k = Some p → Planet.name p ≠ s) →
           (∀ id p, post_planet rt now st d = Ok (id, p) →
              let st' := set_planets st (<[id := p]> (planets st)) in
              create_planet rt now st (Ok (PDict d))
              = (st', (serialize_planet id p, 201))
              ∧ planets st !! id = None
              ∧ size (planets st') = S (size (planets st))
              ∧ (∀ s, get d "name" = PStr s → Planet.name p = s)
              ∧ Planet.created_at p = Some now)
           ∧ (∀ e, post_planet rt now st d = Raise e →
                create_planet rt now st (Ok (PDict d))
                = (st, (error (str_exn rt e), 500)))))).
Proof.
  split.
  - split; [reflexivity|]. split; [reflexivity|].
    split; [apply create_person_no_name|].
    intros Hd Hname.
    rewrite (create_person_named rt now st d Hd Hname),
      filter_by_name_compared.
    split; [by intros ->|]. split.
    + intros s k c -> Hk Hc. simpl.
      destruct (first_Some
                  (filter (λ kv, Character.name kv.2 = s) (characters st))
                  k c) as [row ->]; [|done].
      by apply map_lookup_filter_Some.
    + intros Hno.
      assert (∃ o, compared_as rt (get d "name") = Some o
                   ∧ (o = None
                      ∨ ∃ s, o = Some s
                             ∧ ∀ k c, characters st !! k = Some c →
                                      Character.name c ≠ s))
        as (o & -> & Ho).
      { destruct Hno as [->|(s & -> & Hs)]; eauto 6. }
      pose proof (first_no_match Character.name (characters st) o Ho) as Hf.
      assert (∀ new : result (Z * Character.t),
                handle rt st
                  (existing <- match o with
                               | Some s =>
                                   Ok (filter (λ kv, Character.name kv.2 = s)
                                         (characters st))
                               | None => Ok ∅
                               end ;;
                   match first existing with
                   | Some _ =>
                       Ok (st, (error "Character with this name already exists",
                                400))
                   | None =>
                       new0 <- new ;;
                       Ok (set_characters st
                             (<[new0.1 := new0.2]> (characters st)),
                           (serialize_character
                              (set_characters st
                                 (<[new0.1 := new0.2]> (characters st)))
                              new0.1 new0.2, 201))
                   end)
                = handle rt st
                    (new0 <- new ;;
                     Ok (set_characters st
                           (<[new0.1 := new0.2]> (characters st)),
                         (serialize_character
                            (set_characters st
                               (<[new0.1 := new0.2]> (characters st)))
                            new0.1 new0.2, 201)))) as Hrun.
      { intros new. destruct o as [s|]; simpl in *; by rewrite Hf. }
      split.
      * intros id c Hpost.
        destruct (post_character_fresh rt now st d id c Hpost) as (-> & Hat).
        rewrite Hrun, Hpost. simpl. repeat split; try done.
        -- apply next_id_fresh.
        -- apply map_size_insert_None, next_id_fresh.
        -- intros s Hs%get_str.
           by destruct (post_character_row rt now st d s _ c Hs Hpost)
             as (_ & ? & _).
      * intros e Hpost. by rewrite Hrun, Hpost.
  - split; [reflexivity|]. split; [reflexivity|].
    split; [apply create_planet_no_name|].
    intros Hd Hname.
    rewrite (create_planet_named rt now st d Hd Hname),
      filter_by_name_compared.
    split; [by intros ->|]. split.
    + intros s k p -> Hk Hp. simpl.
      destruct (first_Some
                  (filter (λ kv, Planet.name kv.2 = s) (planets st))
                  k p) as [row ->]; [|done].
      by apply map_lookup_filter_Some.
    + intros Hno.
      assert (∃ o, compared_as rt (get d "name") = Some o
                   ∧ (o = None
                      ∨ ∃ s, o = Some s
                             ∧ ∀ k p, planets st !! k = Some p →
                                      Planet.name p ≠ s))
        as (o & -> & Ho).
      { destruct Hno as [->|(s & -> & Hs)]; eauto 6. }
      pose proof (first_no_match Planet.name (planets st) o Ho) as Hf.
      assert (∀ new : result (Z * Planet.t),
                handle rt st
                  (existing <- match o with
                               | Some s =>
                                   Ok (filter (λ kv, Planet.name kv.2 = s)
                                         (planets st))
                               | None => Ok ∅
                               end ;;
                   match first existing with
                   | Some _ =>
                       Ok (st, (error "Planet with this name already exists",
                                400))
                   | None =>
                       new0 <- new ;;
                       Ok (set_planets st (<[new0.1 := new0.2]> (planets st)),
                           (serialize_planet new0.1 new0.2, 201))
                   end)
                = handle rt st
                    (new0 <- new ;;
                     Ok (set_planets st (<[new0.1 := new0.2]> (planets st)),
                         (serialize_planet new0.1 new0.2, 201)))) as Hrun.
      { intros new. destruct o as [s|]; simpl in *; by rewrite Hf. }
      split.
      * intros id p Hpost.
        destruct (post_planet_fresh rt now st d id p Hpost) as (-> & Hat).
        rewrite Hrun, Hpost. simpl. repeat split; try done.
        -- apply next_id_fresh.
        -- apply map_size_insert_None, next_id_fresh.
        -- intros s Hs%get_str.
           by destruct (post_planet_row rt now st d s _ p Hs Hpost)
             as (_ & ? & _).
      * intros e Hpost. by rewrite Hrun, Hpost.
Qed.

Lemma naboo_characters (k : Z) (c : Character.t) :
  characters naboo_store !! k = Some c → c = luke ∨ c = leia.
Proof.
  simpl. intros [[_ <-]|[_ [_ <-]%lookup_singleton_Some]]%lookup_insert_Some;
    auto.
Qed.

Lemma create_contract_witness :
  let d : gmap string pyval :=
    {[ "name" := PStr "Han Solo"; "height" := PStr "180" ]} in
  let c := Character.mk "Han Solo" (Some "180") None None None None None None
             None None None (Some noon) in
  let st' := set_characters naboo_store (<[3 := c]> (characters naboo_store)) in
  (create_person strict noon naboo_store (Ok (PDict d))
   = (st', (serialize_character st' 3 c, 201))
   ∧ characters naboo_store !! 3 = None
   ∧ size (characters st') = S (size (characters naboo_store))
   ∧ (∀ s, get d "name" = PStr s → Character.name c = s)
   ∧ Character.created_at c = Some noon)
  ∧ create_person strict noon naboo_store (Ok (PDict {[ "name" := PInt 5 ]}))
    = (naboo_store, (error "DBAPIError characters", 500))
  ∧ create_person nan_as_null noon naboo_store
      (Ok (PDict {[ "name" := PFloat S754_nan ]}))
    = (naboo_store, (error "DBAPIError characters", 500)).
Proof.
  intros d c. split; [|split].
  - destruct (create_contract strict noon naboo_store d)
      as [(_ & _ & _ & H) _].
    destruct H as (_ & _ & H); [apply insert_non_empty|reflexivity|].
    destruct H as [H _].
    + right. exists "Han Solo". split; [reflexivity|].
      intros k c' [->| ->]%naboo_characters; discriminate.
    + apply (H 3 c). reflexivity.
  - destruct (create_contract strict noon naboo_store {[ "name" := PInt 5 ]})
      as [(_ & _ & _ & H) _].
    destruct H as (H & _); [apply insert_non_empty|reflexivity|].
    apply H. reflexivity.
  - destruct (create_contract nan_as_null noon naboo_store
                {[ "name" := PFloat S754_nan ]}) as [(_ & _ & _ & H) _].
    destruct H as (_ & _ & H); [apply insert_non_empty|reflexivity|].
    destruct H as [_ H]; [by left|].
    apply (H (DBAPIError "characters")). reflexivity.
Defined.

(** C1 as stated fails: a body that is a JSON array is neither rejected
    with 400 nor stored, the handler returns 500; and so does a JSON object
    with a fresh name and a value that the database does not take. *)
Lemma create_array_body_fails :
  create_person strict noon empty_store (Ok (PList [PInt 1]))
  = (empty_store, (error "AttributeError", 500))
  ∧ create_planet strict noon empty_store (Ok (PList [PInt 1]))
    = (empty_store, (error "AttributeError", 500))
  ∧ create_person strict noon empty_store
      (Ok (PDict {[ "name" := PStr "Han Solo";
                "height" := PDict {[ "cm" := PInt 180 ]} ]}))
    = (empty_store, (error "DBAPIError characters", 500)).
Proof. repeat split. Qed.

(** C2, as the code has it. A create request whose [name] is the
    non-empty name of a stored character (planet) returns 400 with
    [{"error": "Character with this name already exists"}] (the planet
    message) and leaves the store as it was. *)
Theorem create_duplicate_name (rt : Runtime) (now : datetime) (st : Store)
    (d : gmap string pyval) (s : string) :
  d !! "name" = Some (PStr s) → s ≠ "" →
  (∀ k c, characters st !! k = Some c → Character.name c = s →
     create_person rt now st (Ok (PDict d))
     = (st, (PDict {[ "error" :=
                        PStr "Character with this name already exists" ]},
             400)))
  ∧ (∀ k p, planets st !! k = Some p → Planet.name p = s →
       create_planet rt now st (Ok (PDict d))
       = (st, (PDict {[ "error" :=
                          PStr "Planet with this name already exists" ]},
               400))).
Proof.
  intros Hd Hs. split.
  - intros k c. by apply create_person_duplicate.
  - intros k p. by apply create_planet_duplicate.
Qed.

Lemma create_duplicate_name_witness :
  create_person strict noon naboo_store
    (Ok (PDict {[ "name" := PStr "Luke Skywalker" ]}))
  = (naboo_store,
     (PDict {[ "error" := PStr "Character with this name already exists" ]},
      400)).
Proof.
  destruct (create_duplicate_name strict noon naboo_store
              {[ "name" := PStr "Luke Skywalker" ]} "Luke Skywalker")
    as [H _]; [reflexivity|discriminate|].
  apply (H 1 luke); reflexivity.
Defined.

(** C2 as stated fails for the empty name. PUT /people/1 with
    [{"name": ""}] stores a character whose name is empty; a create request
    with that same name is then answered "Name is required", not with the
    duplicate message. *)
Lemma create_duplicate_empty_name :
  let st := (update_person strict naboo_store 1
               (Ok (PDict {[ "name" := PStr "" ]}))).1 in
  (∃ c, characters st !! 1 = Some c ∧ Character.name c = "")
  ∧ create_person strict noon st (Ok (PDict {[ "name" := PStr "" ]}))
    = (st, (error "Name is required", 400))
  ∧ error "Name is required"
    ≠ error "Character with this name already exists".
Proof.
  split; [|split].
  - eexists. split; reflexivity.
  - reflexivity.
  - intros H. apply (f_equal (λ v, field v "error")) in H.
    vm_compute in H. discriminate.
Qed.

(** ** Updating a character or a planet *)

Lemma provided_dict (d : gmap string pyval) (key : string) :
  provided (PDict d) key = Ok (d !! key).
Proof.
  unfold provided. simpl. destruct (d !! key) as [v|] eqn:E.
  - by rewrite bool_decide_eq_true_2.
  - rewrite bool_decide_eq_false_2; [done|]. by intros [v Hv].
Qed.

Lemma update_person_dict (rt : Runtime) (st : Store) (id : Z)
    (c : Character.t) (d : gmap string pyval) :
  characters st !! id = Some c → d ≠ ∅ →
  update_person rt st id (Ok (PDict d))
  = handle rt st (
      c' <- put_character rt st c d ;;
      let st' := set_characters st (<[id := c']> (characters st)) in
      Ok (st', (serialize_character st' id c', 200))).
Proof.
  intros Hc Hd. unfold update_person, query_get. rewrite Hc. simpl. rewrite truthy_dict by done.
  rewrite !provided_dict. reflexivity.
Qed.

Lemma update_planet_dict (rt : Runtime) (st : Store) (id : Z)
    (p : Planet.t) (d : gmap string pyval) :
  planets st !! id = Some p → d ≠ ∅ →
  update_planet rt st id (Ok (PDict d))
  = handle rt st (
      p' <- put_planet rt p d ;;
      let st' := set_planets st (<[id := p']> (planets st)) in
      Ok (st', (serialize_planet id p', 200))).
Proof.
  intros Hp Hd. unfold update_planet, query_get. rewrite Hp. simpl. rewrite truthy_dict by done.
  rewrite !provided_dict. reflexivity.
Qed.

Lemma flush_text_updated (rt : Runtime) table maxlen old new r :
  flush_text rt table maxlen old new = Ok r →
  text_updated rt maxlen new old r.
Proof.
  unfold flush_text, text_updated. destruct new as [v|]; [|congruence].
  destruct v, old as [s0|]; simpl; intros H;
    repeat case_match; simplify_eq/=; eauto.
  by apply String.eqb_eq in H0 as ->.
Qed.

Lemma references_planet_Ok (rt : Runtime) table st o r :
  references_planet rt table st o = Ok r → r = o.
Proof.
  unfold references_planet. destruct o as [pid|]; [|congruence].
  destruct (foreign_keys rt && _); congruence.
Qed.

Lemma bind_int_Ok (rt : Runtime) table v o :
  bind_int rt table v = Ok o →
  match v with
  | PNone => o = None
  | PInt z => o = Some z
  | _ => adapt_int rt v = Some o
  end.
Proof.
  unfold bind_int. destruct v; intros H;
    repeat case_match; simplify_eq/=; eauto.
Qed.

Lemma flush_homeworld_updated (rt : Runtime) st old new r :
  flush_homeworld_id rt st old new = Ok r → int_updated rt new old r.
Proof.
  unfold flush_homeworld_id, int_updated.
  destruct new as [v|]; [|congruence].
  destruct (same_int old v) eqn:Hsame.
  - intros [= <-]. destruct v, old as [z0|]; simplify_eq/=; auto.
    by apply Z.eqb_eq in Hsame as ->.
  - intros H. apply bind_Ok in H as (o & Hbind & Href).
    apply references_planet_Ok in Href as ->.
    apply bind_int_Ok in Hbind. destruct v; auto.
Qed.

Lemma not_null_Ok (rt : Runtime) {A} table (o : option A) a :
  not_null table o = Ok a → o = Some a.
Proof. unfold not_null. destruct o; congruence. Qed.

Lemma put_character_updated (rt : Runtime) (st : Store) (c c' : Character.t)
    (d : gmap string pyval) :
  put_character rt st c d = Ok c' → character_updated rt d c c'.
Proof.
  intros H. unfold put_character, update_character in H. binds H.
  injection H as <-. simpl.
  apply (not_null_Ok rt) in E0 as ->.
  unfold character_updated. simpl.
  repeat split;
    first [by eapply flush_text_updated | by eapply flush_homeworld_updated].
Qed.





Lemma put_character_name (rt : Runtime) (st : Store) (c : Character.t)
    (s : string) :
  text_ok rt (Some 100%nat) s = true →
  put_character rt st c {[ "name" := PStr s ]}
  = Ok (Character.mk s (Character.height c) (Character.mass c)
          (Character.hair_color c) (Character.skin_color c)
          (Character.eye_color c) (Character.birth_year c)
          (Character.gender c) (Character.homeworld_id c)
          (Character.description c) (Character.image_url c)
          (Character.created_at c)).
Proof.
  intros Hok. unfold put_character.
  rewrite lookup_singleton_eq, !lookup_singleton_ne by done.
  unfold update_character. simpl.
  destruct (String.eqb (Character.name c) s) eqn:E.
  - apply String.eqb_eq in E as ->. reflexivity.
  - rewrite Hok. reflexivity.
Qed.

(** C9. A PUT on an existing character that sets [name] to the name of a
    different stored character returns 200, and afterwards the two rows
    carry the same name: the update path checks no uniqueness. This holds
    for the body [{"name": s}] when [s], a name the database already
    holds, is one it accepts in the column, and for every JSON object with
    that [name] whose values the database accepts. *)
Theorem update_duplicates_name (rt : Runtime) (st : Store) (id id' : Z)
    (c c' : Character.t) :
  characters st !! id = Some c →
  characters st !! id' = Some c' →
  id ≠ id' →
  (text_ok rt (Some 100%nat) (Character.name c') = true →
   let r := update_person rt st id
              (Ok (PDict {[ "name" := PStr (Character.name c') ]})) in
   r.2.2 = 200
   ∧ ∃ c1, characters r.1 !! id = Some c1
           ∧ characters r.1 !! id' = Some c'
           ∧ Character.name c1 = Character.name c')
  ∧ (∀ d c1, d !! "name" = Some (PStr (Character.name c')) →
             put_character rt st c d = Ok c1 →
             let r := update_person rt st id (Ok (PDict d)) in
             r.2.2 = 200
             ∧ characters r.1 !! id = Some c1
             ∧ characters r.1 !! id' = Some c'
             ∧ Character.name c1 = Character.name c').
Proof.
  intros Hc Hc' Hne. split.
  - intros Hok.
    rewrite (update_person_dict rt st id c _ Hc) by apply insert_non_empty.
    rewrite put_character_name by done. simpl.
    split; [done|]. eexists.
    rewrite lookup_insert_eq, lookup_insert_ne by done. by repeat split.
  - intros d c1 Hd Hput.
    rewrite (update_person_dict rt st id c d Hc)
      by (by eapply lookup_nonempty).
    rewrite Hput. simpl.
    rewrite lookup_insert_eq, lookup_insert_ne by done.
    repeat split; try done.
    destruct (put_character_updated rt st c c1 d Hput) as [Hname _].
    rewrite Hd in Hname. simpl in Hname. congruence.
Qed.

Lemma update_duplicates_name_witness :
  let r := update_person strict naboo_store 1
             (Ok (PDict {[ "name" := PStr "Leia Organa" ]})) in
  r.2.2 = 200
  ∧ ∃ c1, characters r.1 !! 1 = Some c1
          ∧ characters r.1 !! 2 = Some leia
          ∧ Character.name c1 = "Leia Organa".
Proof.
  apply (proj1 (update_duplicates_name strict naboo_store 1 2 luke leia
                  eq_refl eq_refl ltac:(lia))).
  reflexivity.
Defined.

(** ** Scenarios *)

Example isoformat_seconds : isoformat noon = "2024-05-04T12:00:00".
Proof. reflexivity. Qed.

Example isoformat_microseconds :
  isoformat {| year := 987; month := 1; day := 2; hour := 3; minute := 4;
               second := 5; microsecond := 60 |}
  = "0987-01-02T03:04:05.000060".
Proof. reflexivity. Qed.

(** POST /people [{"name": "Luke Skywalker"}] on an empty store is
    answered 201 with the generated id 1; the same request again is
    answered 400. *)
Example luke_twice :
  let body := Ok (PDict {[ "name" := PStr "Luke Skywalker" ]}) in
  let r1 := create_person strict noon empty_store body in
  let r2 := create_person strict noon r1.1 body in
  r1.2.2 = 201
  ∧ field r1.2.1 "id" = Some (PInt 1)
  ∧ r2.2 = (error "Character with this name already exists", 400)
  ∧ r2.1 = r1.1.
Proof. repeat split. Qed.

(** A homeworld that does not exist is refused where foreign keys are
    enforced and stored where they are not; it is then serialized as
    null. *)
Example unknown_homeworld :
  let body := Ok (PDict {[ "name" := PStr "Rey"; "homeworld_id" := PInt 9 ]}) in
  (create_person strict noon empty_store body).2.2 = 500
  ∧ (create_person lenient noon empty_store body).2.2 = 201
  ∧ field (create_person lenient noon empty_store body).2.1 "homeworld"
    = Some PNone.
Proof. repeat split. Qed.

(** A body that [request.get_json()] cannot parse is answered 500. *)
Example unparsable_body :
  create_person strict noon empty_store (Raise (HTTPException 400))
  = (empty_store, (error "HTTPException", 500)).
Proof. reflexivity. Qed.

(** A PUT whose body is a JSON string naming no column changes nothing
    and is answered 200. *)
Example update_string_body :
  update_person strict naboo_store 1 (Ok (PStr "x"))
  = (naboo_store, (serialize_character naboo_store 1 luke, 200)).
Proof. reflexivity. Qed.

(** Deleting a planet clears the homeworld of its natives. *)
Example delete_homeworld :
  characters (delete_planet strict naboo_store 3).1 !! 2
  = Some (forget_homeworld 3 leia)
  ∧ Character.homeworld_id (forget_homeworld 3 leia) = None.
Proof. split; reflexivity. Qed.

(** * Further properties of the handlers *)

(** ** What a write can do to the store *)

Lemma references_planet_fk (rt : Runtime) table st o r pid :
  references_planet rt table st o = Ok r →
  foreign_keys rt = true → r = Some pid → is_Some (planets st !! pid).
Proof.
  unfold references_planet. intros H Hfk ->.
  destruct o as [p|]; [|discriminate]. rewrite Hfk in H. simpl in H.
  destruct (bool_decide (is_Some (planets st !! p))) eqn:E; simplify_eq/=.
  by apply bool_decide_eq_true in E.
Qed.

Lemma insert_character_Ok (rt : Runtime) now st name height mass hair_color
    skin_color eye_color birth_year gender homeworld_id description image_url
    id c :
  insert_character rt now st name height mass hair_color skin_color eye_color
    birth_year gender homeworld_id description image_url = Ok (id, c) →
  id = next_id (characters st)
  ∧ Character.created_at c = Some now
  ∧ (∀ s, name = PStr s → Character.name c = s)
  ∧ (foreign_keys rt = true → ∀ pid, Character.homeworld_id c = Some pid →
     is_Some (planets st !! pid)).
Proof.
  intros H. unfold insert_character in H. binds H.
  injection H as <- <-. simpl. repeat split.
  - intros s ->. apply bind_text_str in E as ->. by simplify_eq/=.
  - intros Hfk pid ->. by eapply references_planet_fk.
Qed.

Lemma insert_planet_Ok (rt : Runtime) now st name rotation_period
    orbital_period diameter climate gravity terrain surface_water population
    description image_url id p :
  insert_planet rt now st name rotation_period orbital_period diameter
    climate gravity terrain surface_water population description image_url
  = Ok (id, p) →
  id = next_id (planets st)
  ∧ Planet.created_at p = Some now
  ∧ (∀ s, name = PStr s → Planet.name p = s).
Proof.
  intros H. unfold insert_planet in H. binds H.
  injection H as <- <-. simpl. repeat split.
  intros s ->. apply bind_text_str in E as ->. by simplify_eq/=.
Qed.

Lemma filter_by_name_str (rt : Runtime) {A} table (name_of : A → string)
    (t : gmap Z A) s q :
  filter_by_name rt table name_of t (PStr s) = Ok q →
  first q = None →
  ∀ k x, t !! k = Some x → name_of x ≠ s.
Proof.
  simpl. intros [= <-] Hq%first_None k x Hk Hname.
  assert (filter (λ kv, name_of kv.2 = s) t !! k = Some x) as Hin
    by by apply map_lookup_filter_Some.
  rewrite Hq in Hin. by rewrite lookup_empty in Hin.
Qed.

(** The outcomes of POST /people, whatever the body. *)
Lemma create_person_cases (rt : Runtime) now st get_json :
  let r := create_person rt now st get_json in
  (r.1 = st ∧ (r.2.2 = 400 ∨ r.2.2 = 500))
  ∨ (∃ d c,
       get_json = Ok (PDict d)
       ∧ r = (set_characters st
                (<[next_id (characters st) := c]> (characters st)),
              (serialize_character
                 (set_characters st
                    (<[next_id (characters st) := c]> (characters st)))
                 (next_id (characters st)) c, 201))
       ∧ Character.created_at c = Some now
       ∧ (∀ s, get d "name" = PStr s →
            Character.name c = s
            ∧ ∀ k c0, characters st !! k = Some c0 → Character.name c0 ≠ s)
       ∧ (foreign_keys rt = true → ∀ pid,
            Character.homeworld_id c = Some pid →
            is_Some (planets st !! pid))
       ∧ truthy (get d "name") = true).
Proof.
  unfold create_person. destruct get_json as [body|e]; simpl; [|auto].
  destruct (truthy body) eqn:Hbody; simpl; [|auto].
  destruct body as [| | | | |l|d]; simpl; auto.
  fold (get d "name").
  destruct (truthy (get d "name")) eqn:Hname; simpl; [|auto].
  destruct (filter_by_name rt "characters" Character.name (characters st)
              (get d "name")) as [q|e] eqn:Hq; simpl; [|auto].
  destruct (first q) as [row|] eqn:Hfirst; simpl; [auto|].
  destruct (insert_character _ _ _ _ _ _ _ _ _ _ _ _ _ _)
    as [[id c]|e] eqn:Hins; simpl; [|auto].
  apply insert_character_Ok in Hins as (-> & Hat & Hs & Hfk).
  right. exists d, c. repeat split; try done.
  - by apply Hs.
  - intros k c0 Hk. rewrite H in Hq.
    by eapply (filter_by_name_str rt _ Character.name).
Qed.

(** The outcomes of POST /planets, whatever the body. *)
Lemma create_planet_cases (rt : Runtime) now st get_json :
  let r := create_planet rt now st get_json in
  (r.1 = st ∧ (r.2.2 = 400 ∨ r.2.2 = 500))
  ∨ (∃ d p,
       get_json = Ok (PDict d)
       ∧ r = (set_planets st (<[next_id (planets st) := p]> (planets st)),
              (serialize_planet (next_id (planets st)) p, 201))
       ∧ Planet.created_at p = Some now
       ∧ (∀ s, get d "name" = PStr s →
            Planet.name p = s
            ∧ ∀ k p0, planets st !! k = Some p0 → Planet.name p0 ≠ s)
       ∧ truthy (get d "name") = true).
Proof.
  unfold create_planet. destruct get_json as [body|e]; simpl; [|auto].
  destruct (truthy body) eqn:Hbody; simpl; [|auto].
  destruct body as [| | | | |l|d]; simpl; auto.
  fold (get d "name").
  destruct (truthy (get d "name")) eqn:Hname; simpl; [|auto].
  destruct (filter_by_name rt "planets" Planet.name (planets st)
              (get d "name")) as [q|e] eqn:Hq; simpl; [|auto].
  destruct (first q) as [row|] eqn:Hfirst; simpl; [auto|].
  destruct (insert_planet _ _ _ _ _ _ _ _ _ _ _ _ _ _)
    as [[id p]|e] eqn:Hins; simpl; [|auto].
  apply insert_planet_Ok in Hins as (-> & Hat & Hs).
  right. exists d, p. repeat split; try done.
  - by apply Hs.
  - intros k p0 Hk. rewrite H in Hq.
    by eapply (filter_by_name_str rt _ Planet.name).
Qed.

Lemma flush_homeworld_fk (rt : Runtime) st old new r :
  flush_homeworld_id rt st old new = Ok r →
  r = old
  ∨ (foreign_keys rt = true → ∀ pid, r = Some pid →
     is_Some (planets st !! pid)).
Proof.
  unfold flush_homeworld_id. destruct new as [v|]; [|intros [= <-]; auto].
  destruct (same_int old v); [intros [= <-]; auto|].
  intros H. apply bind_Ok in H as (o & _ & Href). right.
  intros Hfk pid ->. by eapply references_planet_fk.
Qed.

Lemma update_character_Ok (rt : Runtime) st c name height mass hair_color
    skin_color eye_color birth_year gender homeworld_id description image_url
    c' :
  update_character rt st c name height mass hair_color skin_color eye_color
    birth_year gender homeworld_id description image_url = Ok c' →
  Character.created_at c' = Character.created_at c
  ∧ (Character.homeworld_id c' = Character.homeworld_id c
     ∨ (foreign_keys rt = true → ∀ pid,
          Character.homeworld_id c' = Some pid →
          is_Some (planets st !! pid))).
Proof.
  intros H. unfold update_character in H. binds H.
  injection H as <-. simpl. split; [done|].
  by eapply flush_homeworld_fk.
Qed.

Local Ltac provided_cases :=
  repeat match goal with
         | |- context [bind (provided ?b ?k) _] =>
             destruct (provided b k); simpl; [|by auto]
         end.

(** The outcomes of PUT /people/<id>, whatever the body. *)
Lemma update_person_cases (rt : Runtime) st id get_json :
  let r := update_person rt st id get_json in
  (r.1 = st ∧ (r.2.2 = 400 ∨ r.2.2 = 404 ∨ r.2.2 = 500))
  ∨ (∃ c c',
       characters st !! id = Some c
       ∧ r = (set_characters st (<[id := c']> (characters st)),
              (serialize_character
                 (set_characters st (<[id := c']> (characters st))) id c',
               200))
       ∧ Character.created_at c' = Character.created_at c
       ∧ (Character.homeworld_id c' = Character.homeworld_id c
          ∨ (foreign_keys rt = true → ∀ pid,
               Character.homeworld_id c' = Some pid →
               is_Some (planets st !! pid)))).
Proof.
  unfold update_person, query_get.
  destruct (characters st !! id) as [c|] eqn:Hc; simpl;
    [|destruct (binds rt id); simpl; auto].
  destruct get_json as [body|e]; simpl; [|auto].
  destruct (truthy body) eqn:Hbody; simpl; [|auto].
  provided_cases.
  destruct (update_character _ _ _ _ _ _ _ _ _ _ _ _ _ _)
    as [c'|e] eqn:Hupd; simpl; [|auto].
  apply update_character_Ok in Hupd as [Hat Hfk].
  right. by exists c, c'.
Qed.

(** The outcomes of PUT /planets/<id>, whatever the body. *)
Lemma update_planet_cases (rt : Runtime) st id get_json :
  let r := update_planet rt st id get_json in
  (r.1 = st ∧ (r.2.2 = 400 ∨ r.2.2 = 404 ∨ r.2.2 = 500))
  ∨ (∃ p p',
       planets st !! id = Some p
       ∧ r = (set_planets st (<[id := p']> (planets st)),
              (serialize_planet id p', 200))
       ∧ Planet.created_at p' = Planet.created_at p).
Proof.
  unfold update_planet, query_get.
  destruct (planets st !! id) as [p|] eqn:Hp; simpl;
    [|destruct (binds rt id); simpl; auto].
  destruct get_json as [body|e]; simpl; [|auto].
  destruct (truthy body) eqn:Hbody; simpl; [|auto].
  provided_cases.
  destruct (update_planet_row _ _ _ _ _ _ _ _ _ _ _ _ _)
    as [p'|e] eqn:Hupd; simpl; [|auto].
  right. exists p, p'. repeat split.
  unfold update_planet_row in Hupd. binds Hupd. by injection Hupd as <-.
Qed.

(** The outcomes of DELETE /people/<id>. *)
Lemma delete_person_cases (rt : Runtime) st id :
  let r := delete_person rt st id in
  (r.1 = st ∧ (r.2.2 = 404 ∨ r.2.2 = 500))
  ∨ (∃ c,
       characters st !! id = Some c
       ∧ binds rt id = true
       ∧ (∀ k f, favorite_characters st !! k = Some f →
                 FavoriteCharacter.character_id f ≠ id)
       ∧ r = (set_characters st (delete id (characters st)),
              (message ("Character " ++ Character.name c
                          ++ " deleted successfully"), 200))).
Proof.
  unfold delete_person, delete_character, query_get.
  destruct (characters st !! id) as [c|] eqn:Hc; simpl;
    [|destruct (binds rt id); simpl; auto].
  case_bool_decide as Hnone; simpl; [|auto].
  destruct (binds rt id) eqn:Hid; simpl; [|auto].
  right. exists c. repeat split. intros k f Hk Hid'.
  assert (filter (λ kv, FavoriteCharacter.character_id kv.2 = id)
            (favorite_characters st) !! k = Some f) as Hin
    by by apply map_lookup_filter_Some.
  rewrite Hnone in Hin. by rewrite lookup_empty in Hin.
Qed.

(** The outcomes of DELETE /planets/<id>. *)
Lemma delete_planet_cases (rt : Runtime) st id :
  let r := delete_planet rt st id in
  (r.1 = st ∧ (r.2.2 = 404 ∨ r.2.2 = 500))
  ∨ (∃ p,
       planets st !! id = Some p
       ∧ binds rt id = true
       ∧ (∀ k f, favorite_planets st !! k = Some f →
                 FavoritePlanet.planet_id f ≠ id)
       ∧ r = ({| users := users st;
                 characters := forget_homeworld id <$> characters st;
                 planets := delete id (planets st);
                 favorite_characters := favorite_characters st;
                 favorite_planets := favorite_planets st |},
              (message ("Planet " ++ Planet.name p
                          ++ " deleted successfully"), 200))).
Proof.
  unfold delete_planet, delete_planet_row, query_get.
  destruct (planets st !! id) as [p|] eqn:Hp; simpl;
    [|destruct (binds rt id); simpl; auto].
  case_bool_decide as Hnone; simpl; [|auto].
  destruct (binds rt id) eqn:Hid; simpl; [|auto].
  right. exists p. repeat split. intros k f Hk Hid'.
  assert (filter (λ kv, FavoritePlanet.planet_id kv.2 = id)
            (favorite_planets st) !! k = Some f) as Hin
    by by apply map_lookup_filter_Some.
  rewrite Hnone in Hin. by rewrite lookup_empty in Hin.
Qed.

Lemma first_lookup {A} (q : gmap Z A) row :
  first q = Some row → q !! row.1 = Some row.2.
Proof.
  unfold first. intros E. apply elem_of_map_to_list.
  destruct (map_to_list q) as [|r l] eqn:El; simplify_eq/=.
  destruct row. simpl. apply list_elem_of_here.
Qed.

Lemma filter_empty_none {A} (P : Z * A → Prop) `{!∀ kv, Decision (P kv)}
    (m : gmap Z A) k x :
  filter P m = ∅ → m !! k = Some x → ¬ P (k, x).
Proof.
  intros Hempty Hk HP.
  assert (filter P m !! k = Some x) as Hin by by apply map_lookup_filter_Some.
  rewrite Hempty in Hin. by rewrite lookup_empty in Hin.
Qed.

(** The outcomes of POST /favorite/people/<id>. *)
Lemma add_favorite_people_cases (rt : Runtime) now st id :
  let r := add_favorite_people rt now st id in
  (r.1 = st ∧ (r.2.2 = 400 ∨ r.2.2 = 404 ∨ r.2.2 = 500))
  ∨ (is_Some (users st !! 1) ∧ is_Some (characters st !! id)
     ∧ (∀ k f, favorite_characters st !! k = Some f →
               ¬ (FavoriteCharacter.user_id f = 1
                  ∧ FavoriteCharacter.character_id f = id))
     ∧ r = (set_favorite_characters st
              (<[next_id (favorite_characters st) :=
                   FavoriteCharacter.mk 1 id (Some now)]>
                 (favorite_characters st)),
            (serialize_favorite_character
               (set_favorite_characters st
                  (<[next_id (favorite_characters st) :=
                       FavoriteCharacter.mk 1 id (Some now)]>
                     (favorite_characters st)))
               (next_id (favorite_characters st))
               (FavoriteCharacter.mk 1 id (Some now)), 201))).
Proof.
  unfold add_favorite_people, current_user_id, query_get.
  destruct (users st !! 1) as [u|] eqn:Hu; simpl; [|auto].
  destruct (characters st !! id) as [c|] eqn:Hc; simpl;
    [|destruct (binds rt id); simpl; auto].
  destruct (first _) as [row|] eqn:Hfirst; simpl; [auto|].
  right. repeat split; eauto.
  apply first_None in Hfirst. intros k f Hk.
  by apply (filter_empty_none _ _ k f Hfirst).
Qed.

(** The outcomes of POST /favorite/planet/<id>. *)
Lemma add_favorite_planet_cases (rt : Runtime) now st id :
  let r := add_favorite_planet rt now st id in
  (r.1 = st ∧ (r.2.2 = 400 ∨ r.2.2 = 404 ∨ r.2.2 = 500))
  ∨ (is_Some (users st !! 1) ∧ is_Some (planets st !! id)
     ∧ (∀ k f, favorite_planets st !! k = Some f →
               ¬ (FavoritePlanet.user_id f = 1
                  ∧ FavoritePlanet.planet_id f = id))
     ∧ r = (set_favorite_planets st
              (<[next_id (favorite_planets st) :=
                   FavoritePlanet.mk 1 id (Some now)]>
                 (favorite_planets st)),
            (serialize_favorite_planet
               (set_favorite_planets st
                  (<[next_id (favorite_planets st) :=
                       FavoritePlanet.mk 1 id (Some now)]>
                     (favorite_planets st)))
               (next_id (favorite_planets st))
               (FavoritePlanet.mk 1 id (Some now)), 201))).
Proof.
  unfold add_favorite_planet, current_user_id, query_get.
  destruct (users st !! 1) as [u|] eqn:Hu; simpl; [|auto].
  destruct (planets st !! id) as [p|] eqn:Hp; simpl;
    [|destruct (binds rt id); simpl; auto].
  destruct (first _) as [row|] eqn:Hfirst; simpl; [auto|].
  right. repeat split; eauto.
  apply first_None in Hfirst. intros k f Hk.
  by apply (filter_empty_none _ _ k f Hfirst).
Qed.

(** The outcomes of DELETE /favorite/people/<id>. *)
Lemma delete_favorite_people_cases (rt : Runtime) st id :
  let r := delete_favorite_people rt st id in
  ((∀ k f, favorite_characters st !! k = Some f →
           ¬ (FavoriteCharacter.user_id f = 1
              ∧ FavoriteCharacter.character_id f = id))
   ∧ r = (st, if binds rt id
              then (error "Favorite character not found", 404)
              else (error (str_exn rt (DBAPIError "favorite_characters")),
                    500)))
  ∨ (∃ k f,
       favorite_characters st !! k = Some f
       ∧ FavoriteCharacter.user_id f = 1
       ∧ FavoriteCharacter.character_id f = id
       ∧ r = (set_favorite_characters st (delete k (favorite_characters st)),
              (message "Favorite character deleted successfully", 200))).
Proof.
  unfold delete_favorite_people, current_user_id, first_by.
  destruct (first _) as [[k f]|] eqn:Hfirst; simpl.
  - right. exists k, f.
    apply first_lookup, map_lookup_filter_Some in Hfirst as (Hk & Hu & Hid).
    by repeat split.
  - left. split; [|by destruct (binds rt id)].
    apply first_None in Hfirst. intros k f Hk.
    by apply (filter_empty_none _ _ k f Hfirst).
Qed.

(** The outcomes of DELETE /favorite/planet/<id>. *)
Lemma delete_favorite_planet_cases (rt : Runtime) st id :
  let r := delete_favorite_planet rt st id in
  ((∀ k f, favorite_planets st !! k = Some f →
           ¬ (FavoritePlanet.user_id f = 1
              ∧ FavoritePlanet.planet_id f = id))
   ∧ r = (st, if binds rt id
              then (error "Favorite planet not found", 404)
              else (error (str_exn rt (DBAPIError "favorite_planets")), 500)))
  ∨ (∃ k f,
       favorite_planets st !! k = Some f
       ∧ FavoritePlanet.user_id f = 1
       ∧ FavoritePlanet.planet_id f = id
       ∧ r = (set_favorite_planets st (delete k (favorite_planets st)),
              (message "Favorite planet deleted successfully", 200))).
Proof.
  unfold delete_favorite_planet, current_user_id, first_by.
  destruct (first _) as [[k f]|] eqn:Hfirst; simpl.
  - right. exists k, f.
    apply first_lookup, map_lookup_filter_Some in Hfirst as (Hk & Hu & Hid).
    by repeat split.
  - left. split; [|by destruct (binds rt id)].
    apply first_None in Hfirst. intros k f Hk.
    by apply (filter_empty_none _ _ k f Hfirst).
Qed.

(** A GET hands the store back as it was. *)
Lemma get_store (rt : Runtime) now st req :
  method req = GET → (dispatch rt now st req).1 = st.
Proof.
  destruct req; try discriminate; intros _; simpl.
  - done.
  - unfold get_single_user, query_get.
    by destruct (users st !! user_id), (binds rt user_id).
  - unfold get_user_favorites, query_get.
    by destruct (users st !! current_user_id).
  - done.
  - unfold get_single_person, query_get.
    by destruct (characters st !! people_id), (binds rt people_id).
  - done.
  - unfold get_single_planet, query_get.
    by destruct (planets st !! planet_id), (binds rt planet_id).
Qed.

(** ** Status codes and atomicity *)

(** X1. Every request is answered with 200, 201, 400, 404 or 500; a
    request answered with 400, 404 or 500 leaves the store exactly as it
    was, and so does every GET. *)
Theorem failure_leaves_store (rt : Runtime) (now : datetime) (st : Store)
    (req : Request) :
  let r := dispatch rt now st req in
  ((r.2.2 = 200 ∨ r.2.2 = 201)
   ∨ (r.1 = st ∧ (r.2.2 = 400 ∨ r.2.2 = 404 ∨ r.2.2 = 500)))
  ∧ (method req = GET → r.1 = st).
Proof.
  split; [|apply get_store].
  destruct req; simpl.
  - auto.
  - unfold get_single_user, query_get.
    destruct (users st !! user_id), (binds rt user_id); simpl; auto.
  - unfold get_user_favorites, query_get.
    destruct (users st !! current_user_id); simpl; auto.
  - auto.
  - unfold get_single_person, query_get.
    destruct (characters st !! people_id), (binds rt people_id); simpl; auto.
  - destruct (create_person_cases rt now st get_json)
      as [[-> [->| ->]]|(d & c & _ & -> & _)]; simpl; auto.
  - destruct (update_person_cases rt st people_id get_json)
      as [[-> [->|[->| ->]]]|(c & c' & _ & -> & _)]; simpl; auto.
  - destruct (delete_person_cases rt st people_id)
      as [[-> [->| ->]]|(c & _ & _ & _ & ->)]; simpl; auto.
  - auto.
  - unfold get_single_planet, query_get.
    destruct (planets st !! planet_id), (binds rt planet_id); simpl; auto.
  - destruct (create_planet_cases rt now st get_json)
      as [[-> [->| ->]]|(d & p & _ & -> & _)]; simpl; auto.
  - destruct (update_planet_cases rt st planet_id get_json)
      as [[-> [->|[->| ->]]]|(p & p' & _ & -> & _)]; simpl; auto.
  - destruct (delete_planet_cases rt st planet_id)
      as [[-> [->| ->]]|(p & _ & _ & _ & ->)]; simpl; auto.
  - destruct (add_favorite_planet_cases rt now st planet_id)
      as [[-> [->|[->| ->]]]|(_ & _ & _ & ->)]; simpl; auto.
  - destruct (add_favorite_people_cases rt now st people_id)
      as [[-> [->|[->| ->]]]|(_ & _ & _ & ->)]; simpl; auto.
  - destruct (delete_favorite_planet_cases rt st planet_id)
      as [[_ ->]|(k & f & _ & _ & _ & ->)];
      [destruct (binds rt planet_id)|]; simpl; auto 6.
  - destruct (delete_favorite_people_cases rt st people_id)
      as [[_ ->]|(k & f & _ & _ & _ & ->)];
      [destruct (binds rt people_id)|]; simpl; auto 6.
Qed.

(** ** Invariants of the store *)

Lemma dispatch_change (rt : Runtime) (now : datetime) (st : Store)
    (req : Request) :
  change rt st (dispatch rt now st req).1.
Proof.
  pose proof (get_store rt now st req) as Hget.
  destruct req; try (rewrite Hget by reflexivity; apply change_nothing);
    clear Hget; simpl.
  - destruct (create_person_cases rt now st get_json)
      as [[-> _]|(d & c & _ & -> & _ & _ & Hfk & _)]; simpl;
      [apply change_nothing|by apply change_character_added].
  - destruct (update_person_cases rt st people_id get_json)
      as [[-> _]|(c & c' & Hc & -> & Hat & Hfk)]; simpl;
      [apply change_nothing|by eapply change_character_updated].
  - destruct (delete_person_cases rt st people_id)
      as [[-> _]|(c & _ & _ & Hno & ->)]; simpl;
      [apply change_nothing|by apply change_character_deleted].
  - destruct (create_planet_cases rt now st get_json)
      as [[-> _]|(d & p & _ & -> & _)]; simpl;
      [apply change_nothing|apply change_planet_added].
  - destruct (update_planet_cases rt st planet_id get_json)
      as [[-> _]|(p & p' & Hp & -> & Hat)]; simpl;
      [apply change_nothing|by eapply change_planet_updated].
  - destruct (delete_planet_cases rt st planet_id)
      as [[-> _]|(p & _ & _ & Hno & ->)]; simpl;
      [apply change_nothing|by apply change_planet_deleted].
  - destruct (add_favorite_planet_cases rt now st planet_id)
      as [[-> _]|(Hu & Hp & Hno & ->)]; simpl;
      [apply change_nothing|by apply change_favorite_planet_added].
  - destruct (add_favorite_people_cases rt now st people_id)
      as [[-> _]|(Hu & Hc & Hno & ->)]; simpl;
      [apply change_nothing|by apply change_favorite_character_added].
  - destruct (delete_favorite_planet_cases rt st planet_id)
      as [[_ ->]|(k & f & _ & _ & _ & ->)]; simpl;
      [apply change_nothing|apply change_favorite_planet_deleted].
  - destruct (delete_favorite_people_cases rt st people_id)
      as [[_ ->]|(k & f & _ & _ & _ & ->)]; simpl;
      [apply change_nothing|apply change_favorite_character_deleted].
Qed.

(** A property kept by every change holds after every sequence of
    requests. *)
Lemma run_invariant (rt : Runtime) (I : Store → Prop) :
  (∀ st st', change rt st st' → I st → I st') →
  ∀ reqs st, I st → I (run rt st reqs).
Proof.
  intros Hstep reqs. induction reqs as [|[now req] reqs IH]; intros st Hst.
  - done.
  - simpl. apply IH. eapply Hstep; [apply dispatch_change|done].
Qed.

Lemma change_users (rt : Runtime) st st' :
  change rt st st' → users st' = users st.
Proof. by destruct 1. Qed.

(** X2. No request creates, changes or deletes a user: after any sequence
    of requests the users table is the one the sequence started from. *)
Theorem users_never_change (rt : Runtime) (st : Store)
    (reqs : list (datetime * Request)) :
  users (run rt st reqs) = users st.
Proof.
  apply (run_invariant rt (λ s, users s = users st)); [|done].
  intros s s' Hchange <-. by eapply change_users.
Qed.

Lemma change_favorites_unique (rt : Runtime) st st' :
  change rt st st' → favorites_unique st → favorites_unique st'.
Proof.
  intros Hchange [Hc Hp].
  destruct Hchange as [| | | | | | |id now _ _ Hno|id now _ _ Hno|k|k];
    try (by split); split; simpl; try done.
  - intros k1 k2 f1 f2 H1 H2 Hu Hid.
    apply lookup_insert_Some in H1 as [[<- <-]|[Hne1 H1]];
      apply lookup_insert_Some in H2 as [[<- <-]|[Hne2 H2]]; simpl in *.
    + done.
    + destruct (Hno k2 f2 H2). by split.
    + destruct (Hno k1 f1 H1). by split.
    + by eapply Hc.
  - intros k1 k2 f1 f2 H1 H2 Hu Hid.
    apply lookup_insert_Some in H1 as [[<- <-]|[Hne1 H1]];
      apply lookup_insert_Some in H2 as [[<- <-]|[Hne2 H2]]; simpl in *.
    + done.
    + destruct (Hno k2 f2 H2). by split.
    + destruct (Hno k1 f1 H1). by split.
    + by eapply Hp.
  - intros k1 k2 f1 f2 [_ H1]%lookup_delete_Some [_ H2]%lookup_delete_Some.
    by eapply Hc.
  - intros k1 k2 f1 f2 [_ H1]%lookup_delete_Some [_ H2]%lookup_delete_Some.
    by eapply Hp.
Qed.

(** X3. No sequence of requests produces two favorite rows with the same
    (user, character) or (user, planet) pair: the check made by the
    add-favorite handlers keeps the pairs unique. *)
Theorem favorites_stay_unique (rt : Runtime) (st : Store)
    (reqs : list (datetime * Request)) :
  favorites_unique st → favorites_unique (run rt st reqs).
Proof. apply run_invariant, change_favorites_unique. Qed.

Lemma insert_is_Some_keep {A} (m : gmap Z A) i x j :
  is_Some (m !! j) → is_Some (<[i := x]> m !! j).
Proof. intros Hj. apply lookup_insert_is_Some. destruct (decide (i = j)); auto. Qed.

Lemma change_favorites_refer (rt : Runtime) st st' :
  change rt st st' → favorites_refer st → favorites_refer st'.
Proof.
  intros Hchange [Hc Hp].
  destruct Hchange as [|c _|id c c' Hid _ _|id Hno| |id p p' Hid _|id Hno
                       |id now Hu Ht _|id now Hu Ht _|k|k];
    try (by split); split; simpl; try done.
  - intros k f Hk. destruct (Hc k f Hk) as [? ?].
    split; [done|by apply insert_is_Some_keep].
  - intros k f Hk. destruct (Hc k f Hk) as [? ?].
    split; [done|by apply insert_is_Some_keep].
  - intros k f Hk. destruct (Hc k f Hk) as [? ?]. split; [done|].
    rewrite lookup_delete_ne; [done|]. intros Heq. by apply (Hno k f Hk).
  - intros k f Hk. destruct (Hp k f Hk) as [? ?].
    split; [done|by apply insert_is_Some_keep].
  - intros k f Hk. destruct (Hp k f Hk) as [? ?].
    split; [done|by apply insert_is_Some_keep].
  - intros k f Hk. destruct (Hc k f Hk) as [? [c Hcid]]. split; [done|].
    rewrite lookup_fmap, Hcid. by eexists.
  - intros k f Hk. destruct (Hp k f Hk) as [? ?]. split; [done|].
    rewrite lookup_delete_ne; [done|]. intros Heq. by apply (Hno k f Hk).
  - intros k f [[<- <-]|[_ Hk]]%lookup_insert_Some; [by split|by eapply Hc].
  - intros k f [[<- <-]|[_ Hk]]%lookup_insert_Some; [by split|by eapply Hp].
  - intros k' f [_ Hk]%lookup_delete_Some. by eapply Hc.
  - intros k' f [_ Hk]%lookup_delete_Some. by eapply Hp.
Qed.

(** X4. No sequence of requests leaves a favorite row that refers to a
    user, a character or a planet that is not stored: adding a favorite
    checks both rows, and a character or planet that a favorite refers to
    cannot be deleted. *)
Theorem favorites_keep_referring (rt : Runtime) (st : Store)
    (reqs : list (datetime * Request)) :
  favorites_refer st → favorites_refer (run rt st reqs).
Proof. apply run_invariant, change_favorites_refer. Qed.

Lemma change_homeworlds_refer (rt : Runtime) st st' :
  foreign_keys rt = true →
  change rt st st' → homeworlds_refer st → homeworlds_refer st'.
Proof.
  intros Hfk Hchange Href.
  destruct Hchange as [|c Hc|id c c' Hid _ Hhw|id _|p|id p p' Hid _|id _
                       | | | | ]; try done; unfold homeworlds_refer; simpl.
  - intros k c0 pid [[<- <-]|[_ Hk]]%lookup_insert_Some Hpid.
    + by apply Hc.
    + by eapply Href.
  - intros k c0 pid [[<- <-]|[_ Hk]]%lookup_insert_Some Hpid.
    + destruct Hhw as [Hsame|Hnew]; [|by apply Hnew].
      rewrite Hsame in Hpid. by eapply Href.
    + by eapply Href.
  - intros k c0 pid [_ Hk]%lookup_delete_Some Hpid. by eapply Href.
  - intros k c0 pid Hk Hpid. apply insert_is_Some_keep. by eapply Href.
  - intros k c0 pid Hk Hpid. apply insert_is_Some_keep. by eapply Href.
  - intros k c' pid Hk Hpid. rewrite lookup_fmap in Hk.
    destruct (characters st !! k) as [c|] eqn:Hc; simplify_eq/=.
    unfold forget_homeworld in Hpid. case_bool_decide as Hhome.
    + discriminate.
    + rewrite lookup_delete_ne by congruence. by eapply Href.
Qed.

(** X5. Where the database enforces foreign keys, no sequence of requests
    leaves a character whose [homeworld_id] refers to a planet that is not
    stored: a create or update with an unknown planet fails, and deleting
    a planet sets the [homeworld_id] of its natives to null. *)
Theorem homeworlds_keep_referring (rt : Runtime) (st : Store)
    (reqs : list (datetime * Request)) :
  foreign_keys rt = true →
  homeworlds_refer st → homeworlds_refer (run rt st reqs).
Proof.
  intros Hfk. apply run_invariant. intros s s'.
  by apply change_homeworlds_refer.
Qed.

Lemma forget_homeworld_created_at id c :
  Character.created_at (forget_homeworld id c) = Character.created_at c.
Proof. unfold forget_homeworld. by case_bool_decide. Qed.

Lemma lookup_insert_fresh {A} (m : gmap Z A) x k y :
  m !! k = Some y → <[next_id m := x]> m !! k = Some y.
Proof.
  intros Hk. rewrite lookup_insert_ne; [done|].
  intros <-. by rewrite next_id_fresh in Hk.
Qed.

Lemma change_created_at (rt : Runtime) st st' :
  change rt st st' →
  (∀ k c c', characters st !! k = Some c → characters st' !! k = Some c' →
             Character.created_at c' = Character.created_at c)
  ∧ (∀ k p p', planets st !! k = Some p → planets st' !! k = Some p' →
               Planet.created_at p' = Planet.created_at p)
  ∧ (∀ k f f', favorite_characters st !! k = Some f →
               favorite_characters st' !! k = Some f' → f' = f)
  ∧ (∀ k f f', favorite_planets st !! k = Some f →
               favorite_planets st' !! k = Some f' → f' = f).
Proof.
  destruct 1 as [|c _|id c c' Hid Hat _|id _|p|id p p' Hid Hat|id _
                 |id now _ _ _|id now _ _ _|k0|k0]; simpl;
    repeat split; intros k x x' Hk Hk'; try congruence.
  - rewrite (lookup_insert_fresh _ _ _ _ Hk) in Hk'. congruence.
  - apply lookup_insert_Some in Hk' as [[<- <-]|[_ Hk']]; congruence.
  - apply lookup_delete_Some in Hk' as [_ Hk']. congruence.
  - rewrite (lookup_insert_fresh _ _ _ _ Hk) in Hk'. congruence.
  - apply lookup_insert_Some in Hk' as [[<- <-]|[_ Hk']]; congruence.
  - rewrite lookup_fmap, Hk in Hk'. simplify_eq/=.
    apply forget_homeworld_created_at.
  - apply lookup_delete_Some in Hk' as [_ Hk']. congruence.
  - rewrite (lookup_insert_fresh _ _ _ _ Hk) in Hk'. congruence.
  - rewrite (lookup_insert_fresh _ _ _ _ Hk) in Hk'. congruence.
  - apply lookup_delete_Some in Hk' as [_ Hk']. congruence.
  - apply lookup_delete_Some in Hk' as [_ Hk']. congruence.
Qed.

(** X6. No request changes [created_at] of a character or planet that is
    stored before and after it, whatever the body says, and no request
    alters a favorite row it leaves in place. *)
Theorem created_at_is_kept (rt : Runtime) (now : datetime) (st : Store)
    (req : Request) :
  let st' := (dispatch rt now st req).1 in
  (∀ k c c', characters st !! k = Some c → characters st' !! k = Some c' →
             Character.created_at c' = Character.created_at c)
  ∧ (∀ k p p', planets st !! k = Some p → planets st' !! k = Some p' →
               Planet.created_at p' = Planet.created_at p)
  ∧ (∀ k f f', favorite_characters st !! k = Some f →
               favorite_characters st' !! k = Some f' → f' = f)
  ∧ (∀ k f f', favorite_planets st !! k = Some f →
               favorite_planets st' !! k = Some f' → f' = f).
Proof. apply (change_created_at rt), dispatch_change. Qed.

(** ** Round trips *)

(** X7. A row just created can be read back: when POST /people (or
    /planets) answers 201, the body holds the generated id, that id was
    not in use, and a GET of that id on the resulting store returns the
    same body with 200. *)
Theorem create_then_get (rt : Runtime) (now : datetime) (st st' : Store)
    (get_json : result pyval) (body : pyval) :
  (create_person rt now st get_json = (st', (body, 201)) →
   ∃ id, field body "id" = Some (PInt id)
         ∧ characters st !! id = None
         ∧ get_single_person rt st' id = (st', (body, 200)))
  ∧ (create_planet rt now st get_json = (st', (body, 201)) →
     ∃ id, field body "id" = Some (PInt id)
           ∧ planets st !! id = None
           ∧ get_single_planet rt st' id = (st', (body, 200))).
Proof.
  split; intros Hcreate.
  - destruct (create_person_cases rt now st get_json)
      as [[_ Hcode]|(d & c & _ & Hr & _)]; rewrite Hcreate in *.
    + simpl in Hcode. lia.
    + injection Hr as -> ->. exists (next_id (characters st)).
      split; [reflexivity|]. split; [apply next_id_fresh|].
      unfold get_single_person, query_get. simpl. by rewrite lookup_insert_eq.
  - destruct (create_planet_cases rt now st get_json)
      as [[_ Hcode]|(d & p & _ & Hr & _)]; rewrite Hcreate in *.
    + simpl in Hcode. lia.
    + injection Hr as -> ->. exists (next_id (planets st)).
      split; [reflexivity|]. split; [apply next_id_fresh|].
      unfold get_single_planet, query_get. simpl. by rewrite lookup_insert_eq.
Qed.

(** X8. An updated row can be read back: when PUT /people/<id> (or
    /planets/<id>) answers 200, a GET of that id on the resulting store
    returns the same body with 200. *)
Theorem update_then_get (rt : Runtime) (st st' : Store) (id : Z)
    (get_json : result pyval) (body : pyval) :
  (update_person rt st id get_json = (st', (body, 200)) →
   get_single_person rt st' id = (st', (body, 200)))
  ∧ (update_planet rt st id get_json = (st', (body, 200)) →
     get_single_planet rt st' id = (st', (body, 200))).
Proof.
  split; intros Hupdate.
  - destruct (update_person_cases rt st id get_json)
      as [[_ Hcode]|(c & c' & _ & Hr & _)]; rewrite Hupdate in *.
    + simpl in Hcode. lia.
    + injection Hr as -> ->.
      unfold get_single_person, query_get. simpl. by rewrite lookup_insert_eq.
  - destruct (update_planet_cases rt st id get_json)
      as [[_ Hcode]|(p & p' & _ & Hr & _)]; rewrite Hupdate in *.
    + simpl in Hcode. lia.
    + injection Hr as -> ->.
      unfold get_single_planet, query_get. simpl. by rewrite lookup_insert_eq.
Qed.

(** X9. A deleted row is gone: when DELETE /people/<id> (or /planets/<id>)
    answers 200, a GET of that id and a second DELETE of it on the
    resulting store both answer 404 and change nothing. *)
Theorem delete_then_not_found (rt : Runtime) (st st' : Store) (id : Z)
    (body : pyval) :
  (delete_person rt st id = (st', (body, 200)) →
   get_single_person rt st' id = (st', (error "Character not found", 404))
   ∧ delete_person rt st' id = (st', (error "Character not found", 404)))
  ∧ (delete_planet rt st id = (st', (body, 200)) →
     get_single_planet rt st' id = (st', (error "Planet not found", 404))
     ∧ delete_planet rt st' id = (st', (error "Planet not found", 404))).
Proof.
  split; intros Hdelete.
  - destruct (delete_person_cases rt st id)
      as [[_ Hcode]|(c & _ & Hid & _ & Hr)]; rewrite Hdelete in *.
    + simpl in Hcode. lia.
    + injection Hr as -> ->.
      unfold get_single_person, delete_person, query_get. simpl.
      by rewrite lookup_delete_eq, Hid.
  - destruct (delete_planet_cases rt st id)
      as [[_ Hcode]|(p & _ & Hid & _ & Hr)]; rewrite Hdelete in *.
    + simpl in Hcode. lia.
    + injection Hr as -> ->.
      unfold get_single_planet, delete_planet, query_get. simpl.
      by rewrite lookup_delete_eq, Hid.
Qed.

Lemma first_singleton {A} (k : Z) (x : A) :
  first ({[ k := x ]} : gmap Z A) = Some (k, x).
Proof. unfold first. by rewrite map_to_list_singleton. Qed.

Lemma set_favorite_planets_back st m :
  set_favorite_planets (set_favorite_planets st m) (favorite_planets st) = st.
Proof. by destruct st. Qed.

Lemma set_favorite_characters_back st m :
  set_favorite_characters (set_favorite_characters st m)
    (favorite_characters st) = st.
Proof. by destruct st. Qed.

(** X10. Removing a favorite undoes adding it: when POST
    /favorite/planet/<id> (or /favorite/people/<id>) answers 201, the
    DELETE of the same path on the resulting store answers 200 and gives
    back exactly the store from before the POST. *)
Theorem add_then_delete_favorite (rt : Runtime) (now : datetime)
    (st st' : Store) (id : Z) (body : pyval) :
  (add_favorite_planet rt now st id = (st', (body, 201)) →
   delete_favorite_planet rt st' id
   = (st, (message "Favorite planet deleted successfully", 200)))
  ∧ (add_favorite_people rt now st id = (st', (body, 201)) →
     delete_favorite_people rt st' id
     = (st, (message "Favorite character deleted successfully", 200))).
Proof.
  split; intros Hadd.
  - destruct (add_favorite_planet_cases rt now st id)
      as [[_ Hcode]|(_ & _ & Hno & Hr)]; rewrite Hadd in *.
    + simpl in Hcode. lia.
    + injection Hr as -> ->.
      unfold delete_favorite_planet, current_user_id, first_by. simpl.
      rewrite map_filter_insert_True by done.
      rewrite (filter_none_empty _ _ Hno), insert_empty, first_singleton.
      simpl. rewrite delete_insert_eq, delete_id by apply next_id_fresh.
      by rewrite set_favorite_planets_back.
  - destruct (add_favorite_people_cases rt now st id)
      as [[_ Hcode]|(_ & _ & Hno & Hr)]; rewrite Hadd in *.
    + simpl in Hcode. lia.
    + injection Hr as -> ->.
      unfold delete_favorite_people, current_user_id, first_by. simpl.
      rewrite map_filter_insert_True by done.
      rewrite (filter_none_empty _ _ Hno), insert_empty, first_singleton.
      simpl. rewrite delete_insert_eq, delete_id by apply next_id_fresh.
      by rewrite set_favorite_characters_back.
Qed.

Lemma delete_favorite_planet_none (rt : Runtime) st id :
  (∀ k f, favorite_planets st !! k = Some f →
          ¬ (FavoritePlanet.user_id f = 1 ∧ FavoritePlanet.planet_id f = id)) →
  delete_favorite_planet rt st id
  = (st, if binds rt id
         then (error "Favorite planet not found", 404)
         else (error (str_exn rt (DBAPIError "favorite_planets")), 500)).
Proof.
  intros Hno. destruct (delete_favorite_planet_cases rt st id)
    as [[_ Hr]|(k & f & Hk & Hu & Hid & _)]; [done|].
  by destruct (Hno k f Hk).
Qed.

Lemma delete_favorite_people_none (rt : Runtime) st id :
  (∀ k f, favorite_characters st !! k = Some f →
          ¬ (FavoriteCharacter.user_id f = 1
             ∧ FavoriteCharacter.character_id f = id)) →
  delete_favorite_people rt st id
  = (st, if binds rt id
         then (error "Favorite character not found", 404)
         else (error (str_exn rt (DBAPIError "favorite_characters")), 500)).
Proof.
  intros Hno. destruct (delete_favorite_people_cases rt st id)
    as [[_ Hr]|(k & f & Hk & Hu & Hid & _)]; [done|].
  by destruct (Hno k f Hk).
Qed.

(** X11. DELETE /favorite/planet/<id> looks only at the favorites table.
    Without a row for (user 1, planet id) it changes nothing, whether or
    not the user and the planet exist, and answers 404 when the driver
    binds the id and 500 when it does not. With such a row it deletes one
    row holding that pair, leaves every other row in place and answers
    200; where pairs are unique the row deleted is the row for the pair,
    and repeating the request, for an id the driver binds, then answers
    404. The same holds for DELETE /favorite/people/<id>. *)
Theorem delete_favorite_contract (rt : Runtime) (st : Store) (id : Z) :
  ((∀ k f, favorite_planets st !! k = Some f →
           ¬ (FavoritePlanet.user_id f = 1
              ∧ FavoritePlanet.planet_id f = id)) →
   (binds rt id = true →
    delete_favorite_planet rt st id
    = (st, (error "Favorite planet not found", 404)))
   ∧ (binds rt id = false →
      delete_favorite_planet rt st id
      = (st, (error (str_exn rt (DBAPIError "favorite_planets")), 500))))
  ∧ (∀ k f, favorite_planets st !! k = Some f →
            FavoritePlanet.user_id f = 1 → FavoritePlanet.planet_id f = id →
     ∃ k0 f0,
       favorite_planets st !! k0 = Some f0
       ∧ FavoritePlanet.user_id f0 = 1 ∧ FavoritePlanet.planet_id f0 = id
       ∧ delete_favorite_planet rt st id
         = (set_favorite_planets st (delete k0 (favorite_planets st)),
            (message "Favorite planet deleted successfully", 200))
       ∧ (∀ k' f', k' ≠ k0 →
            (favorite_planets
               (set_favorite_planets st (delete k0 (favorite_planets st)))
               !! k' = Some f'
             ↔ favorite_planets st !! k' = Some f'))
       ∧ (favorites_unique st →
          k0 = k
          ∧ (binds rt id = true →
             delete_favorite_planet rt
               (set_favorite_planets st (delete k0 (favorite_planets st))) id
             = (set_favorite_planets st (delete k0 (favorite_planets st)),
                (error "Favorite planet not found", 404)))))
  ∧ ((∀ k f, favorite_characters st !! k = Some f →
             ¬ (FavoriteCharacter.user_id f = 1
                ∧ FavoriteCharacter.character_id f = id)) →
     (binds rt id = true →
      delete_favorite_people rt st id
      = (st, (error "Favorite character not found", 404)))
     ∧ (binds rt id = false →
        delete_favorite_people rt st id
        = (st, (error (str_exn rt (DBAPIError "favorite_characters")),
                500))))
  ∧ (∀ k f, favorite_characters st !! k = Some f →
            FavoriteCharacter.user_id f = 1 →
            FavoriteCharacter.character_id f = id →
     ∃ k0 f0,
       favorite_characters st !! k0 = Some f0
       ∧ FavoriteCharacter.user_id f0 = 1
       ∧ FavoriteCharacter.character_id f0 = id
       ∧ delete_favorite_people rt st id
         = (set_favorite_characters st (delete k0 (favorite_characters st)),
            (message "Favorite character deleted successfully", 200))
       ∧ (∀ k' f', k' ≠ k0 →
            (favorite_characters
               (set_favorite_characters st
                  (delete k0 (favorite_characters st)))
               !! k' = Some f'
             ↔ favorite_characters st !! k' = Some f'))
       ∧ (favorites_unique st →
          k0 = k
          ∧ (binds rt id = true →
             delete_favorite_people rt
               (set_favorite_characters st
                  (delete k0 (favorite_characters st))) id
             = (set_favorite_characters st
                  (delete k0 (favorite_characters st)),
                (error "Favorite character not found", 404))))).
Proof.
  split; [|split; [|split]].
  - intros Hno. rewrite (delete_favorite_planet_none rt st id Hno).
    by split; intros ->.
  - intros k f Hk Hu Hid.
    destruct (delete_favorite_planet_cases rt st id)
      as [[Hno _]|(k0 & f0 & Hk0 & Hu0 & Hid0 & Hr)].
    { by destruct (Hno k f Hk). }
    exists k0, f0. split; [done|]. split; [done|]. split; [done|].
    split; [done|]. split.
    { intros k' f' Hne. simpl. by rewrite lookup_delete_ne. }
    intros [_ Hp]. split.
    + eapply Hp; eauto; congruence.
    + intros Hb. rewrite delete_favorite_planet_none, Hb; [done|]. simpl.
      intros k' f' [Hne Hk']%lookup_delete_Some [Hu' Hid'].
      apply Hne. eapply Hp; eauto; congruence.
  - intros Hno. rewrite (delete_favorite_people_none rt st id Hno).
    by split; intros ->.
  - intros k f Hk Hu Hid.
    destruct (delete_favorite_people_cases rt st id)
      as [[Hno _]|(k0 & f0 & Hk0 & Hu0 & Hid0 & Hr)].
    { by destruct (Hno k f Hk). }
    exists k0, f0. split; [done|]. split; [done|]. split; [done|].
    split; [done|]. split.
    { intros k' f' Hne. simpl. by rewrite lookup_delete_ne. }
    intros [Hc _]. split.
    + eapply Hc; eauto; congruence.
    + intros Hb. rewrite delete_favorite_people_none, Hb; [done|]. simpl.
      intros k' f' [Hne Hk']%lookup_delete_Some [Hu' Hid'].
      apply Hne. eapply Hc; eauto; congruence.
Qed.

(** ** Listings *)

Lemma elem_of_all {A} (f : Z * A → pyval) (t : gmap Z A) (x : pyval) :
  x ∈ f <$> all t ↔ ∃ k v, t !! k = Some v ∧ x = f (k, v).
Proof.
  unfold all. rewrite list_elem_of_fmap. split.
  - intros ([k v] & -> & Hin%elem_of_map_to_list). eauto.
  - intros (k & v & Hk & ->). exists (k, v).
    by rewrite elem_of_map_to_list.
Qed.

Lemma length_all {A} (f : Z * A → pyval) (t : gmap Z A) :
  length (f <$> all t) = size t.
Proof. unfold all. by rewrite length_fmap, length_map_to_list. Qed.

(** X12. GET /people, GET /planets and GET /users answer 200 with a list
    that has one entry per stored row: its length is the number of rows,
    and a value occurs in it exactly when it is the serialization of a
    stored row. The store is not changed. *)
Theorem list_endpoints (rt : Runtime) (st : Store) :
  (∃ l, get_all_people rt st = (st, (PList l, 200))
        ∧ length l = size (characters st)
        ∧ ∀ x, x ∈ l ↔ ∃ id c, characters st !! id = Some c
                               ∧ x = serialize_character st id c)
  ∧ (∃ l, get_all_planets rt st = (st, (PList l, 200))
          ∧ length l = size (planets st)
          ∧ ∀ x, x ∈ l ↔ ∃ id p, planets st !! id = Some p
                                 ∧ x = serialize_planet id p)
  ∧ (∃ l, get_all_users rt st = (st, (PList l, 200))
          ∧ length l = size (users st)
          ∧ ∀ x, x ∈ l ↔ ∃ id u, users st !! id = Some u
                                 ∧ x = serialize_user id u).
Proof.
  repeat split; eexists; (split; [reflexivity|]);
    (split; [apply length_all|]); intros x; apply elem_of_all.
Qed.

(** X13. GET /users/favorites answers 404 when user 1 is not stored;
    otherwise it answers 200 with [user_id] 1, the username of user 1 and
    two lists with one entry per favorite row of user 1: each list has as
    many entries as user 1 has favorite rows of that kind, and a value
    occurs in it exactly when it is the serialization of such a row, so
    the favorites of other users never appear. The store is not
    changed. *)
Theorem user_favorites_contract (rt : Runtime) (st : Store) :
  (users st !! 1 = None →
   get_user_favorites rt st = (st, (error "User not found", 404)))
  ∧ (∀ u, users st !! 1 = Some u →
     ∃ body lc lp,
       get_user_favorites rt st = (st, (body, 200))
       ∧ field body "user_id" = Some (PInt 1)
       ∧ field body "username" = Some (PStr (User.username u))
       ∧ field body "favorite_characters" = Some (PList lc)
       ∧ field body "favorite_planets" = Some (PList lp)
       ∧ length lc = size (user_favorite_characters st 1)
       ∧ length lp = size (user_favorite_planets st 1)
       ∧ (∀ x, x ∈ lc ↔
            ∃ k f, favorite_characters st !! k = Some f
                   ∧ FavoriteCharacter.user_id f = 1
                   ∧ x = serialize_favorite_character st k f)
       ∧ (∀ x, x ∈ lp ↔
            ∃ k f, favorite_planets st !! k = Some f
                   ∧ FavoritePlanet.user_id f = 1
                   ∧ x = serialize_favorite_planet st k f)).
Proof.
  unfold get_user_favorites, current_user_id, query_get. split.
  - by intros ->.
  - intros u ->. simpl. eexists _, _, _. split; [reflexivity|].
    split; [reflexivity|]. split; [reflexivity|].
    split; [reflexivity|]. split; [reflexivity|].
    split; [apply length_all|]. split; [apply length_all|].
    split; intros x; rewrite elem_of_all; unfold user_favorite_characters,
      user_favorite_planets; split.
    + intros (k & f & [Hk Hu]%map_lookup_filter_Some & ->). eauto.
    + intros (k & f & Hk & Hu & ->). exists k, f.
      split; [by apply map_lookup_filter_Some|done].
    + intros (k & f & [Hk Hu]%map_lookup_filter_Some & ->). eauto.
    + intros (k & f & Hk & Hu & ->). exists k, f.
      split; [by apply map_lookup_filter_Some|done].
Qed.

(** X14. A favorite just added is listed: when POST /favorite/planet/<id>
    (or /favorite/people/<id>) answers 201 with some body, GET
    /users/favorites on the resulting store answers 200 and that body is
    an entry of its [favorite_planets] (or [favorite_characters]) list. *)
Theorem add_favorite_then_listed (rt : Runtime) (now : datetime)
    (st st' : Store) (id : Z) (body : pyval) :
  (add_favorite_planet rt now st id = (st', (body, 201)) →
   ∃ b l, get_user_favorites rt st' = (st', (b, 200))
          ∧ field b "favorite_planets" = Some (PList l)
          ∧ body ∈ l)
  ∧ (add_favorite_people rt now st id = (st', (body, 201)) →
     ∃ b l, get_user_favorites rt st' = (st', (b, 200))
            ∧ field b "favorite_characters" = Some (PList l)
            ∧ body ∈ l).
Proof.
  split; intros Hadd.
  - destruct (add_favorite_planet_cases rt now st id)
      as [[_ Hcode]|([u Hu] & _ & _ & Hr)]; rewrite Hadd in *.
    + simpl in Hcode. lia.
    + injection Hr as -> ->.
      unfold get_user_favorites, current_user_id, query_get. simpl. rewrite Hu.
      eexists _, _. split; [reflexivity|]. split; [reflexivity|].
      apply elem_of_all. eexists _, _. split; [|reflexivity].
      apply map_lookup_filter_Some. split; [apply lookup_insert_eq|done].
  - destruct (add_favorite_people_cases rt now st id)
      as [[_ Hcode]|([u Hu] & _ & _ & Hr)]; rewrite Hadd in *.
    + simpl in Hcode. lia.
    + injection Hr as -> ->.
      unfold get_user_favorites, current_user_id, query_get. simpl. rewrite Hu.
      eexists _, _. split; [reflexivity|]. split; [reflexivity|].
      apply elem_of_all. eexists _, _. split; [|reflexivity].
      apply map_lookup_filter_Some. split; [apply lookup_insert_eq|done].
Qed.

(** ** Users *)

Lemma field_list_to_map (l : list (string * pyval)) (key : string) :
  is_Some (field (PDict (list_to_map l)) key) ↔ key ∈ l.*1.
Proof.
  simpl. rewrite <- elem_of_dom, dom_list_to_map_L.
  by rewrite elem_of_list_to_set.
Qed.

(** X15. The serialization of a user has exactly the keys [id],
    [username], [email], [first_name], [last_name], [created_at] and
    [is_active]: the password hash is never part of it. GET /users/<id>
    answers 200 with that serialization when a user has the id; when none
    has, it answers 404 if the driver binds the id and 500 if it does
    not. No response of it carries a [password_hash]. *)
Theorem user_serialization_hides_password (rt : Runtime) (st : Store)
    (id : Z) :
  (∀ u key,
     is_Some (field (serialize_user id u) key)
     ↔ key ∈ ["id"; "username"; "email"; "first_name"; "last_name";
              "created_at"; "is_active"])
  ∧ (users st !! id = None →
     (binds rt id = true →
      get_single_user rt st id = (st, (error "User not found", 404)))
     ∧ (binds rt id = false →
        get_single_user rt st id
        = (st, (error (str_exn rt (DBAPIError "users")), 500))))
  ∧ (∀ u, users st !! id = Some u →
          get_single_user rt st id = (st, (serialize_user id u, 200))
          ∧ field (get_single_user rt st id).2.1 "username"
            = Some (PStr (User.username u)))
  ∧ field (get_single_user rt st id).2.1 "password_hash" = None.
Proof.
  split; [|split; [|split]].
  - intros u key. unfold serialize_user. by rewrite field_list_to_map.
  - unfold get_single_user, query_get. intros ->. by split; intros ->.
  - unfold get_single_user, query_get. intros u ->. simpl. by repeat split.
  - unfold get_single_user, query_get.
    by destruct (users st !! id), (binds rt id).
Qed.

(** ** Bodies that are not JSON objects *)

(** X16. POST /people and POST /planets store nothing unless the body is a
    non-empty JSON object: when [request.get_json()] raises the answer is
    500; a falsy body (null, false, 0, an empty string, list or object) is
    answered 400 "Request body is required"; any other body that is not
    an object is answered 500, for it has no [get]. *)
Theorem create_needs_object (rt : Runtime) (now : datetime) (st : Store) :
  (∀ e, create_person rt now st (Raise e)
        = (st, (error (str_exn rt e), 500))
        ∧ create_planet rt now st (Raise e)
          = (st, (error (str_exn rt e), 500)))
  ∧ (∀ body, truthy body = false →
       create_person rt now st (Ok body)
       = (st, (error "Request body is required", 400))
       ∧ create_planet rt now st (Ok body)
         = (st, (error "Request body is required", 400)))
  ∧ (∀ body, truthy body = true → (∀ d, body ≠ PDict d) →
       create_person rt now st (Ok body)
       = (st, (error (str_exn rt (AttributeError body)), 500))
       ∧ create_planet rt now st (Ok body)
         = (st, (error (str_exn rt (AttributeError body)), 500))).
Proof.
  split; [done|]. split.
  - intros body Hbody. unfold create_person, create_planet. simpl.
    by rewrite Hbody.
  - intros body Hbody Hobj. unfold create_person, create_planet. simpl.
    rewrite Hbody. simpl. destruct body; try done. by destruct (Hobj d).
Qed.

Lemma provided_list (l : list pyval) (key : string) :
  provided (PList l) key
  = if existsb (is_str key) l then Raise (TypeError (PList l)) else Ok None.
Proof. unfold provided. simpl. by destruct (existsb (is_str key) l). Qed.

Lemma provided_str (s : string) (key : string) :
  provided (PStr s) key
  = if is_substring key s then Raise (TypeError (PStr s)) else Ok None.
Proof. unfold provided. simpl. by destruct (is_substring key s). Qed.

Lemma set_characters_id st id c :
  characters st !! id = Some c →
  set_characters st (<[id := c]> (characters st)) = st.
Proof. intros Hc. rewrite insert_id by done. by destruct st. Qed.

Lemma set_planets_id st id p :
  planets st !! id = Some p →
  set_planets st (<[id := p]> (planets st)) = st.
Proof. intros Hp. rewrite insert_id by done. by destruct st. Qed.

Local Ltac column_cases :=
  repeat match goal with
         | |- context [if ?b then Raise _ else Ok None] =>
             destruct b; simpl; [reflexivity|]
         end.

Lemma update_person_list (rt : Runtime) st id c l :
  characters st !! id = Some c → l ≠ [] →
  update_person rt st id (Ok (PList l))
  = if existsb (λ key, existsb (is_str key) l) character_columns
    then (st, (error (str_exn rt (TypeError (PList l))), 500))
    else (st, (serialize_character st id c, 200)).
Proof.
  intros Hc Hl. unfold update_person, query_get. rewrite Hc. simpl.
  assert (truthy (PList l) = true) as -> by by destruct l.
  simpl. rewrite !provided_list. unfold character_columns. simpl existsb.
  column_cases.
  destruct c. simpl in *. by rewrite set_characters_id.
Qed.

Lemma update_person_str (rt : Runtime) st id c s :
  characters st !! id = Some c → s ≠ "" →
  update_person rt st id (Ok (PStr s))
  = if existsb (λ key, is_substring key s) character_columns
    then (st, (error (str_exn rt (TypeError (PStr s))), 500))
    else (st, (serialize_character st id c, 200)).
Proof.
  intros Hc Hs. unfold update_person, query_get. rewrite Hc. simpl.
  rewrite truthy_str by done.
  simpl. rewrite !provided_str. unfold character_columns. simpl existsb.
  column_cases.
  destruct c. simpl in *. by rewrite set_characters_id.
Qed.

Lemma update_planet_list (rt : Runtime) st id p l :
  planets st !! id = Some p → l ≠ [] →
  update_planet rt st id (Ok (PList l))
  = if existsb (λ key, existsb (is_str key) l) planet_columns
    then (st, (error (str_exn rt (TypeError (PList l))), 500))
    else (st, (serialize_planet id p, 200)).
Proof.
  intros Hp Hl. unfold update_planet, query_get. rewrite Hp. simpl.
  assert (truthy (PList l) = true) as -> by by destruct l.
  simpl. rewrite !provided_list. unfold planet_columns. simpl existsb.
  column_cases.
  destruct p. simpl in *. by rewrite set_planets_id.
Qed.

Lemma update_planet_str (rt : Runtime) st id p s :
  planets st !! id = Some p → s ≠ "" →
  update_planet rt st id (Ok (PStr s))
  = if existsb (λ key, is_substring key s) planet_columns
    then (st, (error (str_exn rt (TypeError (PStr s))), 500))
    else (st, (serialize_planet id p, 200)).
Proof.
  intros Hp Hs. unfold update_planet, query_get. rewrite Hp. simpl.
  rewrite truthy_str by done.
  simpl. rewrite !provided_str. unfold planet_columns. simpl existsb.
  column_cases.
  destruct p. simpl in *. by rewrite set_planets_id.
Qed.

(** X17. PUT /people/<id> on a stored character with a body that is no
    JSON object: a non-empty array is answered 500 when one of its
    elements is the name of an updatable column and otherwise 200 with the
    unchanged row; a non-empty string is answered 500 when the name of an
    updatable column occurs in it and otherwise 200 with the unchanged
    row; a number or [true] is answered 500. The store is never changed.
    PUT /planets/<id> behaves alike with the columns of a planet. *)
Theorem update_non_object_body (rt : Runtime) (st : Store) (id : Z) :
  (∀ c, characters st !! id = Some c →
     (∀ l, l ≠ [] →
        update_person rt st id (Ok (PList l))
        = if existsb (λ key, existsb (is_str key) l) character_columns
          then (st, (error (str_exn rt (TypeError (PList l))), 500))
          else (st, (serialize_character st id c, 200)))
     ∧ (∀ s, s ≠ "" →
          update_person rt st id (Ok (PStr s))
          = if existsb (λ key, is_substring key s) character_columns
            then (st, (error (str_exn rt (TypeError (PStr s))), 500))
            else (st, (serialize_character st id c, 200)))
     ∧ (∀ body, truthy body = true →
          (∀ l, body ≠ PList l) → (∀ s, body ≠ PStr s) →
          (∀ d, body ≠ PDict d) →
          update_person rt st id (Ok body)
          = (st, (error (str_exn rt (TypeError body)), 500))))
  ∧ (∀ p, planets st !! id = Some p →
       (∀ l, l ≠ [] →
          update_planet rt st id (Ok (PList l))
          = if existsb (λ key, existsb (is_str key) l) planet_columns
            then (st, (error (str_exn rt (TypeError (PList l))), 500))
            else (st, (serialize_planet id p, 200)))
       ∧ (∀ s, s ≠ "" →
            update_planet rt st id (Ok (PStr s))
            = if existsb (λ key, is_substring key s) planet_columns
              then (st, (error (str_exn rt (TypeError (PStr s))), 500))
              else (st, (serialize_planet id p, 200)))
       ∧ (∀ body, truthy body = true →
            (∀ l, body ≠ PList l) → (∀ s, body ≠ PStr s) →
            (∀ d, body ≠ PDict d) →
            update_planet rt st id (Ok body)
            = (st, (error (str_exn rt (TypeError body)), 500)))).
Proof.
  split.
  - intros c Hc. split; [intros l; by apply update_person_list|].
    split; [intros s; by apply update_person_str|].
    intros body Hbody Hl Hs Hd. unfold update_person, query_get. rewrite Hc. simpl.
    rewrite Hbody. simpl. destruct body; try done.
    + by destruct (Hs s).
    + by destruct (Hl l).
    + by destruct (Hd d).
  - intros p Hp. split; [intros l; by apply update_planet_list|].
    split; [intros s; by apply update_planet_str|].
    intros body Hbody Hl Hs Hd. unfold update_planet, query_get. rewrite Hp. simpl.
    rewrite Hbody. simpl. destruct body; try done.
    + by destruct (Hs s).
    + by destruct (Hl l).
    + by destruct (Hd d).
Qed.

(** ** Names *)



(** ** What a write leaves alone *)

(** X19. PUT /people/<id> never creates or deletes a row and touches
    nothing but the character [id]: whatever the body and the answer, the
    ids of the stored characters are the same, every other character is
    as before and all other tables are untouched. The same holds for PUT
    /planets/<id>. *)
Theorem update_touches_one_row (rt : Runtime) (st : Store) (id : Z)
    (get_json : result pyval) :
  (let st' := (update_person rt st id get_json).1 in
   dom (characters st') = dom (characters st)
   ∧ (∀ k, k ≠ id → characters st' !! k = characters st !! k)
   ∧ users st' = users st ∧ planets st' = planets st
   ∧ favorite_characters st' = favorite_characters st
   ∧ favorite_planets st' = favorite_planets st)
  ∧ (let st' := (update_planet rt st id get_json).1 in
     dom (planets st') = dom (planets st)
     ∧ (∀ k, k ≠ id → planets st' !! k = planets st !! k)
     ∧ users st' = users st ∧ characters st' = characters st
     ∧ favorite_characters st' = favorite_characters st
     ∧ favorite_planets st' = favorite_planets st).
Proof.
  split.
  - destruct (update_person_cases rt st id get_json)
      as [[-> _]|(c & c' & Hc & -> & _)]; simpl; [done|].
    repeat split.
    + by apply dom_insert_lookup_L.
    + intros k Hk. by rewrite lookup_insert_ne.
  - destruct (update_planet_cases rt st id get_json)
      as [[-> _]|(p & p' & Hp & -> & _)]; simpl; [done|].
    repeat split.
    + by apply dom_insert_lookup_L.
    + intros k Hk. by rewrite lookup_insert_ne.
Qed.

(** X20. POST /people never changes or removes a stored row: whatever the
    body and the answer, every character stored before is stored
    unchanged after, at most one character is added, and all other tables
    are untouched. The same holds for POST /planets. *)
Theorem create_keeps_rows (rt : Runtime) (now : datetime) (st : Store)
    (get_json : result pyval) :
  (let st' := (create_person rt now st get_json).1 in
   (∀ k c, characters st !! k = Some c → characters st' !! k = Some c)
   ∧ (size (characters st') ≤ S (size (characters st)))%nat
   ∧ users st' = users st ∧ planets st' = planets st
   ∧ favorite_characters st' = favorite_characters st
   ∧ favorite_planets st' = favorite_planets st)
  ∧ (let st' := (create_planet rt now st get_json).1 in
     (∀ k p, planets st !! k = Some p → planets st' !! k = Some p)
     ∧ (size (planets st') ≤ S (size (planets st)))%nat
     ∧ users st' = users st ∧ characters st' = characters st
     ∧ favorite_characters st' = favorite_characters st
     ∧ favorite_planets st' = favorite_planets st).
Proof.
  split.
  - destruct (create_person_cases rt now st get_json)
      as [[-> _]|(d & c & _ & -> & _)]; simpl.
    + repeat split; [done|lia].
    + repeat split.
      * intros k c0. apply lookup_insert_fresh.
      * rewrite map_size_insert_None by apply next_id_fresh. lia.
  - destruct (create_planet_cases rt now st get_json)
      as [[-> _]|(d & p & _ & -> & _)]; simpl.
    + repeat split; [done|lia].
    + repeat split.
      * intros k p0. apply lookup_insert_fresh.
      * rewrite map_size_insert_None by apply next_id_fresh. lia.
Qed.

(** ** Deleting a planet *)

Lemma forget_homeworld_other id c :
  Character.homeworld_id c ≠ Some id → forget_homeworld id c = c.
Proof. intros Hne. unfold forget_homeworld. by case_bool_decide. Qed.

Lemma forget_homeworld_cleared id c :
  Character.homeworld_id (forget_homeworld id c) ≠ Some id.
Proof. unfold forget_homeworld. by case_bool_decide. Qed.

Lemma forget_homeworld_native id c :
  Character.homeworld_id c = Some id →
  Character.homeworld_id (forget_homeworld id c) = None
  ∧ Character.name (forget_homeworld id c) = Character.name c.
Proof. intros Hid. unfold forget_homeworld. by case_bool_decide. Qed.

(** X21. When DELETE /planets/<id> answers 200, no stored character has
    that planet as homeworld any more: the characters native to it are
    kept, under the same ids and names, with [homeworld_id] null and a
    null [homeworld] in their serialization, and every other character is
    exactly as before. *)
Theorem delete_planet_clears_homeworld (rt : Runtime) (st st' : Store)
    (id : Z) (body : pyval) :
  delete_planet rt st id = (st', (body, 200)) →
  dom (characters st') = dom (characters st)
  ∧ (∀ k c', characters st' !! k = Some c' →
             Character.homeworld_id c' ≠ Some id)
  ∧ (∀ k c, characters st !! k = Some c →
            Character.homeworld_id c ≠ Some id →
            characters st' !! k = Some c)
  ∧ (∀ k c, characters st !! k = Some c →
            Character.homeworld_id c = Some id →
            ∃ c', characters st' !! k = Some c'
                  ∧ Character.name c' = Character.name c
                  ∧ Character.homeworld_id c' = None
                  ∧ field (serialize_character st' k c') "homeworld"
                    = Some PNone).
Proof.
  intros Hdelete. destruct (delete_planet_cases rt st id)
    as [[_ Hcode]|(p & _ & _ & _ & Hr)]; rewrite Hdelete in *.
  { simpl in Hcode. lia. }
  injection Hr as -> ->. simpl. repeat split.
  - apply dom_fmap_L.
  - intros k c' Hk. rewrite lookup_fmap in Hk.
    destruct (characters st !! k) as [c|]; simplify_eq/=.
    apply forget_homeworld_cleared.
  - intros k c Hk Hne. rewrite lookup_fmap, Hk. simpl.
    by rewrite forget_homeworld_other.
  - intros k c Hk Hid. exists (forget_homeworld id c).
    destruct (forget_homeworld_native id c Hid) as [Hnone Hname].
    rewrite lookup_fmap, Hk. repeat split; try done.
    unfold serialize_character, homeworld. rewrite Hnone. reflexivity.
Qed.

(** ** Repeating a PUT *)

Lemma flush_text_again (rt : Runtime) table maxlen old new r :
  flush_text rt table maxlen old new = Ok r →
  flush_text rt table maxlen r new = Ok r.
Proof.
  unfold flush_text. destruct new as [v|]; [|by intros [= <-]].
  destruct (same_text old v) eqn:Hsame.
  - intros [= <-]. by rewrite Hsame.
  - intros Hbind. by destruct (same_text r v).
Qed.

Lemma references_planet_planets (rt : Runtime) table st st' o :
  planets st' = planets st →
  references_planet rt table st' o = references_planet rt table st o.
Proof. intros Hp. unfold references_planet. by rewrite Hp. Qed.

Lemma flush_homeworld_again (rt : Runtime) st st' old new r :
  planets st' = planets st →
  flush_homeworld_id rt st old new = Ok r →
  flush_homeworld_id rt st' r new = Ok r.
Proof.
  intros Hp. unfold flush_homeworld_id.
  destruct new as [v|]; [|by intros [= <-]].
  destruct (same_int old v) eqn:Hsame.
  - intros [= <-]. by rewrite Hsame.
  - intros Hbind. destruct (same_int r v); [done|].
    destruct (bind_int rt "characters" v); [|done]. simpl in *.
    by rewrite (references_planet_planets rt _ st st').
Qed.

Lemma update_character_again (rt : Runtime) st st' c name height mass
    hair_color skin_color eye_color birth_year gender homeworld_id
    description image_url c' :
  planets st' = planets st →
  update_character rt st c name height mass hair_color skin_color eye_color
    birth_year gender homeworld_id description image_url = Ok c' →
  update_character rt st' c' name height mass hair_color skin_color
    eye_color birth_year gender homeworld_id description image_url = Ok c'.
Proof.
  intros Hp H. unfold update_character in H. binds H.
  injection H as <-. apply (not_null_Ok rt) in E0 as ->.
  unfold update_character. simpl.
  rewrite (flush_text_again _ _ _ _ _ _ E). simpl.
  rewrite (flush_text_again _ _ _ _ _ _ E1). simpl.
  rewrite (flush_text_again _ _ _ _ _ _ E2). simpl.
  rewrite (flush_text_again _ _ _ _ _ _ E3). simpl.
  rewrite (flush_text_again _ _ _ _ _ _ E4). simpl.
  rewrite (flush_text_again _ _ _ _ _ _ E5). simpl.
  rewrite (flush_text_again _ _ _ _ _ _ E6). simpl.
  rewrite (flush_text_again _ _ _ _ _ _ E7). simpl.
  rewrite (flush_homeworld_again _ _ _ _ _ _ Hp E8). simpl.
  rewrite (flush_text_again _ _ _ _ _ _ E9). simpl.
  rewrite (flush_text_again _ _ _ _ _ _ E10). simpl.
  reflexivity.
Qed.

Lemma update_planet_row_again (rt : Runtime) p name rotation_period
    orbital_period diameter climate gravity terrain surface_water population
    description image_url p' :
  update_planet_row rt p name rotation_period orbital_period diameter
    climate gravity terrain surface_water population description image_url
  = Ok p' →
  update_planet_row rt p' name rotation_period orbital_period diameter
    climate gravity terrain surface_water population description image_url
  = Ok p'.
Proof.
  intros H. unfold update_planet_row in H. binds H.
  injection H as <-. apply (not_null_Ok rt) in E0 as ->.
  unfold update_planet_row. simpl.
  rewrite (flush_text_again _ _ _ _ _ _ E). simpl.
  rewrite (flush_text_again _ _ _ _ _ _ E1). simpl.
  rewrite (flush_text_again _ _ _ _ _ _ E2). simpl.
  rewrite (flush_text_again _ _ _ _ _ _ E3). simpl.
  rewrite (flush_text_again _ _ _ _ _ _ E4). simpl.
  rewrite (flush_text_again _ _ _ _ _ _ E5). simpl.
  rewrite (flush_text_again _ _ _ _ _ _ E6). simpl.
  rewrite (flush_text_again _ _ _ _ _ _ E7). simpl.
  rewrite (flush_text_again _ _ _ _ _ _ E8). simpl.
  rewrite (flush_text_again _ _ _ _ _ _ E9). simpl.
  rewrite (flush_text_again _ _ _ _ _ _ E10). simpl.
  reflexivity.
Qed.

Local Ltac replay :=
  repeat match goal with
         | E : provided _ _ = _ |- _ => rewrite E; simpl
         end.

Lemma update_person_again (rt : Runtime) st id get_json :
  update_person rt (update_person rt st id get_json).1 id get_json
  = update_person rt st id get_json.
Proof.
  destruct (update_person rt st id get_json) as [st1 resp] eqn:H1. simpl.
  unfold update_person, query_get in H1.
  destruct (characters st !! id) as [c|] eqn:Hc; simpl in H1;
    [|destruct (binds rt id) eqn:Hid; simpl in H1; injection H1 as <- <-;
      unfold update_person, query_get; by rewrite Hc, Hid].
  destruct get_json as [body|e]; simpl in H1;
    [|injection H1 as <- <-; unfold update_person, query_get; by rewrite Hc].
  destruct (truthy body) eqn:Hb; simpl in H1;
    [|injection H1 as <- <-; unfold update_person, query_get; rewrite Hc; simpl;
      by rewrite Hb].
  repeat match type of H1 with
         | context [bind (provided ?b ?k) _] =>
             destruct (provided b k) eqn:?; simpl in H1;
             [|injection H1 as <- <-; unfold update_person, query_get; rewrite Hc;
               simpl; rewrite Hb; simpl; replay; reflexivity]
         end.
  destruct (update_character _ _ _ _ _ _ _ _ _ _ _ _ _ _)
    as [c'|e] eqn:Hupd in H1; simpl in H1; injection H1 as <- <-.
  - unfold update_person, query_get. simpl. rewrite lookup_insert_eq. simpl.
    rewrite Hb. simpl. replay.
    rewrite (update_character_again rt st (set_characters st _)
               _ _ _ _ _ _ _ _ _ _ _ _ _ eq_refl Hupd).
    simpl. by rewrite insert_insert_eq.
  - unfold update_person, query_get. rewrite Hc. simpl. rewrite Hb. simpl. replay.
    by rewrite Hupd.
Qed.

Lemma update_planet_again (rt : Runtime) st id get_json :
  update_planet rt (update_planet rt st id get_json).1 id get_json
  = update_planet rt st id get_json.
Proof.
  destruct (update_planet rt st id get_json) as [st1 resp] eqn:H1. simpl.
  unfold update_planet, query_get in H1.
  destruct (planets st !! id) as [p|] eqn:Hp; simpl in H1;
    [|destruct (binds rt id) eqn:Hid; simpl in H1; injection H1 as <- <-;
      unfold update_planet, query_get; by rewrite Hp, Hid].
  destruct get_json as [body|e]; simpl in H1;
    [|injection H1 as <- <-; unfold update_planet, query_get; by rewrite Hp].
  destruct (truthy body) eqn:Hb; simpl in H1;
    [|injection H1 as <- <-; unfold update_planet, query_get; rewrite Hp; simpl;
      by rewrite Hb].
  repeat match type of H1 with
         | context [bind (provided ?b ?k) _] =>
             destruct (provided b k) eqn:?; simpl in H1;
             [|injection H1 as <- <-; unfold update_planet, query_get; rewrite Hp;
               simpl; rewrite Hb; simpl; replay; reflexivity]
         end.
  destruct (update_planet_row _ _ _ _ _ _ _ _ _ _ _ _ _)
    as [p'|e] eqn:Hupd in H1; simpl in H1; injection H1 as <- <-.
  - unfold update_planet, query_get. simpl. rewrite lookup_insert_eq. simpl.
    rewrite Hb. simpl. replay.
    rewrite (update_planet_row_again rt _ _ _ _ _ _ _ _ _ _ _ _ _ Hupd).
    simpl. by rewrite insert_insert_eq.
  - unfold update_planet, query_get. rewrite Hp. simpl. rewrite Hb. simpl. replay.
    by rewrite Hupd.
Qed.

(** X22. PUT is idempotent: sending the same PUT /people/<id> (or
    /planets/<id>) again, on the store the first one left, gives the same
    answer and leaves that store as it is, whatever the body. *)
Theorem update_idempotent (rt : Runtime) (st : Store) (id : Z)
    (get_json : result pyval) :
  (let r := update_person rt st id get_json in
   update_person rt r.1 id get_json = r)
  ∧ (let r := update_planet rt st id get_json in
     update_planet rt r.1 id get_json = r).
Proof.
  split; simpl; [apply update_person_again|apply update_planet_again].
Qed.

(** ** What a favorite embeds *)

(** X23. In a store whose favorites refer to stored rows, the [character]
    embedded in the serialization of a favorite is exactly the body that
    GET /people/<character_id> returns, and the [planet] embedded in a
    favorite planet is the body that GET /planets/<planet_id> returns;
    neither is null. *)
Theorem favorite_embeds_target (rt : Runtime) (st : Store) (k : Z) :
  favorites_refer st →
  (∀ f, favorite_characters st !! k = Some f →
        ∃ x, field (serialize_favorite_character st k f) "character" = Some x
             ∧ x ≠ PNone
             ∧ get_single_person rt st (FavoriteCharacter.character_id f)
               = (st, (x, 200)))
  ∧ (∀ f, favorite_planets st !! k = Some f →
          ∃ x, field (serialize_favorite_planet st k f) "planet" = Some x
               ∧ x ≠ PNone
               ∧ get_single_planet rt st (FavoritePlanet.planet_id f)
                 = (st, (x, 200))).
Proof.
  intros [Hc Hp]. split; intros f Hk.
  - destruct (Hc k f Hk) as [_ [c Hcid]].
    exists (serialize_character st (FavoriteCharacter.character_id f) c).
    unfold serialize_favorite_character, get_single_person, query_get. rewrite Hcid.
    repeat split; done.
  - destruct (Hp k f Hk) as [_ [p Hpid]].
    exists (serialize_planet (FavoritePlanet.planet_id f) p).
    unfold serialize_favorite_planet, get_single_planet, query_get. rewrite Hpid.
    repeat split; done.
Qed.

(** ** The database URL *)

Lemma replace_from_absent (old new s : string) :
  is_substring old s = false → replace_from old new 0 s = s.
Proof.
  induction s as [|c s IH]; [done|]. intros H.
  change (is_substring old (String c s))
    with (if String.prefix old (String c s) then true
          else is_substring old s) in H.
  change (replace_from old new 0 (String c s))
    with (if String.prefix old (String c s)
          then (new ++ replace_from old new (String.length old - 1) s)%string
          else String c (replace_from old new 0 s)).
  destruct (String.prefix old (String c s)); [done|].
  by rewrite IH.
Qed.

(** X24. The database URI: without [DATABASE_URL] it is the SQLite file
    [sqlite:////tmp/test.db]; a URL in which [postgres://] does not occur
    (such as one that already starts with [postgresql://]) is taken as it
    is; and in a URL that starts with [postgres://] and has no further
    occurrence of it the scheme becomes [postgresql://] and the rest is
    kept. *)
Theorem database_uri_contract :
  database_uri None = "sqlite:////tmp/test.db"
  ∧ (∀ u, is_substring "postgres://" u = false →
          database_uri (Some u) = u)
  ∧ (∀ rest, is_substring "postgres://" rest = false →
             database_uri (Some ("postgres://" ++ rest)%string)
             = ("postgresql://" ++ rest)%string).
Proof.
  split; [done|]. split.
  - intros u Hu. by apply replace_from_absent.
  - intros rest Hrest. unfold database_uri, replace.
    simpl. change ("" +:+ rest)%string with rest.
    replace (String.prefix "" rest) with true by (by destruct rest).
    by rewrite replace_from_absent.
Qed.

Lemma database_uri_contract_witness :
  database_uri (Some "postgresql://u:p@db.example.org:5432/starwars")
  = "postgresql://u:p@db.example.org:5432/starwars"
  ∧ database_uri (Some "postgres://u:p@db.example.org:5432/starwars")
    = "postgresql://u:p@db.example.org:5432/starwars".
Proof.
  split.
  - apply (proj1 (proj2 database_uri_contract)). reflexivity.
  - apply (proj2 (proj2 database_uri_contract)
             "u:p@db.example.org:5432/starwars"). reflexivity.
Defined.

Example replace_overlapping : replace "aa" "b" "aaa" = "ba".
Proof. reflexivity. Qed.

(** ** The example stores are well formed *)

Local Ltac rows :=
  repeat match goal with
         | H : <[_ := _]> _ !! _ = Some _ |- _ =>
             apply lookup_insert_Some in H as [[<- <-]|[? H]]
         | H : {[_ := _]} !! _ = Some _ |- _ =>
             apply lookup_singleton_Some in H as [<- <-]
         | H : ∅ !! _ = Some _ |- _ => by rewrite lookup_empty in H
         end.

Lemma fan_store_unique : favorites_unique fan_store.
Proof.
  split; simpl; intros k1 k2 f1 f2 H1 H2 Hu Hid; rows;
    simpl in *; congruence.
Qed.

Lemma fan_store_refers : favorites_refer fan_store.
Proof.
  split; simpl; intros k f Hk; rows; simpl; split; by eexists.
Qed.

Lemma naboo_unique : favorites_unique naboo_store.
Proof. split; simpl; intros k1 k2 f1 f2 H1; rows. Qed.

Lemma naboo_refers : favorites_refer naboo_store.
Proof. split; simpl; intros k f Hk; rows. Qed.

Lemma naboo_homeworlds : homeworlds_refer naboo_store.
Proof.
  intros k c pid Hk Hpid. simpl in Hk. rows; simplify_eq/=. by eexists.
Qed.


(** ** The properties at work on the example stores *)

Lemma failure_leaves_store_witness :
  (dispatch strict noon fan_store GET_users_favorites).1 = fan_store.
Proof.
  apply (proj2 (failure_leaves_store strict noon fan_store
                  GET_users_favorites)).
  reflexivity.
Defined.

Lemma favorites_stay_unique_witness :
  favorites_unique
    (run strict fan_store
       [(noon, POST_favorite_planet_id 3); (noon, POST_favorite_people_id 2);
        (noon, DELETE_favorite_people_id 1);
        (noon, POST_favorite_people_id 1)]).
Proof. apply favorites_stay_unique. apply fan_store_unique. Defined.

Lemma favorites_keep_referring_witness :
  favorites_refer
    (run strict fan_store
       [(noon, DELETE_people_id 1); (noon, DELETE_favorite_people_id 1);
        (noon, DELETE_planets_id 3); (noon, DELETE_people_id 2)]).
Proof. apply favorites_keep_referring. apply fan_store_refers. Defined.

Lemma homeworlds_keep_referring_witness :
  homeworlds_refer
    (run strict naboo_store
       [(noon, PUT_people_id 1 (Ok (PDict {[ "homeworld_id" := PInt 9 ]})));
        (noon, PUT_people_id 1 (Ok (PDict {[ "homeworld_id" := PInt 3 ]})));
        (noon, DELETE_planets_id 3)]).
Proof.
  apply homeworlds_keep_referring; [reflexivity|apply naboo_homeworlds].
Defined.

Lemma created_at_is_kept_witness :
  let req := PUT_people_id 1
               (Ok (PDict {[ "name" := PStr "Luke";
                             "created_at" := PStr "1977-05-25T00:00:00" ]})) in
  let c' := Character.mk "Luke" (Some "172") None None None None None None
              None None None (Some noon) in
  characters (dispatch strict noon naboo_store req).1 !! 1 = Some c'
  ∧ Character.created_at c' = Character.created_at luke.
Proof.
  intros req c'. split; [reflexivity|].
  apply (proj1 (created_at_is_kept strict noon naboo_store req) 1 luke c');
    reflexivity.
Defined.

Lemma create_then_get_witness :
  let r := create_person strict noon naboo_store
             (Ok (PDict {[ "name" := PStr "Han Solo" ]})) in
  ∃ id, field r.2.1 "id" = Some (PInt id)
        ∧ characters naboo_store !! id = None
        ∧ get_single_person strict r.1 id = (r.1, (r.2.1, 200)).
Proof.
  intros r.
  apply (proj1 (create_then_get strict noon naboo_store r.1
                  (Ok (PDict {[ "name" := PStr "Han Solo" ]})) r.2.1)).
  reflexivity.
Defined.

Lemma update_then_get_witness :
  let r := update_person strict naboo_store 1
             (Ok (PDict {[ "mass" := PStr "77" ]})) in
  get_single_person strict r.1 1 = (r.1, (r.2.1, 200)).
Proof.
  intros r.
  apply (proj1 (update_then_get strict naboo_store r.1 1
                  (Ok (PDict {[ "mass" := PStr "77" ]})) r.2.1)).
  reflexivity.
Defined.

Lemma delete_then_not_found_witness :
  let r := delete_person strict naboo_store 1 in
  get_single_person strict r.1 1
  = (r.1, (error "Character not found", 404))
  ∧ delete_person strict r.1 1 = (r.1, (error "Character not found", 404)).
Proof.
  intros r.
  apply (proj1 (delete_then_not_found strict naboo_store r.1 1 r.2.1)).
  reflexivity.
Defined.

Lemma add_then_delete_favorite_witness :
  let r := add_favorite_people strict noon fan_store 2 in
  delete_favorite_people strict r.1 2
  = (fan_store, (message "Favorite character deleted successfully", 200)).
Proof.
  intros r.
  apply (proj2 (add_then_delete_favorite strict noon fan_store r.1 2 r.2.1)).
  reflexivity.
Defined.

Lemma delete_favorite_contract_witness :
  let st' := set_favorite_planets fan_store
               (delete 1 (favorite_planets fan_store)) in
  delete_favorite_planet strict fan_store 3
  = (st', (message "Favorite planet deleted successfully", 200))
  ∧ delete_favorite_planet strict st' 3
    = (st', (error "Favorite planet not found", 404))
  ∧ delete_favorite_people lenient naboo_store 9223372036854775808
    = (naboo_store, (error "DBAPIError favorite_characters", 500)).
Proof.
  intros st'. split; [|split].
  - destruct (proj1 (proj2 (delete_favorite_contract strict fan_store 3))
                1 (FavoritePlanet.mk 1 3 (Some noon)))
      as (k0 & f0 & _ & _ & _ & Hr & _ & Hu); [reflexivity..|].
    destruct (Hu fan_store_unique) as [-> _]. exact Hr.
  - destruct (proj1 (proj2 (delete_favorite_contract strict fan_store 3))
                1 (FavoritePlanet.mk 1 3 (Some noon)))
      as (k0 & f0 & _ & _ & _ & _ & _ & Hu); [reflexivity..|].
    destruct (Hu fan_store_unique) as [-> Hagain]. by apply Hagain.
  - destruct (proj1 (proj2 (proj2 (delete_favorite_contract lenient
                                     naboo_store 9223372036854775808))))
      as [_ H].
    + intros k f Hk. simpl in Hk. by rewrite lookup_empty in Hk.
    + by apply H.
Defined.

Lemma user_favorites_contract_witness :
  ∃ body lc lp,
    get_user_favorites strict fan_store = (fan_store, (body, 200))
    ∧ field body "username" = Some (PStr "han")
    ∧ field body "favorite_characters" = Some (PList lc)
    ∧ field body "favorite_planets" = Some (PList lp)
    ∧ length lc = 1%nat
    ∧ length lp = 1%nat
    ∧ serialize_favorite_character fan_store 1
        (FavoriteCharacter.mk 1 1 (Some noon)) ∈ lc
    ∧ serialize_favorite_planet fan_store 1
        (FavoritePlanet.mk 1 3 (Some noon)) ∈ lp.
Proof.
  destruct (proj2 (user_favorites_contract strict fan_store) han)
    as (body & lc & lp & Hr & _ & Hn & Hc & Hp & Hlc & Hlp & Hinc & Hinp);
    [reflexivity|].
  exists body, lc, lp. repeat split; try done.
  - apply Hinc. by exists 1, (FavoriteCharacter.mk 1 1 (Some noon)).
  - apply Hinp. by exists 1, (FavoritePlanet.mk 1 3 (Some noon)).
Defined.

Lemma add_favorite_then_listed_witness :
  let r := add_favorite_planet strict noon naboo_store 3 in
  ∃ b l, get_user_favorites strict r.1 = (r.1, (b, 200))
         ∧ field b "favorite_planets" = Some (PList l)
         ∧ r.2.1 ∈ l.
Proof.
  intros r.
  apply (proj1 (add_favorite_then_listed strict noon naboo_store r.1 3
                  r.2.1)).
  reflexivity.
Defined.

Lemma user_serialization_hides_password_witness :
  (get_single_user strict naboo_store 1
   = (naboo_store, (serialize_user 1 han, 200))
   ∧ field (get_single_user strict naboo_store 1).2.1 "username"
     = Some (PStr "han"))
  ∧ get_single_user lenient naboo_store 7
    = (naboo_store, (error "User not found", 404))
  ∧ get_single_user lenient naboo_store 9223372036854775808
    = (naboo_store, (error "DBAPIError users", 500)).
Proof.
  split; [|split].
  - apply (proj1 (proj2 (proj2 (user_serialization_hides_password strict
                                  naboo_store 1))) han).
    reflexivity.
  - destruct (proj1 (proj2 (user_serialization_hides_password lenient
                              naboo_store 7))) as [H _]; [reflexivity|].
    by apply H.
  - destruct (proj1 (proj2 (user_serialization_hides_password lenient
                              naboo_store 9223372036854775808)))
      as [_ H]; [reflexivity|].
    by apply H.
Defined.

Lemma create_needs_object_witness :
  create_person strict noon naboo_store (Ok (PList []))
  = (naboo_store, (error "Request body is required", 400))
  ∧ create_planet strict noon naboo_store (Ok (PList []))
    = (naboo_store, (error "Request body is required", 400)).
Proof.
  apply (proj1 (proj2 (create_needs_object strict noon naboo_store))).
  reflexivity.
Defined.

Lemma update_non_object_body_witness :
  update_person strict naboo_store 1 (Ok (PList [PInt 7; PStr "mass"]))
  = (naboo_store, (error "TypeError", 500))
  ∧ update_person strict naboo_store 1 (Ok (PList [PInt 7; PStr "weight"]))
    = (naboo_store, (serialize_character naboo_store 1 luke, 200)).
Proof.
  destruct (update_non_object_body strict naboo_store 1) as [H _].
  destruct (H luke) as [Hlist _]; [reflexivity|]. split.
  - apply (Hlist [PInt 7; PStr "mass"]). discriminate.
  - apply (Hlist [PInt 7; PStr "weight"]). discriminate.
Defined.


Lemma update_touches_one_row_witness :
  characters (update_person strict naboo_store 1
                (Ok (PDict {[ "name" := PStr "Leia Organa" ]}))).1 !! 2
  = Some leia.
Proof.
  apply (proj1 (proj2 (proj1 (update_touches_one_row strict naboo_store 1
                                (Ok (PDict {[ "name" := PStr "Leia Organa" ]}))))) 2).
  lia.
Defined.

Lemma create_keeps_rows_witness :
  characters (create_person strict noon naboo_store
                (Ok (PDict {[ "name" := PStr "Han Solo" ]}))).1 !! 1
  = Some luke.
Proof.
  apply (proj1 (proj1 (create_keeps_rows strict noon naboo_store
                         (Ok (PDict {[ "name" := PStr "Han Solo" ]}))))).
  reflexivity.
Defined.

Lemma delete_planet_clears_homeworld_witness :
  let r := delete_planet strict naboo_store 3 in
  dom (characters r.1) = dom (characters naboo_store)
  ∧ (∀ k c', characters r.1 !! k = Some c' →
             Character.homeworld_id c' ≠ Some 3)
  ∧ (∀ k c, characters naboo_store !! k = Some c →
            Character.homeworld_id c ≠ Some 3 →
            characters r.1 !! k = Some c)
  ∧ (∀ k c, characters naboo_store !! k = Some c →
            Character.homeworld_id c = Some 3 →
            ∃ c', characters r.1 !! k = Some c'
                  ∧ Character.name c' = Character.name c
                  ∧ Character.homeworld_id c' = None
                  ∧ field (serialize_character r.1 k c') "homeworld"
                    = Some PNone).
Proof.
  intros r.
  apply (delete_planet_clears_homeworld strict naboo_store r.1 3 r.2.1).
  reflexivity.
Defined.

Lemma favorite_embeds_target_witness :
  ∃ x, field (serialize_favorite_character fan_store 2
                (FavoriteCharacter.mk 2 1 (Some noon))) "character" = Some x
       ∧ x ≠ PNone
       ∧ get_single_person strict fan_store 1 = (fan_store, (x, 200)).
Proof.
  apply (proj1 (favorite_embeds_target strict fan_store 2 fan_store_refers)
           (FavoriteCharacter.mk 2 1 (Some noon))).
  reflexivity.
Defined.

(** ** Writing back what was read *)

Lemma same_text_of_text (o : option string) : same_text o (of_text o) = true.
Proof. destruct o as [s|]; simpl; [apply String.eqb_refl|done]. Qed.

Lemma flush_text_of_text (rt : Runtime) table maxlen (o : option string) :
  flush_text rt table maxlen o (Some (of_text o)) = Ok o.
Proof. unfold flush_text. by rewrite same_text_of_text. Qed.

Lemma flush_text_name (rt : Runtime) table maxlen (s : string) :
  flush_text rt table maxlen (Some s) (Some (PStr s)) = Ok (Some s).
Proof. apply (flush_text_of_text rt table maxlen (Some s)). Qed.

Lemma put_character_serialized (rt : Runtime) st id c d :
  serialize_character st id c = PDict d → put_character rt st c d = Ok c.
Proof.
  intros [= <-]. unfold put_character.
  change (update_character rt st c
            (Some (PStr (Character.name c)))
            (Some (of_text (Character.height c)))
            (Some (of_text (Character.mass c)))
            (Some (of_text (Character.hair_color c)))
            (Some (of_text (Character.skin_color c)))
            (Some (of_text (Character.eye_color c)))
            (Some (of_text (Character.birth_year c)))
            (Some (of_text (Character.gender c)))
            None
            (Some (of_text (Character.description c)))
            (Some (of_text (Character.image_url c))) = Ok c).
  unfold update_character.
  rewrite flush_text_name, !flush_text_of_text. by destruct c.
Qed.

Lemma put_planet_serialized (rt : Runtime) id p d :
  serialize_planet id p = PDict d → put_planet rt p d = Ok p.
Proof.
  intros [= <-]. unfold put_planet.
  change (update_planet_row rt p
            (Some (PStr (Planet.name p)))
            (Some (of_text (Planet.rotation_period p)))
            (Some (of_text (Planet.orbital_period p)))
            (Some (of_text (Planet.diameter p)))
            (Some (of_text (Planet.climate p)))
            (Some (of_text (Planet.gravity p)))
            (Some (of_text (Planet.terrain p)))
            (Some (of_text (Planet.surface_water p)))
            (Some (of_text (Planet.population p)))
            (Some (of_text (Planet.description p)))
            (Some (of_text (Planet.image_url p))) = Ok p).
  unfold update_planet_row.
  rewrite flush_text_name, !flush_text_of_text. by destruct p.
Qed.

(** X25. Writing back what was read changes nothing: a PUT /people/<id>
    whose body is the body that GET /people/<id> returns is answered 200
    with that same body and leaves the store as it is, on every
    deployment; the keys [id], [homeworld] and [created_at] of the body
    are ignored. The same holds for planets. *)
Theorem put_of_get_changes_nothing (rt : Runtime) (st : Store) (id : Z) :
  (∀ c, characters st !! id = Some c →
        update_person rt st id (Ok (get_single_person rt st id).2.1)
        = (st, ((get_single_person rt st id).2.1, 200)))
  ∧ (∀ p, planets st !! id = Some p →
          update_planet rt st id (Ok (get_single_planet rt st id).2.1)
          = (st, ((get_single_planet rt st id).2.1, 200))).
Proof.
  split.
  - intros c Hc. unfold get_single_person, query_get. rewrite Hc. simpl.
    destruct (serialize_character st id c) as [| | | | | |d] eqn:Hd;
      try discriminate.
    assert (d ≠ ∅) as Hne.
    { injection Hd as <-. apply insert_non_empty. }
    rewrite (update_person_dict rt st id c d Hc Hne).
    rewrite (put_character_serialized rt st id c d Hd). simpl.
    by rewrite set_characters_id, Hd.
  - intros p Hp. unfold get_single_planet, query_get. rewrite Hp. simpl.
    destruct (serialize_planet id p) as [| | | | | |d] eqn:Hd;
      try discriminate.
    assert (d ≠ ∅) as Hne.
    { injection Hd as <-. apply insert_non_empty. }
    rewrite (update_planet_dict rt st id p d Hp Hne).
    rewrite (put_planet_serialized rt id p d Hd). simpl.
    by rewrite set_planets_id, Hd.
Qed.

Lemma put_of_get_changes_nothing_witness :
  update_person strict naboo_store 2
    (Ok (get_single_person strict naboo_store 2).2.1)
  = (naboo_store, ((get_single_person strict naboo_store 2).2.1, 200)).
Proof.
  apply (proj1 (put_of_get_changes_nothing strict naboo_store 2) leia).
  reflexivity.
Defined.
